(** * Verification of the stage-proof generator (scripts/generate-proof.py)

    A shallow embedding of the metric extractors, the summary and review
    composers and the template synthesizer of [ProofGenerator], together
    with the properties of the specification that concern them.

    Modelling conventions.
    - A Python [str] is a list of Unicode code points ([text]).
    - The character tables of the Python runtime (the classes [\s] and
      [\d] of [re], [str.lower], the case-insensitive comparison of
      [re.IGNORECASE]) are the fields of the class [Runtime]; every
      general theorem holds for every such runtime.  Concrete inputs are
      evaluated with [ascii_runtime], which coincides with CPython on
      texts of ASCII characters.
    - The file system and the clock that the program reads are the two
      fields of [world].
    - A Python exception is a value [Raise e] of the type [result]. *)

From Stdlib Require Import ZArith NArith List Ascii String Lia Bool DecimalString DecimalPos.
From stdpp Require Import gmap strings.
Import ListNotations.

Local Open Scope N_scope.

(** ** Texts *)

Definition char := N.
Definition text := list char.

(** Decoding of the UTF-8 bytes of a source literal into code points:
    [need] continuation bytes are still expected for the code point whose
    leading bits are [acc]. *)
Fixpoint utf8 (bs : list N) (need : nat) (acc : N) : text :=
  match bs with
  | [] => []
  | b :: bs' =>
      match need with
      | O => if b <? 128 then b :: utf8 bs' 0 0
             else if b <? 224 then utf8 bs' 1 (b mod 32)
             else if b <? 240 then utf8 bs' 2 (b mod 16)
             else utf8 bs' 3 (b mod 8)
      | S O => (acc * 64 + b mod 64) :: utf8 bs' 0 0
      | S n => utf8 bs' n (acc * 64 + b mod 64)
      end
  end.

(** The text denoted by a literal of the source. *)
Definition u (s : string) : text :=
  utf8 (List.map N_of_ascii (list_ascii_of_string s)) 0 0.

Definition text_eqb (a b : text) : bool := bool_decide (a = b).

(** [s.startswith(l)], returning the remainder of [s]. *)
Fixpoint strip_prefix (l s : text) : option text :=
  match l, s with
  | [], _ => Some s
  | _ :: _, [] => None
  | a :: l', b :: s' => if a =? b then strip_prefix l' s' else None
  end.

(** [l in s] for two strings. *)
Fixpoint contains (l s : text) : bool :=
  match strip_prefix l s with
  | Some _ => true
  | None => match s with
            | [] => false
            | _ :: s' => contains l s'
            end
  end.

(** [s.replace(old, new)] for a non-empty [old] (every call of the program
    passes a non-empty literal): non-overlapping occurrences, leftmost
    first.  [skip] counts the characters of the occurrence just replaced
    that are still to be dropped. *)
Fixpoint replace_from (old new s : text) (skip : nat) : text :=
  match s with
  | [] => []
  | c :: s' =>
      match skip with
      | S k => replace_from old new s' k
      | O => match strip_prefix old s with
             | Some _ => new ++ replace_from old new s' (Nat.pred (List.length old))
             | None => c :: replace_from old new s' 0
             end
      end
  end.

Definition replace (old new s : text) : text := replace_from old new s 0.

(** [str(n)] for an integer. *)
Definition str_of_Z (n : Z) : text := u (NilZero.string_of_int (Z.to_int n)).

(** ** The character tables of the runtime *)

Class Runtime := {
  (** the class [\s] of [re] on [str] patterns *)
  re_space : char -> bool;
  (** the decimal value of a character of the class [\d], if it is one *)
  decimal : char -> option N;
  (** [str.lower] and [str.upper] *)
  lower : text -> text;
  upper : text -> text;
  (** [x] matches the pattern character [p] under [re.IGNORECASE] *)
  re_ieq : char -> char -> bool
}.

Definition ascii_lower (c : char) : char :=
  if (65 <=? c) && (c <=? 90) then c + 32 else c.

Definition ascii_upper (c : char) : char :=
  if (97 <=? c) && (c <=? 122) then c - 32 else c.

(** CPython restricted to ASCII: the whitespace characters are
    [\t\n\v\f\r], the four separators [\x1c]-[\x1f] and the space. *)
Definition ascii_runtime : Runtime := {|
  re_space c := ((9 <=? c) && (c <=? 13)) || ((28 <=? c) && (c <=? 32));
  decimal c := if (48 <=? c) && (c <=? 57) then Some (c - 48) else None;
  lower := List.map ascii_lower;
  upper := List.map ascii_upper;
  re_ieq p x := ascii_lower p =? ascii_lower x
|}.

(** ** Regular expressions

    The fragment of [re] that the program uses, matched by backtracking in
    the order of [re]: the left alternative first, a greedy repetition
    longest first, a lazy one shortest first. *)

Inductive cls := Space | Digit | DigitDot | Dot.

Inductive regex :=
| Lit (l : text)                  (* literal characters *)
| One (c : cls)                   (* one character of a class *)
| Many (greedy : bool) (c : cls)  (* [c*] and [c*?] *)
| Seq (r1 r2 : regex)
| Alt (r1 r2 : regex)
| Group (r : regex)               (* a capturing group *)
| Ahead (r : regex).              (* [(?=r)] *)

Definition Plus (c : cls) : regex := Seq (One c) (Many true c).

Record flags := { ignorecase : bool; dotall : bool }.

Definition no_flags := {| ignorecase := false; dotall := false |}.
Definition DOTALL := {| ignorecase := false; dotall := true |}.
Definition IGNORECASE := {| ignorecase := true; dotall := false |}.

Section Matching.
Context `{Runtime}.
Variable fl : flags.

Definition in_cls (c : cls) (x : char) : bool :=
  match c with
  | Space => re_space x
  | Digit => bool_decide (is_Some (decimal x))
  | DigitDot => bool_decide (is_Some (decimal x)) || (x =? 46)
  | Dot => dotall fl || negb (x =? 10)
  end.

Fixpoint strip_lit (l s : text) : option text :=
  match l, s with
  | [], _ => Some s
  | _ :: _, [] => None
  | a :: l', b :: s' =>
      if (if ignorecase fl then re_ieq a b else a =? b)
      then strip_lit l' s' else None
  end.

Fixpoint many_greedy {R : Type} (p : char -> bool) (s : text)
    (k : text -> option R) : option R :=
  match s with
  | x :: s' =>
      if p x then
        match many_greedy p s' k with
        | Some r => Some r
        | None => k s
        end
      else k s
  | [] => k s
  end.

Fixpoint many_lazy {R : Type} (p : char -> bool) (s : text)
    (k : text -> option R) : option R :=
  match k s with
  | Some r => Some r
  | None =>
      match s with
      | x :: s' => if p x then many_lazy p s' k else None
      | [] => None
      end
  end.

(** [consumed s s'] is the part of [s] before its suffix [s']. *)
Definition consumed (s s' : text) : text :=
  firstn (List.length s - List.length s') s.

(** [run r s caps k]: match [r] at the head of [s], then continue with
    [k] on the rest of the text and the groups captured so far. *)
Fixpoint run {R : Type} (r : regex) (s : text) (caps : list text)
    (k : text -> list text -> option R) : option R :=
  match r with
  | Lit l =>
      match strip_lit l s with
      | Some s' => k s' caps
      | None => None
      end
  | One c =>
      match s with
      | x :: s' => if in_cls c x then k s' caps else None
      | [] => None
      end
  | Many true c => many_greedy (in_cls c) s (fun s' => k s' caps)
  | Many false c => many_lazy (in_cls c) s (fun s' => k s' caps)
  | Seq r1 r2 => run r1 s caps (fun s' caps' => run r2 s' caps' k)
  | Alt r1 r2 =>
      match run r1 s caps k with
      | Some x => Some x
      | None => run r2 s caps k
      end
  | Group r1 =>
      run r1 s caps (fun s' caps' => k s' (caps' ++ [consumed s s']))
  | Ahead r1 =>
      match run r1 s caps (fun _ caps' => Some caps') with
      | Some caps' => k s caps'
      | None => None
      end
  end.

(** A match object: the matched text and its groups. *)
Record rmatch := { whole : text; groups : list text }.

(** [m.group(n)] for [n >= 1]. *)
Definition group (n : nat) (m : rmatch) : text :=
  nth (Nat.pred n) (groups m) [].

(** [pattern.match(s)]: a match that starts at the head of [s]. *)
Definition match_at (r : regex) (s : text) : option rmatch :=
  run r s [] (fun s' caps => Some {| whole := consumed s s'; groups := caps |}).

(** [re.search]: the leftmost start at which the pattern matches. *)
Fixpoint search (r : regex) (s : text) : option rmatch :=
  match match_at r s with
  | Some m => Some m
  | None =>
      match s with
      | [] => None
      | _ :: s' => search r s'
      end
  end.

(** [len(re.findall(r, s))] and [re.sub(r, repl, s)] for a pattern that
    matches no empty text (all the patterns of the program start with a
    literal) and a replacement without backslash: the text is scanned
    left to right, and [skip] counts the characters of the last match
    that are still to be passed over. *)
Fixpoint count_matches (r : regex) (s : text) (skip : nat) : nat :=
  match s with
  | [] => 0
  | _ :: s' =>
      match skip with
      | S k => count_matches r s' k
      | O =>
          match match_at r s with
          | Some m => S (count_matches r s' (Nat.pred (List.length (whole m))))
          | None => count_matches r s' 0
          end
      end
  end.

Fixpoint sub_from (r : regex) (repl s : text) (skip : nat) : text :=
  match s with
  | [] => []
  | c :: s' =>
      match skip with
      | S k => sub_from r repl s' k
      | O =>
          match match_at r s with
          | Some m => repl ++ sub_from r repl s' (Nat.pred (List.length (whole m)))
          | None => c :: sub_from r repl s' 0
          end
      end
  end.

Definition sub (r : regex) (repl s : text) : text := sub_from r repl s 0.
End Matching.

Infix "+++" := Seq (at level 60, right associativity).

(** ** Floating-point conversion

    [float(s)] is only applied to a text captured by [[\d.]+]: digits with
    dots.  Such a text is a decimal numeral [n / 10^k] when it holds at
    most one dot and at least one digit, and [float] raises [ValueError]
    otherwise.  The numeral is rounded to the nearest binary64 number,
    ties to even. *)

(** The value of a text of decimal digits, [None] if another character
    occurs in it. *)
Fixpoint digits_value `{Runtime} (s : text) (acc : N) : option N :=
  match s with
  | [] => Some acc
  | c :: s' =>
      match decimal c with
      | Some d => digits_value s' (10 * acc + d)
      | None => None
      end
  end.

(** [int(s)] for a text of digits. *)
Definition py_int `{Runtime} (s : text) : option Z :=
  match s with
  | [] => None
  | _ :: _ => Z.of_N <$> digits_value s 0
  end.

(** The part of [s] before its first dot, and the part after it if there
    is a dot. *)
Fixpoint split_dot (s : text) : text * option text :=
  match s with
  | [] => ([], None)
  | c :: s' =>
      if c =? 46 then ([], Some s')
      else let '(a, b) := split_dot s' in (c :: a, b)
  end.

(** The numeral [n / 10^k] denoted by [s], as the pair [(n, k)]. *)
Definition parse_decimal `{Runtime} (s : text) : option (N * nat) :=
  let '(ip, fp) := split_dot s in
  let fp := default [] fp in
  match ip ++ fp with
  | [] => None
  | _ :: _ =>
      match digits_value (ip ++ fp) 0 with
      | Some n => Some (n, List.length fp)
      | None => None
      end
  end.

(** A non-negative binary64 number: [Finite m e] is [m * 2^e]. *)
Inductive float := Finite (m : Z) (e : Z) | Inf.

Local Open Scope Z_scope.

(** [2^l <= n / d] *)
Definition ge_pow2 (n d l : Z) : bool :=
  if 0 <=? l then d * 2 ^ l <=? n else d <=? n * 2 ^ (- l).

(** The binary64 number nearest to [n / 10^k], ties to even: the unit in
    the last place is [2^e], where [e = max (floor (log2 (n/10^k)) - 52)
    (-1074)], and the result overflows to infinity from [2^1024]. *)
Definition round_binary64 (n : Z) (k : nat) : float :=
  if n =? 0 then Finite 0 0 else
  let d := 10 ^ Z.of_nat k in
  let l0 := Z.log2 n - Z.log2 d in
  let l := if ge_pow2 n d l0 then l0 else l0 - 1 in
  let e := Z.max (l - 52) (-1074) in
  let num := if 0 <=? e then n else n * 2 ^ (- e) in
  let den := if 0 <=? e then d * 2 ^ e else d in
  let a := num / den in
  let r := num mod den in
  let m := if 2 * r <? den then a
           else if den <? 2 * r then a + 1
           else if Z.even a then a else a + 1 in
  if (971 <? e) || ((e =? 971) && (2 ^ 53 <=? m)) then Inf else Finite m e.

Inductive exn := ValueError | FileNotFoundError | IsADirectoryError | OSError.

Inductive result (A : Type) := Ok (a : A) | Raise (e : exn).
Arguments Ok {A} a.
Arguments Raise {A} e.

Definition bind {A B} (x : result A) (f : A -> result B) : result B :=
  match x with
  | Ok a => f a
  | Raise e => Raise e
  end.

Notation "x <- c1 ;; c2" := (bind c1 (fun x => c2))
  (at level 100, c1 at next level, right associativity).

(** [float(s)] *)
Definition py_float `{Runtime} (s : text) : result float :=
  match parse_decimal s with
  | Some (n, k) => Ok (round_binary64 (Z.of_N n) k)
  | None => Raise ValueError
  end.

(** [f >= z] for a float and an integer (the comparison is exact). *)
Definition float_ge (f : float) (z : Z) : bool :=
  match f with
  | Inf => true
  | Finite m e => if 0 <=? e then z <=? m * 2 ^ e else z * 2 ^ (- e) <=? m
  end.

(** ** The generator and its environment *)

(** The files that the program can read, by path, and the date of the
    clock formatted as [%Y-%m-%d]. *)
Record world := { fs : gmap string text; today : text }.

Record ProofGenerator := { stage_number : Z; tech_stack : text }.

Definition gate_outputs_dir : string := ".gate-outputs".
Definition template_file : string := "STAGE_PROOF_TEMPLATE.md".
Definition gate_file (name : string) : string :=
  (gate_outputs_dir +:+ "/" +:+ name)%string.

Definition PASS : text := u "✅ PASS".
Definition FAIL : text := u "❌ FAIL".

(** The truth value of a string, and of an optional string: [None] and
    the empty string are false. *)
Definition truthy (o : option text) : bool :=
  match o with
  | Some (_ :: _) => true
  | _ => false
  end.

(** *** Patterns *)

Definition re_passed : regex := Lit (u "Passed:") +++ Plus Space +++ Group (Plus Digit).
Definition re_total : regex := Lit (u "Total:") +++ Plus Space +++ Group (Plus Digit).
Definition re_failed : regex := Lit (u "Failed:") +++ Plus Space +++ Group (Plus Digit).
Definition re_tests : regex :=
  Lit (u "Tests:") +++ Plus Space +++ Group (Plus Digit) +++ Plus Space +++
  Lit (u "passed,") +++ Plus Space +++ Group (Plus Digit) +++ Plus Space +++
  Lit (u "total").
Definition re_line_coverage : regex :=
  Lit (u "Line coverage:") +++ Plus Space +++ Group (Plus DigitDot) +++ Lit (u "%").
Definition re_all_files : regex :=
  Lit (u "All files") +++ Many false Dot +++ Lit (u "|") +++ Plus Space +++
  Group (Plus DigitDot).
Definition re_warnings : regex := Group (Plus Digit) +++ Lit (u " Warning(s)").
Definition re_errors : regex := Group (Plus Digit) +++ Lit (u " Error(s)").
Definition re_severity : regex :=
  Group (Alt (Lit (u "HIGH")) (Alt (Lit (u "MODERATE")) (Lit (u "CRITICAL")))).
Definition re_summary : regex :=
  Lit (u "|") +++ Many true Space +++ Lit (u "Metric") +++ Many true Space +++
  Lit (u "|") +++ Many false Dot +++ Lit (u "|") +++ Many true Space +++
  Lit (u "Deliverables") +++ Many true Space +++ Lit (u "|") +++
  Many false Dot +++ Lit [10%N].
Definition re_review : regex :=
  Lit (u "## 👔 Principal Engineer Review") +++ Many false Dot +++
  Ahead (Lit (u "## 🔄 Integration Status")).

(** *** Metric extraction

    [gate_file.exists()] followed by [gate_file.read_text()] is a lookup
    among the files of the world; for a path that is a directory see
    [regular_inputs] below. *)

Record test_results := {
  passed : text; total : text; failed : text; status : text
}.

(** The dictionary of [extract_build_info]: the TypeScript path has the
    key [status] only. *)
Record build_info := {
  warnings : option text; errors : option text; build_status : text
}.

(** *** Fixed texts *)

(** A row of the summary table. *)
Record row := { metric : text; target : text; actual : text; row_status : text }.

Definition render_row (r : row) : text :=
  u "| " ++ metric r ++ u " | " ++ target r ++ u " | " ++ actual r ++
  u " | " ++ row_status r ++ u " |".

(** ['\n'.join(lines)] *)
Fixpoint join_lines (lines : list text) : text :=
  match lines with
  | [] => []
  | [l] => l
  | l :: ls => l ++ 10%N :: join_lines ls
  end.

Definition summary_header : text := u "| Metric | Target | Actual | Status |
|--------|--------|--------|--------|
".

Record guidance := { risks : text; next_stage : text }.

Definition foundation_guidance : guidance := {|
  risks := u "- **Architecture Debt**: Are abstractions too early or too late? Over-engineering vs under-engineering?
- **Interface Stability**: Will these models/interfaces change in later stages? Breaking changes cascade.
- **Type Safety**: Are domain models strongly typed? Primitive obsession (strings everywhere) causes bugs.
- **Missing Validation**: Are inputs validated at boundaries? Trust but verify all external data.
- **Naming Clarity**: Do names reveal intent? Future developers will curse unclear naming.";
  next_stage := u "- **Integration Points**: Next stage will depend on these interfaces. Any changes will cascade.
- **Data Model Assumptions**: Document assumptions about data shapes, nullability, cardinality.
- **Error Handling Strategy**: Establish patterns now (exceptions vs result types, error codes).
- **Testing Strategy**: Are tests brittle or resilient? Will they break on refactoring?"
|}.

Definition execution_guidance : guidance := {|
  risks := u "- **Concurrency Issues**: Race conditions? Deadlocks? Thread safety verified?
- **Resource Leaks**: Are connections/handles properly disposed? Using statements? Try-finally?
- **Retry Logic**: Exponential backoff implemented? Retry storms prevented?
- **Timeout Handling**: All network calls have timeouts? Graceful degradation on timeout?
- **Error Recovery**: Partial failures handled? What happens when 1 of 10 tasks fails?";
  next_stage := u "- **Performance Baseline**: Benchmark current performance. Next stages add complexity - track regressions.
- **Observability Gaps**: Can you debug production issues? Add logging/metrics before scaling.
- **Configuration Management**: Hard-coded values? Extract to config for different environments.
- **Load Testing**: Current code handles 1 workflow. Will it handle 100 concurrent? 1000?"
|}.

Definition hardening_guidance : guidance := {|
  risks := u "- **API Breaking Changes**: Versioning strategy? Can old clients still work?
- **Security Gaps**: Input sanitization? SQL injection? XSS? CSRF protection?
- **Performance at Scale**: Load tested? Memory leaks? Connection pool exhaustion?
- **Data Migration**: Schema changes backward compatible? Migration strategy documented?
- **User Experience**: Error messages helpful? Loading states? Accessibility?";
  next_stage := u "- **Production Readiness**: Logging, monitoring, alerting in place? On-call runbook exists?
- **Rollback Strategy**: Can you roll back if this fails in prod? Feature flags? Blue-green deploy?
- **Documentation**: API docs updated? Architecture diagrams current? Onboarding guide written?
- **Technical Debt**: List debt accumulated. Plan to pay it down before it compounds."
|}.

Definition fallback_guidance : guidance := {|
  risks := u "- [Review stage-specific risks based on what was built]
- [Consider: error handling, performance, security, scalability]
- [Think: what could go wrong in production?]";
  next_stage := u "- [What does the next stage need from this stage?]
- [Are there any assumptions that need documenting?]
- [What technical debt was introduced?]"
|}.


Definition review_part1 : text := u "## 👔 Principal Engineer Review

### What's Going Well ✅

**Review the following and identify 3-5 strengths:**

- **Test Coverage**: ".

Definition review_part2 : text := u " tests, ".

Definition review_part3 : text := u " coverage ".

Definition review_part4 : text := u "
- **Architecture**: [Review separation of concerns, SOLID principles, extensibility]
- **Error Handling**: [Review error messages, validation, user experience]
- **Performance**: [Review execution speed, scalability, resource usage]
- **Code Quality**: [Review naming, documentation, maintainability]

**Strengths identified:**
1. [Specific observation about what's working well]
2. [Another strength with concrete example]
3. [Third strength]

### Potential Risks & Concerns ⚠️

**Consider these common risks and add stage-specific concerns:**

".

Definition review_part5 : text := u "

**Risks identified:**
1. [Specific risk with potential impact]
2. [Another concern to address]
3. [Optional: Third concern if applicable]

### Pre-Next-Stage Considerations 🤔

**Before proceeding to Stage ".

Definition review_part6 : text := u ", consider:**

".

Definition review_part7 : text := u "

**Action items for next stage:**
1. [Specific preparation needed]
2. [Dependency or integration concern]
3. [Architecture or design consideration]

**Recommendation:** [PROCEED / PROCEED WITH CAUTION / REVISIT BEFORE NEXT STAGE]

**Rationale:**
[1-2 sentences explaining why this stage is ready (or not) for the next stage. Consider: quality gates status, architecture stability, test coverage, known risks, tech debt level]

**Example rationale:**
> PROCEED - All mandatory gates passed, architecture is solid with clean separation of concerns, and code coverage exceeds targets. Address the [specific concern] during Stage ".

Definition review_part8 : text := u " implementation. Monitor [specific metric] as complexity grows.
".

Section Generator.
Context `{Runtime}.
Variable self : ProofGenerator.
Variable w : world.

Definition is_dotnet : bool := text_eqb (tech_stack self) (u "dotnet").

Definition extract_test_results : option test_results :=
  match fs w !! gate_file "gate-5-tests.txt" with
  | None => None
  | Some content =>
      if is_dotnet then
        let match_ := search no_flags re_passed content in
        let total_match := search no_flags re_total content in
        let failed_match := search no_flags re_failed content in
        match match_, total_match with
        | Some m, Some tm =>
            let failed :=
              match failed_match with
              | Some fm => group 1 fm
              | None => u "0"
              end in
            Some {| passed := group 1 m;
                    total := group 1 tm;
                    failed := failed;
                    status := if text_eqb failed (u "0") then PASS else FAIL |}
        | _, _ => None
        end
      else
        match search no_flags re_tests content with
        | Some m =>
            Some {| passed := group 1 m;
                    total := group 2 m;
                    failed := u "0";
                    status := PASS |}
        | None => None
        end
  end.

Definition extract_coverage : option text :=
  match fs w !! gate_file "gate-6-coverage.txt" with
  | None => None
  | Some content =>
      match search no_flags re_line_coverage content with
      | Some m => Some (group 1 m)
      | None =>
          match search no_flags re_all_files content with
          | Some m => Some (group 1 m)
          | None => None
          end
      end
  end.

Definition extract_build_info : option build_info :=
  match fs w !! gate_file "gate-3-build.txt" with
  | None => None
  | Some content =>
      if is_dotnet then
        let warnings_match := search no_flags re_warnings content in
        let errors_match := search no_flags re_errors content in
        match warnings_match, errors_match with
        | Some wm, Some em =>
            Some {| warnings := Some (group 1 wm);
                    errors := Some (group 1 em);
                    build_status :=
                      if text_eqb (group 1 wm) (u "0") then PASS else FAIL |}
        | _, _ => None
        end
      else
        if contains (u "error") (lower content)
           && negb (contains (u "0 errors") (lower content))
        then Some {| warnings := None; errors := None; build_status := FAIL |}
        else Some {| warnings := None; errors := None; build_status := PASS |}
  end.

Definition extract_vulnerabilities : option text :=
  match fs w !! gate_file "gate-7-security.txt" with
  | None => None
  | Some content =>
      if contains (u "no vulnerable packages") (lower content)
         || contains (u "0 vulnerabilities") content
      then Some (u "0")
      else
        let vuln_count := count_matches IGNORECASE re_severity content 0 in
        Some (str_of_Z (Z.of_nat vuln_count))
  end.
(** *** The summary table *)

Definition coverage_status (coverage : option text) : result text :=
  if truthy coverage then
    f <- py_float (default [] coverage) ;;
    Ok (if float_ge f 90 then PASS else FAIL)
  else Ok (u "[STATUS]").

(** The cells of [generate_stage_summary] that are computed from the
    gate outputs. *)
Definition summary_rows : result (list row) :=
  let tests := extract_test_results in
  let coverage := extract_coverage in
  let build := extract_build_info in
  let vulnerabilities := extract_vulnerabilities in
  let test_str :=
    match tests with
    | Some t => passed t ++ u "/" ++ total t
    | None => u "[N/N]"
    end in
  let test_status :=
    match tests with
    | Some t => status t
    | None => u "[STATUS]"
    end in
  let coverage_str :=
    if truthy coverage then default [] coverage ++ u "%" else u "[XX%]" in
  coverage_status <- coverage_status coverage ;;
  let build_str :=
    match build with
    | Some b => build_status b
    | None => u "[STATUS]"
    end in
  let vuln_str :=
    if truthy vulnerabilities then default [] vulnerabilities else u "[N]" in
  let vuln_status :=
    if bool_decide (vulnerabilities = Some (u "0")) then PASS
    else if truthy vulnerabilities then FAIL else u "[STATUS]" in
  Ok [ {| metric := u "Tests Passing"; target := u "100%";
          actual := test_str; row_status := test_status |};
       {| metric := u "Test Failures"; target := u "0";
          actual := match tests with Some t => failed t | None => u "0" end;
          row_status := test_status |};
       {| metric := u "Code Coverage"; target := u "≥90%";
          actual := coverage_str; row_status := coverage_status |};
       {| metric := u "Build Warnings"; target := u "0";
          actual := match build with
                    | Some {| warnings := Some n |} => n
                    | _ => u "0"
                    end;
          row_status := build_str |};
       {| metric := u "Vulnerabilities"; target := u "0";
          actual := vuln_str; row_status := vuln_status |};
       {| metric := u "Deliverables"; target := u "[N/N]";
          actual := u "[N/N]"; row_status := u "[✅/❌]" |} ].

Definition generate_stage_summary : result text :=
  rows <- summary_rows ;;
  Ok (summary_header ++ join_lines (List.map render_row rows)).

(** *** The review section *)

Definition _get_stage_specific_guidance : guidance :=
  if stage_number self <=? 4 then foundation_guidance
  else if stage_number self <=? 7 then execution_guidance
  else hardening_guidance.

Definition generate_engineer_review_prompts : result text :=
  let tests := extract_test_results in
  let coverage := extract_coverage in
  let test_count :=
    match tests with
    | Some t => total t
    | None => u "?"
    end in
  let coverage_pct :=
    if truthy coverage then default [] coverage ++ u "%" else u "?%" in
  let stage_guidance := _get_stage_specific_guidance in
  verdict <-
    (if truthy coverage then
       f <- py_float (default [] coverage) ;;
       Ok (if float_ge f 90 then u "✅ Exceeds 90% target"
           else u "⚠️ Below 90% target")
     else Ok (u "⚠️ Below 90% target")) ;;
  Ok (review_part1 ++ test_count ++ review_part2 ++ coverage_pct ++
      review_part3 ++ verdict ++ review_part4 ++ risks stage_guidance ++
      review_part5 ++ str_of_Z (stage_number self + 1) ++ review_part6 ++
      next_stage stage_guidance ++ review_part7 ++
      str_of_Z (stage_number self + 1) ++ review_part8).

(** *** Synthesis *)

(** The dictionary [replacements], in insertion order. *)
Definition replacements : list (text * text) :=
  [ (u "[X]", str_of_Z (stage_number self));
    (u "[YYYY-MM-DD]", today w);
    (u "[Stage Name]", u "Stage " ++ str_of_Z (stage_number self));
    (u ".NET / TypeScript / Both", upper (tech_stack self)) ].

Definition apply_replacements (template : text) : text :=
  fold_left (fun t '(old, new) => replace old new t) replacements template.

(** [generate_proof_file], returning the text written to the output
    file. *)
Definition generate_proof_file : result text :=
  match fs w !! template_file with
  | None => Raise FileNotFoundError
  | Some template =>
      let template := apply_replacements template in
      summary_table <- generate_stage_summary ;;
      let template := sub DOTALL re_summary (summary_table ++ [10%N]) template in
      engineer_review <- generate_engineer_review_prompts ;;
      let template :=
        sub DOTALL re_review (engineer_review ++ u "
---

") template in
      Ok template
  end.
End Generator.

(** ** What a pattern matches

    The declarative reading of a pattern, against which the backtracking
    matcher is proved sound and complete. *)

Section Semantics.
Context `{Runtime}.
Variable fl : flags.

(** What a successful run of [r] hands to its continuation: the rest
    [s'] of the text and the groups [caps']. *)
Fixpoint sem (r : regex) (s : text) (caps : list text)
    (s' : text) (caps' : list text) : Prop :=
  match r with
  | Lit l => strip_lit fl l s = Some s' /\ caps' = caps
  | One c => exists x, s = x :: s' /\ in_cls fl c x = true /\ caps' = caps
  | Many _ c =>
      exists a, s = a ++ s' /\ forallb (in_cls fl c) a = true /\ caps' = caps
  | Seq r1 r2 =>
      exists s1 caps1, sem r1 s caps s1 caps1 /\ sem r2 s1 caps1 s' caps'
  | Alt r1 r2 => sem r1 s caps s' caps' \/ sem r2 s caps s' caps'
  | Group r1 =>
      exists caps1, sem r1 s caps s' caps1 /\ caps' = caps1 ++ [consumed s s']
  | Ahead r1 => s' = s /\ exists s1, sem r1 s caps s1 caps'
  end.
End Semantics.

(** ** Shapes of texts

    What it means, in the words of the specification, for a count to be
    found in an artifact. *)

(** [l] occurs in [s]. *)
Definition occurs (l s : text) : Prop := exists a b, s = a ++ l ++ b.

Section ShapeDefs.
Context `{Runtime}.

Definition is_digit (c : char) : bool := bool_decide (is_Some (decimal c)).

(** A non-empty run of whitespace, and a non-empty run of digits. *)
Definition is_spaces (ws : text) : Prop :=
  ws <> [] /\ forallb re_space ws = true.
Definition is_digits (ds : text) : Prop :=
  ds <> [] /\ forallb is_digit ds = true.

(** [content] holds [label], whitespace and a count: "Passed: 42". *)
Definition has_count (label content : text) : Prop :=
  exists pre ws ds post,
    content = pre ++ label ++ ws ++ ds ++ post /\ is_spaces ws /\ is_digits ds.

(** [content] holds a count followed by [suffix]: "2 Warning(s)". *)
Definition has_counted (suffix content : text) : Prop :=
  exists pre ds post, content = pre ++ ds ++ suffix ++ post /\ is_digits ds.
End ShapeDefs.

(** ** Numeric reading of the records

    The records of the extractors hold the captured texts; the
    specification reads them as integers. *)

Section NumericReading.
Context `{Runtime}.

(** The invariant of TestMetrics in the words of the specification:
    [failed = total - passed], and the status is fail exactly when
    [failed] is not zero. *)
Definition TestMetrics_invariant (r : test_results) : Prop :=
  exists p t f,
    py_int (passed r) = Some p /\ py_int (total r) = Some t /\
    py_int (failed r) = Some f /\
    f = (t - p)%Z /\ (status r = FAIL <-> f <> 0%Z).

(** The status rule of BuildMetrics in the words of the specification:
    fail exactly when the warning count is not zero. *)
Definition BuildMetrics_rule (b : build_info) : Prop :=
  exists n, (warnings b ≫= py_int) = Some n /\
            (build_status b = FAIL <-> n <> 0%Z).

(** The runtime reads the ASCII digits as CPython does. *)
Definition ascii_digits_ok : Prop :=
  forall c, (48 <= c <= 57)%N -> decimal c = Some (c - 48)%N.
End NumericReading.

(** A count in ASCII digits without leading zeros. *)
Definition canonical (ds : text) : Prop :=
  ds = u "0" \/
  exists c rest, ds = c :: rest /\ (49 <= c <= 57)%N /\
                 Forall (fun x => 48 <= x <= 57)%N rest.

(** ** Concrete inputs *)

Definition dotnet (n : Z) : ProofGenerator :=
  {| stage_number := n; tech_stack := u "dotnet" |}.
Definition typescript (n : Z) : ProofGenerator :=
  {| stage_number := n; tech_stack := u "typescript" |}.

Definition tests_file : string := gate_file "gate-5-tests.txt".
Definition coverage_file : string := gate_file "gate-6-coverage.txt".
Definition build_file : string := gate_file "gate-3-build.txt".
Definition security_file : string := gate_file "gate-7-security.txt".

(** A test log without a [Failed:] count. *)
Definition log_no_failed : text := u "Passed: 5, Total: 5".
Definition world_no_failed : world :=
  {| fs := {[ tests_file := log_no_failed ]}; today := u "2025-01-31" |}.

(** A test log whose counts do not add up. *)
Definition log_mismatch : text := u "Passed: 1, Total: 5, Failed: 0".
Definition world_mismatch : world :=
  {| fs := {[ tests_file := log_mismatch ]}; today := u "2025-01-31" |}.

(** A build log whose warning count is written with two digits. *)
Definition log_00_warnings : text := u "    00 Warning(s)
    0 Error(s)".
Definition world_00_warnings : world :=
  {| fs := {[ build_file := log_00_warnings ]}; today := u "2025-01-31" |}.

(** The build log of the specification. *)
Definition log_2_warnings : text := u "    2 Warning(s)
    0 Error(s)".
Definition world_2_warnings : world :=
  {| fs := {[ build_file := log_2_warnings ]}; today := u "2025-01-31" |}.

(** A security report with the capitalised all-clear phrase and one
    severity token. *)
Definition report_capitalised : text := u "Scan complete: 0 Vulnerabilities
1 high severity advisory ignored".
Definition world_capitalised : world :=
  {| fs := {[ security_file := report_capitalised ]}; today := u "2025-01-31" |}.

(** A security report with the first all-clear phrase in upper case. *)
Definition report_upper : text := u "NO VULNERABLE PACKAGES (last scan: 2 HIGH, 1 CRITICAL)".
Definition world_upper : world :=
  {| fs := {[ security_file := report_upper ]}; today := u "2025-01-31" |}.

(** A security report with the all-clear phrase next to severity tokens. *)
Definition report_all_clear : text := u "found 0 vulnerabilities
severity levels: LOW, MODERATE, HIGH, CRITICAL".
Definition world_all_clear : world :=
  {| fs := {[ security_file := report_all_clear ]}; today := u "2025-01-31" |}.

(** The coverage report of the specification. *)
Definition world_coverage (report : text) : world :=
  {| fs := {[ coverage_file := report ]}; today := u "2025-01-31" |}.
Definition report_92_5 : text := u "Line coverage: 92.5%".

(** A placeholder is a bracketed token, as in the template. *)
Definition is_placeholder (t : text) : bool :=
  match t with
  | 91%N :: rest => bool_decide (List.last rest 0%N = 93%N)
  | _ => false
  end.

(** A template without a summary table and without a review section. *)
Definition plain_template : text := u "# Stage [X] Proof ([YYYY-MM-DD])

Tech stack: .NET / TypeScript / Both
[Stage Name] has no tables.
".
Definition world_plain (date : text) : world :=
  {| fs := {[ template_file := plain_template ]}; today := date |}.

(** What a run reads: the template, the four gate outputs and the date. *)
Definition inputs_agree (w1 w2 : world) : Prop :=
  fs w1 !! template_file = fs w2 !! template_file /\
  fs w1 !! tests_file = fs w2 !! tests_file /\
  fs w1 !! coverage_file = fs w2 !! coverage_file /\
  fs w1 !! build_file = fs w2 !! build_file /\
  fs w1 !! security_file = fs w2 !! security_file /\
  today w1 = today w2.

(** ** Further shapes of texts *)

Section MoreShapes.
Context `{Runtime}.

(** A non-empty run of digits and dots. *)
Definition is_digdots (ds : text) : Prop :=
  ds <> [] /\ forallb (fun c => is_digit c || (c =? 46)%N) ds = true.

(** [content] holds the phrase of the TypeScript test runners:
    "Tests: 40 passed, 42 total". *)
Definition has_tests_phrase (content : text) : Prop :=
  exists pre w1 p w2 w3 t w4 post,
    content = pre ++ u "Tests:" ++ w1 ++ p ++ w2 ++ u "passed," ++ w3 ++ t ++
              w4 ++ u "total" ++ post /\
    is_spaces w1 /\ is_digits p /\ is_spaces w2 /\ is_spaces w3 /\
    is_digits t /\ is_spaces w4.

(** [content] holds "Line coverage: 92.5%" with the value [ds]. *)
Definition has_line_coverage (ds content : text) : Prop :=
  exists pre ws post,
    content = pre ++ u "Line coverage:" ++ ws ++ ds ++ u "%" ++ post /\
    is_spaces ws /\ is_digdots ds.

(** [content] holds a table row "All files ... | 92.5" on one line, with
    the value [ds]. *)
Definition has_all_files_row (ds content : text) : Prop :=
  exists pre mid ws post,
    content = pre ++ u "All files" ++ mid ++ u "|" ++ ws ++ ds ++ post /\
    forallb (fun c => negb (c =? 10)%N) mid = true /\
    is_spaces ws /\ is_digdots ds.
End MoreShapes.

(** ** Further concrete inputs *)

(** A Jest summary that reports failures next to the counted phrase. *)
Definition log_jest : text := u "Tests:       40 passed, 42 total
Failed: 2".
Definition world_jest : world :=
  {| fs := {[ tests_file := log_jest ]}; today := u "2025-01-31" |}.

(** A TypeScript build log with ten errors. *)
Definition log_ten_errors : text := u "Found 10 errors in 3 files.".
Definition world_ten_errors : world :=
  {| fs := {[ build_file := log_ten_errors ]}; today := u "2025-01-31" |}.

(** Coverage reports: a table row only, and a phrase after a table row. *)
Definition report_table : text := u "File      | % Stmts | % Lines
All files |   91.3 |   90.1".
Definition report_both : text := u "All files |   50.0 |
Line coverage: 95%".

(** A plain decimal number: at most one dot and at least one digit. *)
Definition plain_number `{Runtime} (c : text) : Prop :=
  (count_occ N.eq_dec c 46%N <= 1)%nat /\ existsb is_digit c = true.

(** A coverage report whose value has two dots. *)
Definition report_version : text := u "Line coverage: 1.2.3%".
Definition world_version : world :=
  {| fs := {[ template_file := plain_template; coverage_file := report_version ]};
     today := u "2025-01-31" |}.

(** [a] is [l] up to the case-insensitive comparison of [re]. *)
Definition ci_eq `{Runtime} (l a : text) : Prop :=
  Forall2 (fun p x => re_ieq p x = true) l a.

(** [content] holds one of the severity tokens, in any case. *)
Definition has_severity_token `{Runtime} (content : text) : Prop :=
  exists pre tok post, content = pre ++ tok ++ post /\
    (ci_eq (u "HIGH") tok \/ ci_eq (u "MODERATE") tok \/ ci_eq (u "CRITICAL") tok).

(** A security report without an all-clear phrase and without a token. *)
Definition report_quiet : text := u "audit finished".
Definition world_quiet : world :=
  {| fs := {[ security_file := report_quiet ]}; today := u "2025-01-31" |}.

(** The code points of the digits of [d]. *)
Fixpoint digit_codes (d : Decimal.uint) : text :=
  match d with
  | Decimal.Nil => []
  | Decimal.D0 d => 48%N :: digit_codes d
  | Decimal.D1 d => 49%N :: digit_codes d
  | Decimal.D2 d => 50%N :: digit_codes d
  | Decimal.D3 d => 51%N :: digit_codes d
  | Decimal.D4 d => 52%N :: digit_codes d
  | Decimal.D5 d => 53%N :: digit_codes d
  | Decimal.D6 d => 54%N :: digit_codes d
  | Decimal.D7 d => 55%N :: digit_codes d
  | Decimal.D8 d => 56%N :: digit_codes d
  | Decimal.D9 d => 57%N :: digit_codes d
  end.

(** Gate outputs of a .NET run: one failed test, coverage below the
    threshold, one warning, one advisory. *)
Definition world_dotnet_run : world :=
  {| fs := {[ tests_file := u "Failed:     1, Passed:    41, Skipped:     0, Total:    42";
              coverage_file := u "Line coverage: 85.0%";
              build_file := u "    1 Warning(s)
    0 Error(s)";
              security_file := u "lodash  HIGH  prototype pollution" ]};
     today := u "2025-01-31" |}.

(** ** The output sections *)

(** [s.split('\n')] *)
Fixpoint split_lines (s : text) : list text :=
  match s with
  | [] => [[]]
  | c :: s' =>
      if (c =? 10)%N then [] :: split_lines s'
      else match split_lines s' with
           | l :: ls => (c :: l) :: ls
           | [] => [[c]]
           end
  end.

(** [l[-n:]] for a positive [n] *)
Definition last_n {A : Type} (n : nat) (l : list A) : list A :=
  skipn (List.length l - n) l.

Definition generate_test_output (w : world) : text :=
  match fs w !! gate_file "gate-5-tests.txt" with
  | None => u "[Paste test output here]"
  | Some content =>
      let lines := split_lines content in
      join_lines (last_n 50 lines)
  end.

Definition generate_build_output (w : world) : text :=
  match fs w !! gate_file "gate-3-build.txt" with
  | None => u "[Paste build output here]"
  | Some content =>
      let lines := split_lines content in
      join_lines (last_n 30 lines)
  end.

Definition generate_coverage_output `{Runtime} (w : world) : text :=
  match fs w !! gate_file "gate-6-coverage.txt" with
  | None => u "[Paste coverage output here]"
  | Some content =>
      let coverage := extract_coverage w in
      if truthy coverage then
        u "```
Line coverage: " ++ default [] coverage ++ u "%

" ++ firstn 500 content ++ u "
```"
      else firstn 500 content
  end.

(** The number of newlines of a text. *)
Definition newlines (s : text) : nat := count_occ N.eq_dec s 10%N.

(** A build log of forty lines, numbered from 1. *)
Definition numbered_lines (n : nat) : text :=
  join_lines (List.map (fun i => u "line " ++ str_of_Z (Z.of_nat i)) (seq 1 n)).
Definition world_long_build : world :=
  {| fs := {[ build_file := numbered_lines 40 ]}; today := u "2025-01-31" |}.

(** ** Paths

    The keys of [fs] are the relative paths of the regular files, written
    as [pathlib] writes them ("dir/name", no empty component); a
    directory exists when a file lies below it. *)

(** The components of a path: ["a/b/c"] gives [["a"; "b"; "c"]]. *)
Fixpoint components (p : string) : list string :=
  match p with
  | EmptyString => [EmptyString]
  | String c p' =>
      if Ascii.eqb c "/" then EmptyString :: components p'
      else match components p' with
           | x :: xs => String c x :: xs
           | [] => [String c EmptyString]
           end
  end.

(** [cs] without its prefix [d], when [d] is a proper prefix of [cs]. *)
Fixpoint below (d cs : list string) : option (list string) :=
  match d, cs with
  | [], _ :: _ => Some cs
  | x :: d', y :: cs' => if String.eqb x y then below d' cs' else None
  | _, [] => None
  end.

(** The names in the directory [d] (files, and directories that hold a
    file), with repetitions. *)
Definition entries (w : world) (d : list string) : list string :=
  omap (fun kv => below d (components kv.1) ≫= head) (map_to_list (fs w)).

(** The names of everything below [d], at any depth. *)
Definition descendants (w : world) (d : list string) : list string :=
  mjoin (omap (fun kv => below d (components kv.1)) (map_to_list (fs w))).

(** [Path(p).is_dir()]: some file lies below [p]. *)
Definition is_dir (w : world) (p : string) : bool :=
  negb (bool_decide (entries w (components p) = [])).

(** [Path(p).exists()] *)
Definition path_exists (w : world) (p : string) : bool :=
  bool_decide (is_Some (fs w !! p)) ||
  negb (bool_decide (entries w (components p) = [])).

(** None of the paths that a run reads is a directory.  On a directory
    [exists()] is true and [read_text()] raises [IsADirectoryError]; the
    extractors and [generate_proof_file] below read a path by looking it
    up among the files, so they describe the program on the worlds with
    regular inputs, and the statements on the outcome of a run assume
    them.  The files are held as the texts that [read_text()] returns. *)
Definition regular_inputs (w : world) : Prop :=
  is_dir w template_file = false /\ is_dir w tests_file = false /\
  is_dir w coverage_file = false /\ is_dir w build_file = false /\
  is_dir w security_file = false.

(** The longest file name that the file system takes, in bytes
    ([NAME_MAX]). *)
Definition name_max : nat := 255.

Definition ends_with (suffix s : string) : bool :=
  (String.length suffix <=? String.length s)%nat &&
  String.eqb (substring (String.length s - String.length suffix)
                        (String.length suffix) s) suffix.

(** [fnmatch(name, pre + "*" + suf)] *)
Definition matches_star (pre suf name : string) : bool :=
  String.prefix pre name && ends_with suf name &&
  (String.length pre + String.length suf <=? String.length name)%nat.

(** [list(Path(d).glob(pre + "*" + suf))] *)
Definition glob (w : world) (d : list string) (pre suf : string) : list string :=
  List.filter (matches_star pre suf) (entries w d).

(** [list(Path(d).glob("**/*" + suf))] *)
Definition glob_rec (w : world) (d : list string) (suf : string) : list string :=
  List.filter (matches_star "" suf) (descendants w d).

(** ** Checking, running and verifying *)

Definition output_file (self : ProofGenerator) : string :=
  ("STAGE_" +:+ NilZero.string_of_int (Z.to_int (stage_number self)) +:+
   "_PROOF.md")%string.

(** [check_requirements]: the messages are left out. *)
Definition check_requirements (w : world) : bool :=
  if negb (path_exists w gate_outputs_dir) then false
  else if negb (path_exists w template_file) then false
  else
    let gate_files := glob w [gate_outputs_dir] "gate-" ".txt" in
    if bool_decide (gate_files = []) then false
    else true.

Definition re_placeholder : regex :=
  Lit (u "[") +++
  Group (Alt (Lit (u "TO BE")) (Alt (Lit (u "PLACEHOLDER")) (Alt (Lit (u "TBD"))
        (Alt (Lit (u "TODO")) (Alt (Lit (u "PENDING")) (Alt (Lit (u "STATUS"))
        (Alt (Lit (u "XXX")) (Alt (Lit (u "N/N")) (Lit (u "X%")))))))))) +++
  Lit (u "]").

(** What [verify_proof_file] reports: the placeholders found in the
    output file, and the extracted test counts and coverage. *)
Record verification := {
  placeholders : list text;
  reported_tests : option (text * text);
  reported_coverage : option text
}.

Section Running.
Context `{Runtime}.

(** [re.findall(r, s)] for a pattern with one group, under the
    conditions of [count_matches]: the texts of the group. *)
Fixpoint findall (fl : flags) (r : regex) (s : text) (skip : nat) : list text :=
  match s with
  | [] => []
  | _ :: s' =>
      match skip with
      | S k => findall fl r s' k
      | O =>
          match match_at fl r s with
          | Some m => group 1 m :: findall fl r s' (Nat.pred (List.length (whole m)))
          | None => findall fl r s' 0
          end
      end
  end.

Variable self : ProofGenerator.

Definition verify_proof_file (w : world) : result verification :=
  match fs w !! output_file self with
  | None => Raise FileNotFoundError
  | Some content =>
      let placeholders := findall no_flags re_placeholder content 0 in
      let tests := extract_test_results self w in
      let coverage := extract_coverage w in
      Ok {| placeholders := placeholders;
            reported_tests := (fun t => (passed t, total t)) <$> tests;
            reported_coverage := if truthy coverage then coverage else None |}
  end.

(** [self.output_file.write_text(template)] at the end of
    [generate_proof_file]: the file is created or replaced, unless the
    path is a directory ([IsADirectoryError]) or its name is too long
    ([OSError], "File name too long"). *)
Definition write_proof_file (w : world) : result world :=
  doc <- generate_proof_file self w ;;
  if is_dir w (output_file self) then Raise IsADirectoryError
  else if (name_max <? String.length (output_file self))%nat then Raise OSError
  else Ok {| fs := <[ output_file self := doc ]> (fs w); today := today w |}.

End Running.

(** The method [run] of the generator, in a module of its own: the name
    is that of the matcher above. *)
Module Generator.
(** [run]: the exit code and the files it leaves.  [generate_proof_file]
    returns [True] whenever it returns. *)
Definition run `{Runtime} (self : ProofGenerator) (w : world) : result (Z * world) :=
  if negb (check_requirements w) then Ok (2, w)
  else
    w' <- write_proof_file self w ;;
    _ <- verify_proof_file self w' ;;
    Ok (0, w').
End Generator.

(** ** The command line *)

Section CommandLine.
Context `{Runtime}.
(** [str.isdigit] *)
Variable isdigit : text -> bool.

(** The loop of [main] over [sys.argv[1:]]: [tech_stack] takes the
    argument after each "--tech", [stage_number] each argument of digits. *)
Fixpoint parse_args (args : list text) (stage_number : option Z)
    (tech_stack : option text) : result (option Z * option text) :=
  match args with
  | [] => Ok (stage_number, tech_stack)
  | arg :: rest =>
      if text_eqb arg (u "--tech") then
        match rest with
        | next :: _ => parse_args rest stage_number (Some (lower next))
        | [] => parse_args rest stage_number tech_stack
        end
      else if isdigit arg then
        match py_int arg with
        | Some n => parse_args rest (Some n) tech_stack
        | None => Raise ValueError
        end
      else parse_args rest stage_number tech_stack
  end.

Definition in_argv (a : text) (argv : list text) : bool :=
  existsb (text_eqb a) argv.

(** [main]: the exit code and the files it leaves. *)
Definition main (argv : list text) (w : world) : result (Z * world) :=
  if (List.length argv <? 2)%nat || in_argv (u "--help") argv then
    Ok (if in_argv (u "--help") argv then 0 else 2, w)
  else
    parsed <- parse_args (tl argv) None None ;;
    let '(stage_number, tech_stack) := parsed in
    match stage_number with
    | None | Some 0 => Ok (2, w)
    | Some stage_number =>
        let detected :=
          if truthy tech_stack then tech_stack
          else if path_exists w "package.json" then Some (u "typescript")
          else if negb (bool_decide (glob w [] "" ".sln" = []))
                  || negb (bool_decide (glob_rec w ["src"%string] ".csproj" = []))
               then Some (u "dotnet")
          else None in
        match detected with
        | None => Ok (2, w)
        | Some tech_stack =>
            if negb (text_eqb tech_stack (u "dotnet") ||
                     text_eqb tech_stack (u "typescript"))
            then Ok (2, w)
            else Generator.run {| stage_number := stage_number; tech_stack := tech_stack |} w
        end
    end.
End CommandLine.

(** [sys.exit(main())]: an exception that escapes ends the process with
    the code 1. *)
Definition exit_code (r : result (Z * world)) : Z :=
  match r with
  | Ok (code, _) => code
  | Raise _ => 1
  end.

(** [str.isdigit] on ASCII texts. *)
Definition ascii_isdigit (s : text) : bool :=
  negb (bool_decide (s = [])) && forallb (fun c => (48 <=? c) && (c <=? 57))%N s.

(** The nine tokens that [verify_proof_file] looks for between brackets. *)
Definition verified_tokens : list text :=
  [u "TO BE"; u "PLACEHOLDER"; u "TBD"; u "TODO"; u "PENDING"; u "STATUS";
   u "XXX"; u "N/N"; u "X%"].

(** A proof file that still holds three placeholders of the summary
    table. *)
Definition doc_unresolved : text :=
  u "| Code Coverage | ≥90% | [XX%] | ✅ PASS |
| Vulnerabilities | 0 | [N] | ✅ PASS |
| Deliverables | 5/5 | 5/5 | [✅/❌] |
".
Definition world_unresolved : world :=
  {| fs := {[ output_file (dotnet 7) := doc_unresolved ]}; today := u "2025-01-31" |}.

(** Some file lies at or below the entry [name] of the directory [d]. *)
Definition holds_entry (w : world) (d : list string) (name : string) : Prop :=
  exists p rest, is_Some (fs w !! p) /\ components p = d ++ name :: rest.

(** A world on which the generator runs: the template and two gate
    outputs. *)
Definition world_ready : world :=
  {| fs := {[ template_file := plain_template;
              tests_file := u "Passed!  - Failed:     0, Passed:    42, Skipped:     0, Total:    42";
              coverage_file := u "Line coverage: 93.5%" ]};
     today := u "2025-01-31" |}.

Definition is_Some_result {A} (r : result A) : Prop :=
  match r with Ok _ => True | Raise _ => False end.


(** Some file lies at or below an entry [name] at any depth below [d]. *)
Definition holds_below (w : world) (d : list string) (name : string) : Prop :=
  exists p pre rest, is_Some (fs w !! p) /\ components p = d ++ pre ++ name :: rest.

(** A project with both a package.json and a solution file. *)
Definition world_both_stacks : world :=
  {| fs := <[ "package.json"%string := u "{}" ]>
           (<[ "App.sln"%string := u "" ]> (fs world_ready));
     today := u "2025-01-31" |}.
(** A .NET project known only by a project file deep below src. *)
Definition world_csproj : world :=
  {| fs := <[ "src/App/Core/App.Core.csproj"%string := u "<Project/>" ]> (fs world_ready);
     today := u "2025-01-31" |}.

(** No character of [t] occurs in [s]. *)
Definition free_of (t s : text) : Prop := forall c, In c t -> ~ In c s.

(** The two headings that delimit the review section of a template. *)
Definition review_heading : text := u "## 👔 Principal Engineer Review".
Definition integration_heading : text := u "## 🔄 Integration Status".
(** What is written after the generated review. *)
Definition review_separator : text := u "
---

".

(** A template with a review section between the two headings. *)
Definition template_review : text := u "# Stage [X]

## 👔 Principal Engineer Review

[to be written]

## 🔄 Integration Status

All wired up.
".
Definition world_review : world :=
  {| fs := {[ template_file := template_review ]}; today := u "2025-01-31" |}.

(** ** First occurrences

    [re.search] returns the leftmost match, and a greedy [\d+] at the end
    of a pattern takes the whole run of digits.  The shapes below say so
    in terms of the text alone. *)

Section FirstShapes.
Context `{Runtime}.

(** [rest] starts with [label], whitespace and a count. *)
Definition starts_count (label rest : text) : Prop :=
  exists ws ds post, rest = label ++ ws ++ ds ++ post /\ is_spaces ws /\ is_digits ds.

(** [ds] is the count after the first [label] that is followed by
    whitespace and a digit: the whole run of digits found there. *)
Definition first_count (label content ds : text) : Prop :=
  exists pre ws post,
    content = pre ++ label ++ ws ++ ds ++ post /\
    is_spaces ws /\ is_digits ds /\
    (forall y post', post = y :: post' -> is_digit y = false) /\
    (forall pre1 rest1, content = pre1 ++ rest1 ->
       (List.length pre1 < List.length pre)%nat -> ~ starts_count label rest1).

(** [rest] starts with a count followed by [suffix]. *)
Definition starts_counted (suffix rest : text) : Prop :=
  exists ds post, rest = ds ++ suffix ++ post /\ is_digits ds.

(** [ds] is the count before [suffix] at the first place of [content]
    where a count followed by [suffix] starts. *)
Definition first_counted (suffix content ds : text) : Prop :=
  exists pre post,
    content = pre ++ ds ++ suffix ++ post /\ is_digits ds /\
    (forall pre1 rest1, content = pre1 ++ rest1 ->
       (List.length pre1 < List.length pre)%nat -> ~ starts_counted suffix rest1).

(** [rest] starts with the phrase "Tests: p passed, t total". *)
Definition starts_tests_phrase (p t rest : text) : Prop :=
  exists w1 w2 w3 w4 post,
    rest = u "Tests:" ++ w1 ++ p ++ w2 ++ u "passed," ++ w3 ++ t ++ w4 ++
           u "total" ++ post /\
    is_spaces w1 /\ is_digits p /\ is_spaces w2 /\ is_spaces w3 /\
    is_digits t /\ is_spaces w4.

(** [p] and [t] are the two counts of the first such phrase. *)
Definition first_tests_phrase (content p t : text) : Prop :=
  exists pre rest,
    content = pre ++ rest /\ starts_tests_phrase p t rest /\
    (forall pre1 rest1, content = pre1 ++ rest1 ->
       (List.length pre1 < List.length pre)%nat ->
       forall p1 t1, ~ starts_tests_phrase p1 t1 rest1).
End FirstShapes.

(** What the uniqueness of the captured counts needs of the runtime: no
    whitespace character is a digit, the space is not a digit, and the
    letters p and t are not whitespace (all true of Python's [re]). *)
Definition plain_classes `{Runtime} : Prop :=
  (forall c, re_space c = true -> is_digit c = false) /\
  is_digit 32%N = false /\ re_space 112%N = false /\ re_space 116%N = false.

(** The summary line of a dotnet test run, followed by another count of
    passed tests. *)
Definition log_summary_line : text :=
  u "Passed!  - Failed:     1, Passed:    41, Skipped:     0, Total:    42
Passed: 7 of 8".
Definition world_summary_line : world :=
  {| fs := {[ tests_file := log_summary_line ]}; today := u "2025-01-31" |}.

(** A build log with two warning counts. *)
Definition log_two_counts : text := u "Build succeeded.
    12 Warning(s)
    3 Error(s)
Previous build: 0 Warning(s)".
Definition world_two_counts : world :=
  {| fs := {[ build_file := log_two_counts ]}; today := u "2025-01-31" |}.

(** ** Misses

    The extraction misses that a metric being absent stands for, in
    terms of the artifact files. *)

Section Misses.
Context `{Runtime}.
Variable self : ProofGenerator.
Variable w : world.

(** No test log, or a log without the counts of the variant. *)
Definition tests_missed : Prop :=
  match fs w !! tests_file with
  | None => True
  | Some content =>
      if is_dotnet self
      then ~ (has_count (u "Passed:") content /\ has_count (u "Total:") content)
      else ~ has_tests_phrase content
  end.

(** No coverage report, or a report with neither the phrase nor a row. *)
Definition coverage_missed : Prop :=
  match fs w !! coverage_file with
  | None => True
  | Some content =>
      (forall c, ~ has_line_coverage c content) /\
      (forall c, ~ has_all_files_row c content)
  end.

(** No build log, or a dotnet log without one of its two counts. *)
Definition build_missed : Prop :=
  match fs w !! build_file with
  | None => True
  | Some content =>
      is_dotnet self = true /\
      ~ (has_counted (u " Warning(s)") content /\
         has_counted (u " Error(s)") content)
  end.

(** No security report. *)
Definition vulnerabilities_missed : Prop := fs w !! security_file = None.
End Misses.

(** A test log and a security report in which nothing is recognised. *)
Definition world_nothing_found : world :=
  {| fs := {[ tests_file := u "Test run aborted.";
              security_file := report_quiet ]};
     today := u "2025-01-31" |}.

(** A coverage below 90 by less than [2^-47]. *)
Definition report_just_below : text := u "Line coverage: 89.99999999999999999%".

(** ** The arguments of the command *)

Section CommandLineShapes.
Variable isdigit : text -> bool.

(** Some argument is read as a stage number. *)
Definition has_stage_arg (args : list text) : Prop :=
  exists arg, In arg args /\ arg <> u "--tech" /\ isdigit arg = true.

(** [arg] is the last argument that is read as a stage number. *)
Definition stage_argument (args : list text) (arg : text) : Prop :=
  exists pre post,
    args = pre ++ arg :: post /\ arg <> u "--tech" /\ isdigit arg = true /\
    ~ has_stage_arg post.
End CommandLineShapes.

(** Some "--tech" is followed by an argument. *)
Definition has_tech_pair (args : list text) : Prop :=
  exists p n q, args = p ++ u "--tech" :: n :: q.

(** [next] is the argument after the last "--tech" that has one. *)
Definition tech_argument (args : list text) (next : text) : Prop :=
  exists pre post,
    args = pre ++ u "--tech" :: next :: post /\ ~ has_tech_pair (next :: post).

(** The tech stack that the files of the project show: "typescript" with
    a package.json, and otherwise "dotnet" with a top-level entry ending
    in ".sln" or an entry ending in ".csproj" below src. *)
Definition detected_stack (w : world) (tech : text) : Prop :=
  (path_exists w "package.json" = true /\ tech = u "typescript") \/
  (path_exists w "package.json" = false /\ tech = u "dotnet" /\
   ((exists name, holds_entry w [] name /\ ends_with ".sln" name = true) \/
    (exists name, holds_below w ["src"%string] name /\
                  ends_with ".csproj" name = true))).

(** A command line that asks for an unknown tech stack. *)
Definition argv_java : list text :=
  [u "generate-proof.py"; u "7"; u "--tech"; u "java"].
(** A command line with two stage numbers and two tech stacks. *)
Definition argv_twice : list text :=
  [u "generate-proof.py"; u "3"; u "--tech"; u "typescript"; u "7";
   u "--tech"; u "DotNet"].

(** * Properties of the model *)

(** ** Texts *)

Lemma text_eqb_eq (a b : text) : text_eqb a b = true <-> a = b.
Proof. unfold text_eqb. apply bool_decide_eq_true. Qed.

Lemma text_eqb_neq (a b : text) : text_eqb a b = false <-> a <> b.
Proof. unfold text_eqb. apply bool_decide_eq_false. Qed.

Lemma strip_prefix_app (l s s' : text) :
  strip_prefix l s = Some s' <-> s = l ++ s'.
Proof.
  revert s. induction l as [|a l IH]; intros s; simpl.
  - split; congruence.
  - destruct s as [|b s]; [split; discriminate|].
    destruct (N.eqb_spec a b) as [->|Hab].
    + rewrite IH. split; congruence.
    + split; [discriminate|]. intros [= -> _]. congruence.
Qed.

(** [l in s] holds exactly when [l] occurs in [s]. *)
Lemma contains_spec (l s : text) :
  contains l s = true <-> exists a b, s = a ++ l ++ b.
Proof.
  induction s as [|c s IH]; simpl.
  - destruct (strip_prefix l []) as [s'|] eqn:E.
    + apply strip_prefix_app in E. split; [|reflexivity].
      intros _. exists [], s'. exact E.
    + split; [discriminate|]. intros (a & b & Hab).
      destruct a; simpl in Hab.
      * apply strip_prefix_app in Hab. congruence.
      * discriminate.
  - destruct (strip_prefix l (c :: s)) as [s'|] eqn:E.
    + apply strip_prefix_app in E. split; [|reflexivity].
      intros _. exists [], s'. exact E.
    + rewrite IH. split.
      * intros (a & b & ->). exists (c :: a), b. reflexivity.
      * intros (a & b & Hab). destruct a as [|x a]; simpl in Hab.
        -- apply strip_prefix_app in Hab. congruence.
        -- injection Hab as _ ->. eauto.
Qed.

(** ** The matcher *)

Section MatcherFacts.
Context `{Runtime}.
Variable fl : flags.

Lemma many_greedy_sound {R : Type} p s (k : text -> option R) x :
  many_greedy p s k = Some x ->
  exists a s', s = a ++ s' /\ forallb p a = true /\ k s' = Some x.
Proof.
  induction s as [|c s IH]; simpl; intros Hx.
  - exists [], []. auto.
  - destruct (p c) eqn:Hc.
    + destruct (many_greedy p s k) as [y|] eqn:E.
      * injection Hx as ->. destruct (IH eq_refl) as (a & s' & -> & Ha & Hk).
        exists (c :: a), s'. simpl. rewrite Hc, Ha. auto.
      * exists [], (c :: s). auto.
    + exists [], (c :: s). auto.
Qed.

Lemma many_lazy_sound {R : Type} p s (k : text -> option R) x :
  many_lazy p s k = Some x ->
  exists a s', s = a ++ s' /\ forallb p a = true /\ k s' = Some x.
Proof.
  induction s as [|c s IH]; simpl; intros Hx.
  - destruct (k []) eqn:E; [|discriminate]. exists [], []. rewrite E. auto.
  - destruct (k (c :: s)) eqn:E.
    + exists [], (c :: s). rewrite E. auto.
    + destruct (p c) eqn:Hc; [|discriminate].
      destruct (IH Hx) as (a & s' & -> & Ha & Hk).
      exists (c :: a), s'. simpl. rewrite Hc, Ha. auto.
Qed.

(** Soundness: a result of [run] is a result of the continuation at a
    rest and groups that [sem] allows. *)
Lemma run_sound {R : Type} r : forall s caps (k : text -> list text -> option R) x,
  run fl r s caps k = Some x ->
  exists s' caps', sem fl r s caps s' caps' /\ k s' caps' = Some x.
Proof.
  revert R.
  induction r as [l|c|g c|r1 IH1 r2 IH2|r1 IH1 r2 IH2|r1 IH1|r1 IH1];
    intros R s caps k x; simpl; intros Hx.
  - destruct (strip_lit fl l s) as [s'|] eqn:E; [|discriminate]. eauto.
  - destruct s as [|y s]; [discriminate|].
    destruct (in_cls fl c y) eqn:E; [|discriminate].
    exists s, caps. split; [|assumption]. exists y. auto.
  - destruct g.
    + apply many_greedy_sound in Hx as (a & s' & ? & ? & ?).
      exists s', caps. split; [|assumption]. exists a. auto.
    + apply many_lazy_sound in Hx as (a & s' & ? & ? & ?).
      exists s', caps. split; [|assumption]. exists a. auto.
  - apply IH1 in Hx as (s1 & caps1 & H1 & Hx).
    apply IH2 in Hx as (s2 & caps2 & H2 & Hx).
    exists s2, caps2. split; [|assumption]. exists s1, caps1. auto.
  - destruct (run fl r1 s caps k) as [y|] eqn:E.
    + injection Hx as ->. apply IH1 in E as (s' & caps' & ? & ?).
      exists s', caps'. auto.
    + apply IH2 in Hx as (s' & caps' & ? & ?). exists s', caps'. auto.
  - apply IH1 in Hx as (s' & caps1 & H1 & Hx).
    exists s', (caps1 ++ [consumed s s']). split; [|assumption].
    exists caps1. auto.
  - destruct (run fl r1 s caps (fun _ caps' => Some caps')) as [caps1|] eqn:E;
      [|discriminate].
    apply IH1 in E as (s1 & caps' & H1 & [= ->]).
    exists s, caps1. split; [|assumption]. split; [reflexivity|]. eauto.
Qed.

(** Whether [r] matches does not depend on the groups captured before. *)
Lemma sem_any_caps r : forall s caps s' caps' c,
  sem fl r s caps s' caps' -> exists c', sem fl r s c s' c'.
Proof.
  induction r as [l|cl|g cl|r1 IH1 r2 IH2|r1 IH1 r2 IH2|r1 IH1|r1 IH1];
    intros s caps s' caps' c; simpl.
  - intros [? _]. eauto.
  - intros (x & ? & ? & _). exists c, x. auto.
  - intros (a & ? & ? & _). exists c, a. auto.
  - intros (s1 & caps1 & H1 & H2).
    destruct (IH1 _ _ _ _ c H1) as (c1 & H1').
    destruct (IH2 _ _ _ _ c1 H2) as (c2 & H2'). eauto.
  - intros [H1|H2].
    + destruct (IH1 _ _ _ _ c H1) as (c1 & ?). eauto.
    + destruct (IH2 _ _ _ _ c H2) as (c1 & ?). eauto.
  - intros (caps1 & H1 & _). destruct (IH1 _ _ _ _ c H1) as (c1 & ?). eauto.
  - intros (-> & s1 & H1). destruct (IH1 _ _ _ _ c H1) as (c1 & ?). eauto.
Qed.

Lemma many_greedy_complete {R : Type} p a s' (k : text -> option R) :
  forallb p a = true -> is_Some (k s') -> is_Some (many_greedy p (a ++ s') k).
Proof.
  induction a as [|c a IH]; simpl; intros Ha Hk.
  - destruct s' as [|c s']; simpl; [assumption|].
    destruct (p c); [|assumption].
    destruct (many_greedy p s' k); [eauto|assumption].
  - apply andb_true_iff in Ha as [-> Ha].
    destruct (IH Ha Hk) as [y ->]. eauto.
Qed.

Lemma many_lazy_complete {R : Type} p a s' (k : text -> option R) :
  forallb p a = true -> is_Some (k s') -> is_Some (many_lazy p (a ++ s') k).
Proof.
  induction a as [|c a IH]; simpl; intros Ha Hk.
  - destruct Hk as [y Hy]. destruct s'; simpl; rewrite Hy; eauto.
  - apply andb_true_iff in Ha as [-> Ha].
    destruct (k (c :: a ++ s')); [eauto|]. auto.
Qed.

(** Completeness: when [r] can match and the continuation accepts the
    rest, [run] succeeds (backtracking explores every way to match). *)
Lemma run_complete {R : Type} r : forall s caps s' caps' (k : text -> list text -> option R),
  sem fl r s caps s' caps' ->
  (forall c, is_Some (k s' c)) ->
  is_Some (run fl r s caps k).
Proof.
  revert R.
  induction r as [l|cl|g cl|r1 IH1 r2 IH2|r1 IH1 r2 IH2|r1 IH1|r1 IH1];
    intros R s caps s' caps' k; simpl.
  - intros [-> _] Hk. apply Hk.
  - intros (x & -> & -> & _) Hk. apply Hk.
  - intros (a & -> & Ha & _) Hk. destruct g.
    + apply many_greedy_complete; auto.
    + apply many_lazy_complete; auto.
  - intros (s1 & caps1 & H1 & H2) Hk.
    eapply IH1; [exact H1|].
    intros c. destruct (sem_any_caps _ _ _ _ _ c H2) as (c' & H2').
    eapply IH2; [exact H2'|assumption].
  - intros [H1|H2] Hk.
    + destruct (IH1 _ _ _ _ _ k H1 Hk) as [y ->]. eauto.
    + destruct (run fl r1 s caps k); [eauto|]. eapply IH2; eauto.
  - intros (caps1 & H1 & _) Hk. eapply IH1; [eassumption|]. intros c. apply Hk.
  - intros (-> & s1 & H1) Hk.
    destruct (IH1 _ _ _ _ _ (fun _ c => Some c) H1) as [c1 ->]; [eauto|].
    apply Hk.
Qed.

(** [re.search] finds a match exactly when the pattern matches at some
    position, and the match returned is one that [sem] allows. *)
Lemma search_sound r s m :
  search fl r s = Some m ->
  exists pre rest s', s = pre ++ rest /\ sem fl r rest [] s' (groups m) /\
                      whole m = consumed rest s'.
Proof.
  induction s as [|c s IH]; simpl; unfold match_at.
  - destruct (run fl r [] [] _) as [m'|] eqn:E; [|discriminate].
    intros [= ->]. apply run_sound in E as (s' & caps' & Hs & [= <-]).
    exists [], [], s'. auto.
  - destruct (run fl r (c :: s) [] _) as [m'|] eqn:E.
    + intros [= ->]. apply run_sound in E as (s' & caps' & Hs & [= <-]).
      exists [], (c :: s), s'. auto.
    + intros Hm. destruct (IH Hm) as (pre & rest & s' & -> & ? & ?).
      exists (c :: pre), rest, s'. auto.
Qed.

Lemma search_complete r pre rest s' caps :
  sem fl r rest [] s' caps -> is_Some (search fl r (pre ++ rest)).
Proof.
  intros Hs.
  assert (Hm : is_Some (match_at fl r rest)).
  { unfold match_at. eapply run_complete; [eassumption|]. eauto. }
  induction pre as [|c pre IH]; simpl.
  - destruct rest; simpl; destruct Hm as [m ->]; eauto.
  - destruct (match_at fl r (c :: pre ++ rest)); [eauto|]. exact IH.
Qed.

Lemma search_none r pre rest s' caps :
  search fl r (pre ++ rest) = None -> ~ sem fl r rest [] s' caps.
Proof.
  intros Hn Hs. destruct (search_complete r pre rest s' caps Hs) as [m Hm].
  congruence.
Qed.

(** A replacement leaves a text without a match unchanged. *)
Lemma sub_no_match r repl s :
  search fl r s = None -> sub fl r repl s = s.
Proof.
  unfold sub. induction s as [|c s IH]; simpl; [reflexivity|].
  destruct (match_at fl r (c :: s)); [discriminate|].
  intros Hs. rewrite (IH Hs). reflexivity.
Qed.

Lemma consumed_app (a s' : text) : consumed (a ++ s') s' = a.
Proof.
  unfold consumed. rewrite length_app.
  replace (List.length a + List.length s' - List.length s')%nat
    with (List.length a) by lia.
  rewrite firstn_app, Nat.sub_diag, firstn_all. simpl. apply app_nil_r.
Qed.

Lemma strip_lit_exact l s :
  ignorecase fl = false -> strip_lit fl l s = strip_prefix l s.
Proof.
  intros Hi. revert s. induction l as [|a l IH]; intros [|b s]; simpl; auto.
  rewrite Hi, IH. reflexivity.
Qed.
End MatcherFacts.

(** ** The shapes that the patterns of the extractors recognise *)

Section Shapes.
Context `{Runtime}.

Lemma sem_plus fl c s caps s' caps' :
  sem fl (Plus c) s caps s' caps' <->
  exists a, a <> [] /\ s = a ++ s' /\ forallb (in_cls fl c) a = true /\
            caps' = caps.
Proof.
  unfold Plus. simpl. split.
  - intros (s1 & caps1 & (x & -> & Hx & ->) & (a & -> & Ha & ->)).
    exists (x :: a). simpl. rewrite Hx, Ha. auto.
  - intros ([|x a] & Hne & -> & Ha & ->); [congruence|].
    simpl in Ha. apply andb_true_iff in Ha as [Hx Ha].
    exists (a ++ s'), caps. split.
    + exists x. auto.
    + exists a. auto.
Qed.

Lemma sem_lit fl l s caps s' caps' :
  ignorecase fl = false ->
  sem fl (Lit l) s caps s' caps' <-> s = l ++ s' /\ caps' = caps.
Proof.
  intros Hi. simpl. rewrite strip_lit_exact by assumption.
  rewrite strip_prefix_app. reflexivity.
Qed.

Lemma sem_group_plus fl c s caps s' caps' :
  sem fl (Group (Plus c)) s caps s' caps' <->
  exists a, a <> [] /\ s = a ++ s' /\ forallb (in_cls fl c) a = true /\
            caps' = caps ++ [a].
Proof.
  change (sem fl (Group (Plus c)) s caps s' caps')
    with (exists caps1, sem fl (Plus c) s caps s' caps1 /\
                        caps' = caps1 ++ [consumed s s']).
  split.
  - intros (caps1 & Hp & ->). apply sem_plus in Hp as (a & ? & -> & ? & ->).
    exists a. rewrite consumed_app. auto.
  - intros (a & ? & -> & ? & ->). exists caps. split.
    + apply sem_plus. exists a. auto.
    + rewrite consumed_app. reflexivity.
Qed.

(** [label\s+(\d+)] *)
Lemma sem_labelled_count l s s' caps' :
  sem no_flags (Lit l +++ Plus Space +++ Group (Plus Digit)) s [] s' caps' <->
  exists ws ds, s = l ++ ws ++ ds ++ s' /\ is_spaces ws /\ is_digits ds /\
                caps' = [ds].
Proof.
  change (sem no_flags (Lit l +++ Plus Space +++ Group (Plus Digit)) s [] s' caps')
    with (exists s1 caps1, sem no_flags (Lit l) s [] s1 caps1 /\
            exists s2 caps2, sem no_flags (Plus Space) s1 caps1 s2 caps2 /\
              sem no_flags (Group (Plus Digit)) s2 caps2 s' caps').
  split.
  - intros (s1 & caps1 & Hl & s2 & caps2 & Hs & Hd).
    apply sem_lit in Hl as [-> ->]; [|reflexivity].
    apply sem_plus in Hs as (ws & ? & -> & ? & ->).
    apply sem_group_plus in Hd as (ds & ? & -> & ? & ->).
    exists ws, ds. unfold is_spaces, is_digits. auto.
  - intros (ws & ds & -> & [? ?] & [? ?] & ->).
    exists (ws ++ ds ++ s'), []. split; [apply sem_lit; auto|].
    exists (ds ++ s'), []. split.
    + apply sem_plus. exists ws. auto.
    + apply sem_group_plus. exists ds. auto.
Qed.

(** [(\d+)suffix] *)
Lemma sem_counted l s s' caps' :
  sem no_flags (Group (Plus Digit) +++ Lit l) s [] s' caps' <->
  exists ds, s = ds ++ l ++ s' /\ is_digits ds /\ caps' = [ds].
Proof.
  change (sem no_flags (Group (Plus Digit) +++ Lit l) s [] s' caps')
    with (exists s1 caps1, sem no_flags (Group (Plus Digit)) s [] s1 caps1 /\
                           sem no_flags (Lit l) s1 caps1 s' caps').
  split.
  - intros (s1 & caps1 & Hd & Hl).
    apply sem_group_plus in Hd as (ds & ? & -> & ? & ->).
    apply sem_lit in Hl as [-> ->]; [|reflexivity].
    exists ds. unfold is_digits. auto.
  - intros (ds & -> & [? ?] & ->). exists (l ++ s'), [ds]. split.
    + apply sem_group_plus. exists ds. auto.
    + apply sem_lit; auto.
Qed.

(** [re.search(label\s+(\d+), content)] succeeds exactly on the texts
    that hold the label, whitespace and digits; its group is a
    non-empty text of digits. *)
Lemma search_labelled_count l content :
  is_Some (search no_flags (Lit l +++ Plus Space +++ Group (Plus Digit)) content)
  <-> has_count l content.
Proof.
  split.
  - intros [m Hm]. apply search_sound in Hm as (pre & rest & s' & -> & Hs & _).
    apply sem_labelled_count in Hs as (ws & ds & -> & ? & ? & _).
    exists pre, ws, ds, s'. auto.
  - intros (pre & ws & ds & post & -> & ? & ?).
    apply (search_complete _ _ pre _ post [ds]).
    apply sem_labelled_count. exists ws, ds. auto.
Qed.

Lemma search_labelled_count_group l content m :
  search no_flags (Lit l +++ Plus Space +++ Group (Plus Digit)) content = Some m ->
  is_digits (group 1 m).
Proof.
  intros Hm. apply search_sound in Hm as (pre & rest & s' & -> & Hs & _).
  apply sem_labelled_count in Hs as (ws & ds & -> & ? & ? & Hg).
  unfold group. rewrite Hg. assumption.
Qed.

Lemma search_counted l content :
  is_Some (search no_flags (Group (Plus Digit) +++ Lit l) content)
  <-> has_counted l content.
Proof.
  split.
  - intros [m Hm]. apply search_sound in Hm as (pre & rest & s' & -> & Hs & _).
    apply sem_counted in Hs as (ds & -> & ? & _).
    exists pre, ds, s'. auto.
  - intros (pre & ds & post & -> & ?).
    apply (search_complete _ _ pre _ post [ds]).
    apply sem_counted. exists ds. auto.
Qed.

Lemma search_counted_group l content m :
  search no_flags (Group (Plus Digit) +++ Lit l) content = Some m ->
  is_digits (group 1 m).
Proof.
  intros Hm. apply search_sound in Hm as (pre & rest & s' & -> & Hs & _).
  apply sem_counted in Hs as (ds & -> & ? & Hg).
  unfold group. rewrite Hg. assumption.
Qed.
End Shapes.

(** ** Test extraction *)

Lemma PASS_neq_FAIL : PASS <> FAIL.
Proof. discriminate. Qed.

Section TestExtraction.
Context `{Runtime}.
Variable self : ProofGenerator.
Variable w : world.

Lemma is_dotnet_true : tech_stack self = u "dotnet" -> is_dotnet self = true.
Proof. intros E. apply text_eqb_eq. exact E. Qed.

Lemma is_dotnet_false : tech_stack self <> u "dotnet" -> is_dotnet self = false.
Proof. intros E. apply text_eqb_neq. exact E. Qed.

(** The status of a record follows the text of its [failed] field. *)
Lemma test_status_follows_failed r :
  extract_test_results self w = Some r ->
  status r = (if text_eqb (failed r) (u "0") then PASS else FAIL).
Proof.
  unfold extract_test_results.
  destruct (fs w !! gate_file "gate-5-tests.txt") as [content|]; [|discriminate].
  destruct (is_dotnet self).
  - destruct (search no_flags re_passed content); [|discriminate].
    destruct (search no_flags re_total content); [|discriminate].
    intros [= <-]. reflexivity.
  - destruct (search no_flags re_tests content); [|discriminate].
    intros [= <-]. reflexivity.
Qed.
End TestExtraction.


(** C9, as stated, fails: the record of a log with "Passed: 1",
    "Total: 5" and "Failed: 0" has failed = 0, which is not total - passed. *)
Lemma C9_counterexample :
  exists r, @extract_test_results ascii_runtime (dotnet 1) world_mismatch = Some r
            /\ ~ @TestMetrics_invariant ascii_runtime r.
Proof.
  eexists. split; [vm_compute; reflexivity|].
  intros (p & t & f & Hp & Ht & Hf & Hsub & _).
  vm_compute in Hp, Ht, Hf.
  injection Hp as <-. injection Ht as <-. injection Hf as <-. discriminate.
Qed.

(** C9, amended: in every record produced by test extraction, for either
    variant and any text, the status is fail exactly when the [failed]
    text is not "0" and pass exactly when it is; outside the dotnet
    variant [failed] is always "0". *)
Theorem C9_status_follows_failed_text `{Runtime} self w r :
  extract_test_results self w = Some r ->
  (status r = FAIL <-> failed r <> u "0") /\
  (status r = PASS <-> failed r = u "0") /\
  (tech_stack self <> u "dotnet" -> failed r = u "0" /\ status r = PASS).
Proof.
  intros Hr. pose proof (test_status_follows_failed _ _ _ Hr) as Hs.
  split; [|split].
  - rewrite Hs. destruct (text_eqb (failed r) (u "0")) eqn:E.
    + apply text_eqb_eq in E. split.
      * intros Hx. destruct (PASS_neq_FAIL Hx).
      * intros Hn. contradiction.
    + apply text_eqb_neq in E. split; auto.
  - rewrite Hs. destruct (text_eqb (failed r) (u "0")) eqn:E.
    + apply text_eqb_eq in E. split; auto.
    + apply text_eqb_neq in E. split.
      * intros Hx. symmetry in Hx. destruct (PASS_neq_FAIL Hx).
      * intros He. contradiction.
  - intros Hn. revert Hr. unfold extract_test_results.
    destruct (fs w !! gate_file "gate-5-tests.txt") as [content|]; [|discriminate].
    rewrite (is_dotnet_false _ Hn).
    destruct (search no_flags re_tests content); [|discriminate].
    intros [= <-]. auto.
Qed.

Lemma C9_witness :
  @extract_test_results ascii_runtime (dotnet 1) world_mismatch
    = Some {| passed := u "1"; total := u "5"; failed := u "0"; status := PASS |}
  /\ (PASS = FAIL <-> u "0" <> u "0").
Proof.
  split; [vm_compute; reflexivity|].
  apply (@C9_status_follows_failed_text ascii_runtime (dotnet 1) world_mismatch
           {| passed := u "1"; total := u "5"; failed := u "0"; status := PASS |}).
  vm_compute; reflexivity.
Defined.

(** ** Build extraction *)

Lemma digits_value_ge `{Runtime} s : forall acc v,
  digits_value s acc = Some v -> (acc <= v)%N.
Proof.
induction s as [|c s IH]; simpl; intros acc v.
- intros [= <-]. lia.
- destruct (decimal c) as [d|]; [|discriminate].
  intros Hv. apply IH in Hv. lia.
Qed.

(** A count without leading zeros is zero only when it is the text "0". *)
Lemma canonical_zero `{Runtime} ds :
  ascii_digits_ok -> canonical ds -> (py_int ds = Some 0%Z <-> ds = u "0").
Proof.
intros Hok [->|(c & rest & -> & Hc & _)].
- split; [reflexivity|]. intros _.
  change (u "0") with [48%N]. unfold py_int. simpl.
  rewrite (Hok 48%N) by lia. reflexivity.
- split.
  + unfold py_int. simpl. rewrite (Hok c) by lia.
    destruct (digits_value rest (10 * 0 + (c - 48))) as [v|] eqn:E; [|discriminate].
    apply digits_value_ge in E. simpl. intros [= Hv]. lia.
  + change (u "0") with [48%N]. intros [= -> _]. lia.
Qed.


(** The build log of the specification: two warnings and no error fail. *)
Example build_2_warnings_fails :
  @extract_build_info ascii_runtime (dotnet 1) world_2_warnings
    = Some {| warnings := Some (u "2"); errors := Some (u "0"); build_status := FAIL |}.
Proof. vm_compute. reflexivity. Qed.

(** ** Vulnerability extraction *)

(** C8: a security report in which "0 vulnerabilities" occurs yields the
    count "0", whatever else it holds: the phrase is tested before any
    severity token is counted. *)
Theorem C8_all_clear_phrase_wins `{Runtime} w content :
  fs w !! security_file = Some content ->
  occurs (u "0 vulnerabilities") content ->
  extract_vulnerabilities w = Some (u "0").
Proof.
intros Hf Ho. unfold extract_vulnerabilities.
change (gate_file "gate-7-security.txt") with security_file. rewrite Hf.
apply contains_spec in Ho. rewrite Ho, orb_true_r. reflexivity.
Qed.

Lemma report_all_clear_occurs : occurs (u "0 vulnerabilities") report_all_clear.
Proof. apply contains_spec. vm_compute. reflexivity. Qed.

Lemma C8_witness :
  fs world_all_clear !! security_file = Some report_all_clear /\
  occurs (u "0 vulnerabilities") report_all_clear /\
  @count_matches ascii_runtime IGNORECASE re_severity report_all_clear 0 = 3%nat /\
  @extract_vulnerabilities ascii_runtime world_all_clear = Some (u "0").
Proof.
split; [vm_compute; reflexivity|]. split; [exact report_all_clear_occurs|].
split; [vm_compute; reflexivity|].
apply (@C8_all_clear_phrase_wins ascii_runtime world_all_clear report_all_clear);
  [vm_compute; reflexivity | exact report_all_clear_occurs].
Defined.

(** C10: the phrase "no vulnerable packages" is looked for in the
    lower-cased text, the phrase "0 vulnerabilities" in the text as it
    is.  A text with neither (for instance one that only holds
    "0 Vulnerabilities") gets the number of severity tokens; a text with
    "NO VULNERABLE PACKAGES" gets "0". *)
Theorem C10_case_handling_of_all_clear_phrases :
  (forall (R : Runtime) w content,
     fs w !! security_file = Some content ->
     (occurs (u "no vulnerable packages") (lower content) ->
      extract_vulnerabilities w = Some (u "0")) /\
     (~ occurs (u "no vulnerable packages") (lower content) ->
      ~ occurs (u "0 vulnerabilities") content ->
      extract_vulnerabilities w =
        Some (str_of_Z (Z.of_nat (count_matches IGNORECASE re_severity content 0))))) /\
  (occurs (u "0 Vulnerabilities") report_capitalised /\
   @extract_vulnerabilities ascii_runtime world_capitalised = Some (u "1")) /\
  @extract_vulnerabilities ascii_runtime world_upper = Some (u "0").
Proof.
split; [|split; [split|]].
- intros R w content Hf. unfold extract_vulnerabilities.
  change (gate_file "gate-7-security.txt") with security_file. rewrite Hf.
  split.
  + intros Ho. apply contains_spec in Ho. rewrite Ho. reflexivity.
  + intros H1 H2.
    destruct (contains (u "no vulnerable packages") (lower content)) eqn:E1.
    { destruct H1. apply contains_spec. exact E1. }
    destruct (contains (u "0 vulnerabilities") content) eqn:E2.
    { destruct H2. apply contains_spec. exact E2. }
    reflexivity.
- apply contains_spec. vm_compute. reflexivity.
- vm_compute. reflexivity.
- vm_compute. reflexivity.
Qed.

Lemma C10_witness :
  fs world_capitalised !! security_file = Some report_capitalised /\
  ~ occurs (u "no vulnerable packages") (@lower ascii_runtime report_capitalised) /\
  ~ occurs (u "0 vulnerabilities") report_capitalised /\
  @extract_vulnerabilities ascii_runtime world_capitalised =
    Some (str_of_Z (Z.of_nat
      (@count_matches ascii_runtime IGNORECASE re_severity report_capitalised 0))).
Proof.
assert (H1 : ~ occurs (u "no vulnerable packages")
               (@lower ascii_runtime report_capitalised)).
{ intros Ho. apply contains_spec in Ho. vm_compute in Ho. discriminate. }
assert (H2 : ~ occurs (u "0 vulnerabilities") report_capitalised).
{ intros Ho. apply contains_spec in Ho. vm_compute in Ho. discriminate. }
split; [vm_compute; reflexivity|]. split; [exact H1|]. split; [exact H2|].
apply (proj1 C10_case_handling_of_all_clear_phrases ascii_runtime
         world_capitalised report_capitalised); [vm_compute; reflexivity| | ];
  assumption.
Defined.

(** ** Stage guidance *)

Lemma guidance_distinct :
  foundation_guidance <> execution_guidance /\
  execution_guidance <> hardening_guidance /\
  foundation_guidance <> hardening_guidance.
Proof.
repeat split; intros E;
  apply (f_equal (fun g => nth 5 (risks g) 0%N)) in E;
  vm_compute in E; discriminate.
Qed.

(** C6: the guidance, and with it the tier of a stage, is defined for
    every integer: the foundation tier up to 4, the execution tier from 5
    to 7, the hardening tier from 8; the three are different. *)
Theorem C6_stage_tier_total_and_exact :
  (forall self,
     (stage_number self <= 4 ->
      _get_stage_specific_guidance self = foundation_guidance) /\
     (5 <= stage_number self <= 7 ->
      _get_stage_specific_guidance self = execution_guidance) /\
     (8 <= stage_number self ->
      _get_stage_specific_guidance self = hardening_guidance))%Z /\
  _get_stage_specific_guidance (dotnet 4) = foundation_guidance /\
  _get_stage_specific_guidance (dotnet 5) = execution_guidance /\
  _get_stage_specific_guidance (dotnet 7) = execution_guidance /\
  _get_stage_specific_guidance (dotnet 8) = hardening_guidance /\
  foundation_guidance <> execution_guidance /\
  execution_guidance <> hardening_guidance /\
  foundation_guidance <> hardening_guidance.
Proof.
destruct guidance_distinct as (Hfe & Heh & Hfh).
split; [|repeat split; try (vm_compute; reflexivity); assumption].
intros self. unfold _get_stage_specific_guidance. repeat split; intros Hn.
- destruct (Z.leb_spec (stage_number self) 4); [reflexivity|lia].
- destruct (Z.leb_spec (stage_number self) 4); [lia|].
  destruct (Z.leb_spec (stage_number self) 7); [reflexivity|lia].
- destruct (Z.leb_spec (stage_number self) 4); [lia|].
  destruct (Z.leb_spec (stage_number self) 7); [lia|reflexivity].
Qed.

Lemma C6_witness :
  (3 <= 4)%Z /\ _get_stage_specific_guidance (typescript 3) = foundation_guidance.
Proof.
split; [lia|].
apply (proj1 (proj1 C6_stage_tier_total_and_exact (typescript 3))).
simpl. lia.
Defined.

(** ** Coverage extraction and the summary table *)

Section Coverage.
Context `{Runtime}.

Lemma sem_seq fl r1 r2 s caps s' caps' :
  sem fl (r1 +++ r2) s caps s' caps' <->
  exists s1 caps1, sem fl r1 s caps s1 caps1 /\ sem fl r2 s1 caps1 s' caps'.
Proof. reflexivity. Qed.

Lemma line_coverage_group content m :
  search no_flags re_line_coverage content = Some m -> group 1 m <> [].
Proof.
intros Hm. apply search_sound in Hm as (pre & rest & s' & -> & Hs & _).
unfold re_line_coverage in Hs.
apply sem_seq in Hs as (s1 & c1 & [_ ->] & Hs).
apply sem_seq in Hs as (s2 & c2 & Hsp & Hs).
apply sem_plus in Hsp as (ws & _ & _ & _ & ->).
apply sem_seq in Hs as (s3 & c3 & Hg & [_ Hc]).
apply sem_group_plus in Hg as (ds & Hne & _ & _ & ->).
unfold group. rewrite Hc. exact Hne.
Qed.

Lemma all_files_group content m :
  search no_flags re_all_files content = Some m -> group 1 m <> [].
Proof.
intros Hm. apply search_sound in Hm as (pre & rest & s' & -> & Hs & _).
unfold re_all_files in Hs.
apply sem_seq in Hs as (s1 & c1 & [_ ->] & Hs).
apply sem_seq in Hs as (s2 & c2 & (a & _ & _ & ->) & Hs).
apply sem_seq in Hs as (s3 & c3 & [_ ->] & Hs).
apply sem_seq in Hs as (s4 & c4 & Hsp & Hg).
apply sem_plus in Hsp as (ws & _ & _ & _ & ->).
apply sem_group_plus in Hg as (ds & Hne & _ & _ & Hc).
unfold group. rewrite Hc. exact Hne.
Qed.

(** An extracted coverage is never the empty text. *)
Lemma extract_coverage_truthy w c :
  extract_coverage w = Some c -> truthy (Some c) = true.
Proof.
unfold extract_coverage.
destruct (fs w !! gate_file "gate-6-coverage.txt") as [content|]; [|discriminate].
destruct (search no_flags re_line_coverage content) as [m|] eqn:E1.
- intros [= <-]. apply line_coverage_group in E1.
  destruct (group 1 m); [congruence|reflexivity].
- destruct (search no_flags re_all_files content) as [m|] eqn:E2; [|discriminate].
  intros [= <-]. apply all_files_group in E2.
  destruct (group 1 m); [congruence|reflexivity].
Qed.

Lemma status_texts_distinct :
  PASS <> FAIL /\ PASS <> u "[STATUS]" /\ FAIL <> u "[STATUS]".
Proof. repeat split; discriminate. Qed.

(** The status cell of the coverage row, case by case. *)
Lemma coverage_status_cases (coverage : option text) :
  match coverage with
  | None => coverage_status coverage = Ok (u "[STATUS]")
  | Some c =>
      truthy (Some c) = true ->
      match py_float c with
      | Ok f => coverage_status coverage = Ok (if float_ge f 90 then PASS else FAIL)
      | Raise e => coverage_status coverage = Raise e
      end
  end.
Proof.
destruct coverage as [c|]; [|reflexivity].
intros Ht. unfold coverage_status. rewrite Ht. simpl.
destruct (py_float c); reflexivity.
Qed.
End Coverage.


(** The threshold is inclusive, and it is the floating-point value that
    is compared. *)
Example coverage_examples :
  @coverage_status ascii_runtime (Some (u "92.5")) = Ok PASS /\
  @coverage_status ascii_runtime (Some (u "85.0")) = Ok FAIL /\
  @coverage_status ascii_runtime (Some (u "90")) = Ok PASS /\
  @coverage_status ascii_runtime (Some (u "90.0")) = Ok PASS /\
  @coverage_status ascii_runtime (Some (u "89.99")) = Ok FAIL /\
  @coverage_status ascii_runtime (Some (u "89.99999999999999999999")) = Ok PASS /\
  @coverage_status ascii_runtime (Some (u "1.2.3")) = Raise ValueError /\
  @coverage_status ascii_runtime None = Ok (u "[STATUS]").
Proof. repeat split; vm_compute; reflexivity. Qed.


(** ** Synthesis *)

Lemma replace_absent (old new s : text) :
  ~ occurs old s -> replace old new s = s.
Proof.
intros Ho. assert (Hc : contains old s = false).
{ destruct (contains old s) eqn:E; [|reflexivity].
  destruct Ho. apply contains_spec. exact E. }
clear Ho. unfold replace. induction s as [|c s IH]; [reflexivity|].
simpl in Hc |- *.
destruct (strip_prefix old (c :: s)); [discriminate|].
rewrite (IH Hc). reflexivity.
Qed.

Section Synthesis.
Context `{Runtime}.
Variable self : ProofGenerator.

(** The review section is produced exactly when the summary table is. *)
Lemma review_raises_with_summary w :
  match coverage_status (extract_coverage w) with
  | Ok _ => exists table review,
      generate_stage_summary self w = Ok table /\
      generate_engineer_review_prompts self w = Ok review
  | Raise e => generate_stage_summary self w = Raise e
  end.
Proof.
unfold generate_stage_summary, summary_rows, generate_engineer_review_prompts,
  coverage_status.
destruct (truthy (extract_coverage w)).
- destruct (py_float (default [] (extract_coverage w))) as [f|e]; simpl; eauto.
- simpl. eauto.
Qed.

Lemma extractors_agree w1 w2 :
  inputs_agree w1 w2 ->
  extract_test_results self w1 = extract_test_results self w2 /\
  extract_coverage w1 = extract_coverage w2 /\
  extract_build_info self w1 = extract_build_info self w2 /\
  extract_vulnerabilities w1 = extract_vulnerabilities w2.
Proof.
intros (_ & Ht & Hc & Hb & Hs & _).
unfold tests_file, coverage_file, build_file, security_file in *.
unfold extract_test_results, extract_coverage, extract_build_info,
  extract_vulnerabilities.
rewrite Ht, Hc, Hb, Hs. auto.
Qed.
End Synthesis.

(** C2, as stated, fails: two runs on the same files on different days
    write different documents. *)
Lemma C2_counterexample :
  fs (world_plain (u "2025-01-31")) = fs (world_plain (u "2025-02-01")) /\
  @generate_proof_file ascii_runtime (dotnet 1) (world_plain (u "2025-01-31")) <>
  @generate_proof_file ascii_runtime (dotnet 1) (world_plain (u "2025-02-01")).
Proof.
split; [reflexivity|]. intros E. vm_compute in E. discriminate.
Qed.

(** C2, amended: the document is a function of the stage number, the
    tech stack, the template, the four gate outputs and the current date:
    two runs that agree on these write the same document (or fail alike),
    whatever else the worlds hold. *)
Theorem C2_document_determined_by_inputs `{Runtime} self w1 w2 :
  inputs_agree w1 w2 ->
  generate_proof_file self w1 = generate_proof_file self w2.
Proof.
intros Hw. destruct (extractors_agree self w1 w2 Hw) as (Et & Ec & Eb & Ev).
destruct Hw as (Htpl & _ & _ & _ & _ & Hd).
assert (Es : generate_stage_summary self w1 = generate_stage_summary self w2).
{ unfold generate_stage_summary, summary_rows. rewrite Et, Ec, Eb, Ev. reflexivity. }
assert (Er : generate_engineer_review_prompts self w1 =
             generate_engineer_review_prompts self w2).
{ unfold generate_engineer_review_prompts. rewrite Et, Ec. reflexivity. }
assert (Ea : forall t, apply_replacements self w1 t = apply_replacements self w2 t).
{ intros t. unfold apply_replacements, replacements. rewrite Hd. reflexivity. }
unfold generate_proof_file. rewrite Htpl, Es, Er.
destruct (fs w2 !! template_file) as [template|]; [|reflexivity].
rewrite Ea. reflexivity.
Qed.

Lemma C2_witness :
  inputs_agree (world_plain (u "2025-01-31"))
    {| fs := <[ "notes.txt"%string := u "unrelated" ]> (fs (world_plain (u "2025-01-31")));
       today := u "2025-01-31" |} /\
  @generate_proof_file ascii_runtime (dotnet 1) (world_plain (u "2025-01-31")) =
  @generate_proof_file ascii_runtime (dotnet 1)
    {| fs := <[ "notes.txt"%string := u "unrelated" ]> (fs (world_plain (u "2025-01-31")));
       today := u "2025-01-31" |}.
Proof.
assert (Hi : inputs_agree (world_plain (u "2025-01-31"))
    {| fs := <[ "notes.txt"%string := u "unrelated" ]> (fs (world_plain (u "2025-01-31")));
       today := u "2025-01-31" |}).
{ repeat split; vm_compute; reflexivity. }
split; [exact Hi|].
apply (@C2_document_determined_by_inputs ascii_runtime (dotnet 1) _ _ Hi).
Defined.

(** C3: when neither region pattern matches the template (in which the
    literal tokens have been substituted, as the synthesizer searches
    it), the document is the template with the literal substitutions and
    nothing else; where the template holds none of the four tokens it is
    the template itself.  The document is written unless the extracted
    coverage is not a number. *)
Theorem C3_template_without_regions `{Runtime} self w template :
  fs w !! template_file = Some template ->
  search DOTALL re_summary (apply_replacements self w template) = None ->
  search DOTALL re_review (apply_replacements self w template) = None ->
  (forall cs, coverage_status (extract_coverage w) = Ok cs ->
     generate_proof_file self w = Ok (apply_replacements self w template)) /\
  (forall e, coverage_status (extract_coverage w) = Raise e ->
     generate_proof_file self w = Raise e) /\
  (Forall (fun token => ~ occurs token template)
          (List.map fst (replacements self w)) ->
   apply_replacements self w template = template).
Proof.
intros Hf Hs Hr. pose proof (review_raises_with_summary self w) as Hc.
split; [|split].
- intros cs Ecs. rewrite Ecs in Hc. destruct Hc as (table & review & Et & Er).
  unfold generate_proof_file. rewrite Hf, Et. simpl.
  rewrite (sub_no_match _ _ _ _ Hs). rewrite Er. simpl.
  rewrite (sub_no_match _ _ _ _ Hr). reflexivity.
- intros e Ecs. rewrite Ecs in Hc.
  unfold generate_proof_file. rewrite Hf, Hc. reflexivity.
- unfold apply_replacements, replacements. simpl.
  intros Hall. inversion Hall as [|? ? H1 Hall1]; subst.
  inversion Hall1 as [|? ? H2 Hall2]; subst.
  inversion Hall2 as [|? ? H3 Hall3]; subst.
  inversion Hall3 as [|? ? H4 _]; subst.
  rewrite (replace_absent _ _ _ H1), (replace_absent _ _ _ H2),
    (replace_absent _ _ _ H3), (replace_absent _ _ _ H4). reflexivity.
Qed.

Lemma C3_witness :
  fs (world_plain (u "2025-01-31")) !! template_file = Some plain_template /\
  @generate_proof_file ascii_runtime (typescript 9) (world_plain (u "2025-01-31")) =
    Ok (u "# Stage 9 Proof (2025-01-31)

Tech stack: TYPESCRIPT
Stage 9 has no tables.
").
Proof.
split; [vm_compute; reflexivity|].
transitivity (Ok (@apply_replacements ascii_runtime (typescript 9)
                    (world_plain (u "2025-01-31")) plain_template));
  [|vm_compute; reflexivity].
apply (proj1 (@C3_template_without_regions ascii_runtime (typescript 9)
                (world_plain (u "2025-01-31")) plain_template
                ltac:(vm_compute; reflexivity)
                ltac:(vm_compute; reflexivity)
                ltac:(vm_compute; reflexivity)) (u "[STATUS]")).
vm_compute; reflexivity.
Defined.

(** * Further properties of the generator *)

(** ** The TypeScript variant of the extractors *)

Section TypeScriptVariant.
Context `{Runtime}.

Lemma sem_tests_phrase s s' caps' :
  sem no_flags re_tests s [] s' caps' <->
  exists w1 p w2 w3 t w4,
    s = u "Tests:" ++ w1 ++ p ++ w2 ++ u "passed," ++ w3 ++ t ++ w4 ++
        u "total" ++ s' /\
    is_spaces w1 /\ is_digits p /\ is_spaces w2 /\ is_spaces w3 /\
    is_digits t /\ is_spaces w4 /\ caps' = [p; t].
Proof.
unfold re_tests. split.
- intros Hs.
  apply sem_seq in Hs as (s1 & c1 & Hl & Hs). apply sem_lit in Hl as [-> ->]; [|reflexivity].
  apply sem_seq in Hs as (s2 & c2 & Hp & Hs). apply sem_plus in Hp as (w1 & ? & -> & ? & ->).
  apply sem_seq in Hs as (s3 & c3 & Hg & Hs). apply sem_group_plus in Hg as (p & ? & -> & ? & ->).
  apply sem_seq in Hs as (s4 & c4 & Hp & Hs). apply sem_plus in Hp as (w2 & ? & -> & ? & ->).
  apply sem_seq in Hs as (s5 & c5 & Hl & Hs). apply sem_lit in Hl as [-> ->]; [|reflexivity].
  apply sem_seq in Hs as (s6 & c6 & Hp & Hs). apply sem_plus in Hp as (w3 & ? & -> & ? & ->).
  apply sem_seq in Hs as (s7 & c7 & Hg & Hs). apply sem_group_plus in Hg as (t & ? & -> & ? & ->).
  apply sem_seq in Hs as (s8 & c8 & Hp & Hl). apply sem_plus in Hp as (w4 & ? & -> & ? & ->).
  apply sem_lit in Hl as [-> ->]; [|reflexivity].
  exists w1, p, w2, w3, t, w4. unfold is_spaces, is_digits. repeat split; auto.
- intros (w1 & p & w2 & w3 & t & w4 & -> & [? ?] & [? ?] & [? ?] & [? ?] & [? ?] & [? ?] & ->).
  apply sem_seq. eexists _, []. split; [apply sem_lit; [reflexivity|split; reflexivity]|].
  apply sem_seq. eexists _, []. split; [apply sem_plus; exists w1; auto|].
  apply sem_seq. eexists _, [p]. split; [apply sem_group_plus; exists p; auto|].
  apply sem_seq. eexists _, [p]. split; [apply sem_plus; exists w2; auto|].
  apply sem_seq. eexists _, [p]. split; [apply sem_lit; [reflexivity|split; reflexivity]|].
  apply sem_seq. eexists _, [p]. split; [apply sem_plus; exists w3; auto|].
  apply sem_seq. eexists _, [p; t]. split; [apply sem_group_plus; exists t; auto|].
  apply sem_seq. eexists _, [p; t]. split; [apply sem_plus; exists w4; auto|].
  apply sem_lit; [reflexivity|split; reflexivity].
Qed.
End TypeScriptVariant.


(** X2: for every tech stack other than "dotnet", build extraction always
    yields a metric when the build log exists, without warning or error
    counts; its status is fail exactly when the lower-cased log holds
    "error" and does not hold "0 errors".  So a log that holds "0 errors"
    anywhere passes, also as part of "10 errors". *)
Theorem typescript_build_lexical_rule `{Runtime} self w content :
  tech_stack self <> u "dotnet" ->
  fs w !! build_file = Some content ->
  exists b, extract_build_info self w = Some b /\
    warnings b = None /\ errors b = None /\
    (build_status b = FAIL <->
       occurs (u "error") (lower content) /\ ~ occurs (u "0 errors") (lower content)) /\
    (build_status b = PASS <->
       ~ occurs (u "error") (lower content) \/ occurs (u "0 errors") (lower content)).
Proof.
intros Ht Hf. unfold extract_build_info.
change (gate_file "gate-3-build.txt") with build_file. rewrite Hf.
rewrite (is_dotnet_false _ Ht).
pose proof (contains_spec (u "error") (lower content)) as He.
pose proof (contains_spec (u "0 errors") (lower content)) as Hz.
fold (occurs (u "error") (lower content)) in He.
fold (occurs (u "0 errors") (lower content)) in Hz.
destruct (contains (u "error") (lower content));
  destruct (contains (u "0 errors") (lower content)); simpl;
  eexists; (split; [reflexivity|]); simpl;
  (split; [reflexivity|]); (split; [reflexivity|]); split; split.
all: try (intros Hx; exfalso; first [exact (PASS_neq_FAIL Hx)
                                     | symmetry in Hx; exact (PASS_neq_FAIL Hx)]).
all: try (intros _; reflexivity).
all: try tauto.
all: try (intros [Ha Hb]; exfalso; first [apply Hb, Hz; reflexivity
            | assert (true = true) by reflexivity; apply He in Ha; discriminate]).
all: try (intros _; split; [apply He; reflexivity|]; intros Hx; apply Hz in Hx; discriminate).
all: try (intros _; right; apply Hz; reflexivity).
all: try (intros _; left; intros Hx; apply He in Hx; discriminate).
all: try (intros [Ha|Hb]; exfalso; [apply Ha, He; reflexivity | apply Hz in Hb; discriminate]).
Qed.

Lemma typescript_build_lexical_rule_witness :
  tech_stack (typescript 9) <> u "dotnet" /\
  fs world_ten_errors !! build_file = Some log_ten_errors /\
  @extract_build_info ascii_runtime (typescript 9) world_ten_errors =
    Some {| warnings := None; errors := None; build_status := PASS |} /\
  exists b, @extract_build_info ascii_runtime (typescript 9) world_ten_errors = Some b /\
            warnings b = None.
Proof.
assert (Ht : tech_stack (typescript 9) <> u "dotnet") by discriminate.
split; [exact Ht|]. split; [vm_compute; reflexivity|].
split; [vm_compute; reflexivity|].
destruct (@typescript_build_lexical_rule ascii_runtime (typescript 9)
            world_ten_errors log_ten_errors Ht ltac:(vm_compute; reflexivity))
  as (b & Hb & Hw & _).
exists b. split; assumption.
Defined.

(** ** Coverage extraction *)

Section CoverageShapes.
Context `{Runtime}.

Lemma sem_line_coverage s s' caps' :
  sem no_flags re_line_coverage s [] s' caps' <->
  exists ws ds, s = u "Line coverage:" ++ ws ++ ds ++ u "%" ++ s' /\
                is_spaces ws /\ is_digdots ds /\ caps' = [ds].
Proof.
unfold re_line_coverage. split.
- intros Hs.
  apply sem_seq in Hs as (s1 & c1 & Hl & Hs). apply sem_lit in Hl as [-> ->]; [|reflexivity].
  apply sem_seq in Hs as (s2 & c2 & Hp & Hs). apply sem_plus in Hp as (ws & ? & -> & ? & ->).
  apply sem_seq in Hs as (s3 & c3 & Hg & Hl). apply sem_group_plus in Hg as (ds & ? & -> & ? & ->).
  apply sem_lit in Hl as [-> ->]; [|reflexivity].
  exists ws, ds. unfold is_spaces, is_digdots. auto.
- intros (ws & ds & -> & [? ?] & [? ?] & ->).
  apply sem_seq. eexists _, []. split; [apply sem_lit; [reflexivity|split; reflexivity]|].
  apply sem_seq. eexists _, []. split; [apply sem_plus; exists ws; auto|].
  apply sem_seq. eexists _, [ds]. split; [apply sem_group_plus; exists ds; auto|].
  apply sem_lit; [reflexivity|split; reflexivity].
Qed.

Lemma sem_all_files s s' caps' :
  sem no_flags re_all_files s [] s' caps' <->
  exists mid ws ds, s = u "All files" ++ mid ++ u "|" ++ ws ++ ds ++ s' /\
    forallb (fun c => negb (c =? 10)%N) mid = true /\
    is_spaces ws /\ is_digdots ds /\ caps' = [ds].
Proof.
unfold re_all_files. split.
- intros Hs.
  apply sem_seq in Hs as (s1 & c1 & Hl & Hs). apply sem_lit in Hl as [-> ->]; [|reflexivity].
  apply sem_seq in Hs as (s2 & c2 & (mid & -> & Hmid & ->) & Hs).
  apply sem_seq in Hs as (s3 & c3 & Hl & Hs). apply sem_lit in Hl as [-> ->]; [|reflexivity].
  apply sem_seq in Hs as (s4 & c4 & Hp & Hg). apply sem_plus in Hp as (ws & ? & -> & ? & ->).
  apply sem_group_plus in Hg as (ds & ? & -> & ? & ->).
  exists mid, ws, ds. unfold is_spaces, is_digdots. auto 10.
- intros (mid & ws & ds & -> & Hmid & [? ?] & [? ?] & ->).
  apply sem_seq. eexists _, []. split; [apply sem_lit; [reflexivity|split; reflexivity]|].
  apply sem_seq. eexists _, []. split; [exists mid; auto|].
  apply sem_seq. eexists _, []. split; [apply sem_lit; [reflexivity|split; reflexivity]|].
  apply sem_seq. eexists _, []. split; [apply sem_plus; exists ws; auto|].
  apply sem_group_plus. exists ds. auto.
Qed.
End CoverageShapes.

(** X3: coverage extraction returns a value exactly when the report holds
    "Line coverage: X%" or, on one line, "All files ... | X".  The value
    is a non-empty run of digits and dots taken from the phrase when there
    is one, and from a table row only when there is no phrase. *)
Theorem coverage_phrase_before_table `{Runtime} w content :
  fs w !! coverage_file = Some content ->
  (is_Some (extract_coverage w) <->
     (exists c, has_line_coverage c content) \/
     (exists c, has_all_files_row c content)) /\
  (forall c, extract_coverage w = Some c ->
     is_digdots c /\
     (has_line_coverage c content \/
      ((forall c', ~ has_line_coverage c' content) /\ has_all_files_row c content))).
Proof.
intros Hf. unfold extract_coverage.
change (gate_file "gate-6-coverage.txt") with coverage_file. rewrite Hf.
destruct (search no_flags re_line_coverage content) as [m|] eqn:E1.
- apply search_sound in E1 as (pre & rest & s' & -> & Hs & _).
  apply sem_line_coverage in Hs as (ws & ds & -> & Hws & Hds & Hg).
  assert (Hl : has_line_coverage ds
                 (pre ++ u "Line coverage:" ++ ws ++ ds ++ u "%" ++ s')).
  { exists pre, ws, s'. auto. }
  split.
  + split; [intros _; left|]; eauto.
  + intros c [= <-]. unfold group. rewrite Hg. simpl. auto.
- assert (Hno : forall c', ~ has_line_coverage c' content).
  { intros c' (pre & ws & post & -> & ? & ?).
    eapply (search_none _ _ pre _ post [c'] E1).
    apply sem_line_coverage. exists ws, c'. auto. }
  destruct (search no_flags re_all_files content) as [m|] eqn:E2.
  + apply search_sound in E2 as (pre & rest & s' & -> & Hs & _).
    apply sem_all_files in Hs as (mid & ws & ds & Hc & Hmid & Hws & Hds & Hg).
    rewrite Hc in Hno |- *.
    assert (Ha : has_all_files_row ds
                   (pre ++ u "All files" ++ mid ++ u "|" ++ ws ++ ds ++ s')).
    { exists pre, mid, ws, s'. auto. }
    split.
    * split; [intros _; right|]; eauto.
    * intros c [= <-]. unfold group. rewrite Hg. simpl. auto.
  + split; [|discriminate]. split; [intros [? ?]; discriminate|].
    intros [[c Hc]|[c (pre & mid & ws & post & -> & ? & ? & ?)]].
    * destruct (Hno c Hc).
    * exfalso. eapply (search_none _ _ pre _ post [c] E2).
      apply sem_all_files. exists mid, ws, c. auto.
Qed.

Lemma coverage_phrase_before_table_witness :
  fs (world_coverage report_both) !! coverage_file = Some report_both /\
  @extract_coverage ascii_runtime (world_coverage report_both) = Some (u "95") /\
  @extract_coverage ascii_runtime (world_coverage report_table) = Some (u "91.3") /\
  (is_Some (@extract_coverage ascii_runtime (world_coverage report_both)) <->
     (exists c, @has_line_coverage ascii_runtime c report_both) \/
     (exists c, @has_all_files_row ascii_runtime c report_both)).
Proof.
split; [vm_compute; reflexivity|]. split; [vm_compute; reflexivity|].
split; [vm_compute; reflexivity|].
apply (@coverage_phrase_before_table ascii_runtime (world_coverage report_both)
         report_both).
vm_compute; reflexivity.
Defined.

(** ** Numbers that [float] rejects *)

Section FloatParsing.
Context `{Runtime}.
Hypothesis dot_no_digit : decimal 46%N = None.

Lemma digits_value_is_Some s : forall acc,
  is_Some (digits_value s acc) <-> forallb is_digit s = true.
Proof.
induction s as [|c s IH]; intros acc.
- simpl. split; eauto.
- cbn [digits_value forallb]. unfold is_digit at 1.
  destruct (decimal c) as [d|].
  + rewrite bool_decide_eq_true_2 by eauto. rewrite andb_true_l. apply IH.
  + rewrite bool_decide_eq_false_2 by (intros [? ?]; discriminate).
    rewrite andb_false_l. split; [intros [? ?]|]; discriminate.
Qed.

Lemma is_digit_not_dot c : is_digit c = true -> c <> 46%N.
Proof.
unfold is_digit. intros Hd ->. apply bool_decide_eq_true in Hd as [d Hd].
rewrite dot_no_digit in Hd. discriminate.
Qed.

(** A run of digits and dots without a dot is a run of digits. *)
Lemma digdots_no_dot s :
  forallb (fun x => is_digit x || (x =? 46)%N) s = true ->
  (forallb is_digit s = true <-> count_occ N.eq_dec s 46%N = 0%nat).
Proof.
induction s as [|c s IH]; simpl; [tauto|].
intros Hs. apply andb_true_iff in Hs as [Hc Hs]. specialize (IH Hs).
destruct (N.eq_dec c 46%N) as [->|Hne].
- split; [|discriminate]. intros Hd. apply andb_true_iff in Hd as [Hd _].
  destruct (is_digit_not_dot _ Hd eq_refl).
- apply orb_true_iff in Hc as [Hc|Hc]; [|apply N.eqb_eq in Hc; contradiction].
  rewrite Hc. simpl. exact IH.
Qed.

Lemma split_dot_facts s :
  forallb (fun x => is_digit x || (x =? 46)%N) s = true ->
  forallb is_digit (fst (split_dot s)) = true /\
  forallb (fun x => is_digit x || (x =? 46)%N) (default [] (snd (split_dot s))) = true /\
  count_occ N.eq_dec s 46%N =
    match snd (split_dot s) with
    | Some r => S (count_occ N.eq_dec r 46%N)
    | None => 0%nat
    end /\
  existsb is_digit s =
    existsb is_digit (fst (split_dot s)) ||
    existsb is_digit (default [] (snd (split_dot s))).
Proof.
induction s as [|c s IH]; simpl; [auto|].
intros Hs. apply andb_true_iff in Hs as [Hc Hs]. specialize (IH Hs).
destruct (N.eqb_spec c 46%N) as [->|Hne]; simpl.
- destruct (N.eq_dec 46%N 46%N) as [_|Hx]; [|contradiction].
  assert (Hd : is_digit 46%N = false).
  { destruct (is_digit 46%N) eqn:E; [|reflexivity].
    destruct (is_digit_not_dot _ E eq_refl). }
  rewrite Hd. simpl. auto.
- destruct (split_dot s) as [a b]. simpl in *.
  destruct IH as (Ha & Hb & Hcnt & Hex).
  destruct (N.eq_dec c 46%N) as [->|_]; [contradiction|].
  apply orb_true_iff in Hc as [Hc|Hc]; [|discriminate].
  rewrite Hc, Ha. simpl. auto.
Qed.

(** [float] accepts a run of digits and dots exactly when it is a plain
    number. *)
Lemma py_float_accepts c :
  is_digdots c ->
  (exists f, py_float c = Ok f) <-> plain_number c.
Proof.
intros [_ Hc]. destruct (split_dot_facts c Hc) as (Ha & Hb & Hcnt & Hex).
unfold py_float, parse_decimal, plain_number.
destruct (split_dot c) as [ip fp]. simpl in *.
set (fp' := default [] fp) in *.
assert (Hnum : forallb is_digit (ip ++ fp') = true <->
               (count_occ N.eq_dec c 46%N <= 1)%nat).
{ rewrite forallb_app, Ha. simpl. rewrite (digdots_no_dot _ Hb), Hcnt.
  subst fp'. destruct fp as [r|]; simpl; lia. }
rewrite Hex, <- existsb_app.
destruct (ip ++ fp') as [|x l] eqn:El.
- simpl. split; [intros [f Hf]; discriminate|]. intros [_ Hd]. discriminate.
- pose proof (digits_value_is_Some (x :: l) 0%N) as Hv.
  destruct (digits_value (x :: l) 0%N) as [n|].
  + assert (Hall : forallb is_digit (x :: l) = true) by (apply Hv; eauto).
    split; [intros _|eauto]. split; [apply Hnum, Hall|].
    simpl in Hall |- *. apply andb_true_iff in Hall as [-> _]. reflexivity.
  + split; [intros [f Hf]; discriminate|]. intros [Hn _].
    apply Hnum, Hv in Hn as [? ?]. discriminate.
Qed.

Lemma py_float_raises c e : py_float c = Raise e -> e = ValueError.
Proof.
unfold py_float. destruct (parse_decimal c) as [[n k]|]; [discriminate|].
intros [= <-]. reflexivity.
Qed.

Lemma extract_coverage_digdots w c : extract_coverage w = Some c -> is_digdots c.
Proof.
unfold extract_coverage.
destruct (fs w !! gate_file "gate-6-coverage.txt") as [content|]; [|discriminate].
destruct (search no_flags re_line_coverage content) as [m|] eqn:E1.
- apply search_sound in E1 as (pre & rest & s' & -> & Hs & _).
  apply sem_line_coverage in Hs as (ws & ds & -> & Hws & Hds & Hg).
  intros [= <-]. unfold group. rewrite Hg. exact Hds.
- destruct (search no_flags re_all_files content) as [m|] eqn:E2; [|discriminate].
  apply search_sound in E2 as (pre & rest & s' & -> & Hs & _).
  apply sem_all_files in Hs as (mid & ws & ds & Hc & Hmid & Hws & Hds & Hg).
  intros [= <-]. unfold group. rewrite Hg. exact Hds.
Qed.

(** With the template in place, the text of the document is produced
    exactly when the extracted coverage, if there is one, is a plain
    number (at most one dot, at least one digit); otherwise [float]
    raises [ValueError]. *)
Lemma generate_proof_file_outcome self w template :
  fs w !! template_file = Some template ->
  ((exists doc, generate_proof_file self w = Ok doc) <->
     forall c, extract_coverage w = Some c -> plain_number c) /\
  (forall e, generate_proof_file self w = Raise e -> e = ValueError).
Proof.
intros Hf.
pose proof (review_raises_with_summary self w) as Hr.
pose proof (coverage_status_cases (extract_coverage w)) as Hc.
pose proof (extract_coverage_truthy w) as Ht.
pose proof (extract_coverage_digdots w) as Hd.
unfold generate_proof_file. rewrite Hf.
destruct (extract_coverage w) as [c|].
- specialize (Hc (Ht c eq_refl)). specialize (Hd c eq_refl).
  pose proof (py_float_accepts c Hd) as Hacc.
  pose proof (py_float_raises c) as Hval.
  destruct (py_float c) as [f|e0].
  + rewrite Hc in Hr. destruct Hr as (table & review & -> & ->). simpl.
    split; [|discriminate]. split; [|eauto].
    intros _ c' [= <-]. apply Hacc. eauto.
  + rewrite Hc in Hr. rewrite Hr. simpl. split.
    * split; [intros [doc Hdoc]; discriminate|].
      intros Hall. apply Hacc in Hall as [f Hx]; [discriminate|reflexivity].
    * intros e [= <-]. apply Hval. reflexivity.
- rewrite Hc in Hr. destruct Hr as (table & review & -> & ->). simpl.
  split; [|discriminate]. split; [|eauto]. intros _ c' Hx. discriminate.
Qed.
End FloatParsing.


(** ** The text of an integer *)

Lemma utf8_ascii (bs : list N) :
  Forall (fun b => b < 128)%N bs -> utf8 bs 0 0 = bs.
Proof.
induction 1 as [|b bs Hb _ IH]; [reflexivity|].
simpl. apply N.ltb_lt in Hb. rewrite Hb, IH. reflexivity.
Qed.

Lemma digit_codes_range d : Forall (fun x => 48 <= x <= 57)%N (digit_codes d).
Proof. induction d; simpl; constructor; auto; lia. Qed.

Lemma digit_codes_inj d : forall d', digit_codes d = digit_codes d' -> d = d'.
Proof.
induction d; intros [] E; simpl in E; try discriminate; try reflexivity;
  injection E as E; f_equal; auto.
Qed.

Lemma bytes_of_uint d :
  List.map N_of_ascii (list_ascii_of_string (NilEmpty.string_of_uint d))
  = digit_codes d.
Proof. induction d; simpl; try rewrite IHd; reflexivity. Qed.

Lemma u_of_uint d : u (NilEmpty.string_of_uint d) = digit_codes d.
Proof.
unfold u. rewrite bytes_of_uint. apply utf8_ascii.
eapply Forall_impl; [apply digit_codes_range|]. simpl. intros x Hx. lia.
Qed.

Lemma u_of_nilzero_uint d :
  u (NilZero.string_of_uint d) = digit_codes (match d with Decimal.Nil => Decimal.D0 Decimal.Nil | _ => d end).
Proof.
destruct d; try apply u_of_uint. reflexivity.
Qed.

(** [str(n)] is a non-empty run of ASCII digits, after a minus sign when
    [n] is negative. *)
Lemma str_of_Z_shape (n : Z) :
  exists ds, ds <> [] /\ Forall (fun x => 48 <= x <= 57)%N ds /\
             str_of_Z n = (if (n <? 0)%Z then 45%N :: ds else ds).
Proof.
unfold str_of_Z. destruct n as [|p|p]; simpl.
- exists [48%N]. repeat split; [discriminate|repeat constructor; lia].
- exists (digit_codes (Pos.to_uint p)). split; [|split].
  + pose proof (DecimalPos.Unsigned.to_uint_nonnil p) as Hn.
    destruct (Pos.to_uint p); simpl; congruence.
  + apply digit_codes_range.
  + rewrite u_of_nilzero_uint.
    pose proof (DecimalPos.Unsigned.to_uint_nonnil p) as Hn.
    destruct (Pos.to_uint p); congruence.
- exists (digit_codes (Pos.to_uint p)). split; [|split].
  + pose proof (DecimalPos.Unsigned.to_uint_nonnil p) as Hn.
    destruct (Pos.to_uint p); simpl; congruence.
  + apply digit_codes_range.
  + change (u (String "-" (NilZero.string_of_uint (Pos.to_uint p))))
      with (45%N :: u (NilZero.string_of_uint (Pos.to_uint p))).
    rewrite u_of_nilzero_uint.
    pose proof (DecimalPos.Unsigned.to_uint_nonnil p) as Hn.
    destruct (Pos.to_uint p); congruence.
Qed.

Lemma str_of_Z_nonempty n : str_of_Z n <> [].
Proof.
destruct (str_of_Z_shape n) as (ds & Hne & _ & ->).
destruct (n <? 0)%Z; [discriminate|assumption].
Qed.

(** Only zero is written "0". *)
Lemma str_of_nat_zero (n : nat) : str_of_Z (Z.of_nat n) = u "0" <-> n = 0%nat.
Proof.
split; [|intros ->; reflexivity].
destruct n as [|n]; [reflexivity|]. intros E. exfalso.
unfold str_of_Z in E. rewrite Znat.Zpos_P_of_succ_nat in E || idtac.
revert E. change (Z.of_nat (S n)) with (Z.pos (Pos.of_succ_nat n)). simpl.
rewrite u_of_nilzero_uint.
pose proof (DecimalPos.Unsigned.to_uint_nonnil (Pos.of_succ_nat n)) as Hn.
pose proof (DecimalPos.Unsigned.to_uint_nonzero (Pos.of_succ_nat n)) as Hz.
destruct (Pos.to_uint (Pos.of_succ_nat n)) eqn:Ed; try congruence;
  intros E; change (u "0") with (digit_codes (Decimal.D0 Decimal.Nil)) in E;
  apply digit_codes_inj in E; try discriminate.
apply Hz. rewrite E. reflexivity.
Qed.

(** ** Vulnerability extraction, continued *)

Section Vulnerabilities.
Context `{Runtime}.

Lemma strip_lit_ci fl l : forall s s',
  ignorecase fl = true ->
  (strip_lit fl l s = Some s' <-> exists a, s = a ++ s' /\ ci_eq l a).
Proof.
unfold ci_eq. induction l as [|p l IH]; intros s s' Hi; simpl.
- split.
  + intros [= ->]. exists []. split; [reflexivity|constructor].
  + intros (a & -> & Ha). inversion Ha. reflexivity.
- destruct s as [|x s].
  + split; [discriminate|]. intros (a & Ha & Hf). inversion Hf; subst. discriminate.
  + rewrite Hi. destruct (re_ieq p x) eqn:E.
    * rewrite (IH s s' Hi). split.
      -- intros (a & -> & Ha). exists (x :: a). split; [reflexivity|].
         constructor; assumption.
      -- intros (a & Ha & Hf). inversion Hf as [|? y ? a' Hy Hf']; subst.
         injection Ha as -> ->. eauto.
    * split; [discriminate|]. intros (a & Ha & Hf).
      inversion Hf as [|? y ? a' Hy Hf']; subst. injection Ha as -> _. congruence.
Qed.

Lemma sem_severity s s' caps' :
  sem IGNORECASE re_severity s [] s' caps' <->
  exists tok, s = tok ++ s' /\ caps' = [tok] /\
    (ci_eq (u "HIGH") tok \/ ci_eq (u "MODERATE") tok \/ ci_eq (u "CRITICAL") tok).
Proof.
unfold re_severity.
change (sem IGNORECASE (Group (Alt (Lit (u "HIGH"))
          (Alt (Lit (u "MODERATE")) (Lit (u "CRITICAL"))))) s [] s' caps')
  with (exists caps1,
          ((strip_lit IGNORECASE (u "HIGH") s = Some s' /\ caps1 = []) \/
           (strip_lit IGNORECASE (u "MODERATE") s = Some s' /\ caps1 = []) \/
           (strip_lit IGNORECASE (u "CRITICAL") s = Some s' /\ caps1 = [])) /\
          caps' = caps1 ++ [consumed s s']).
split.
- intros (caps1 & [[Hl ->]|[[Hl ->]|[Hl ->]]] & ->);
    apply strip_lit_ci in Hl as (tok & -> & Htok); try reflexivity;
    exists tok; rewrite consumed_app; auto.
- intros (tok & -> & -> & Htok). exists []. rewrite consumed_app.
  split; [|reflexivity].
  destruct Htok as [Ht|[Ht|Ht]]; [left|right; left|right; right];
    (split; [|reflexivity]); apply strip_lit_ci; eauto.
Qed.

(** No match is counted exactly when the pattern matches nowhere. *)
Lemma count_matches_zero fl r s :
  match_at fl r [] = None ->
  (count_matches fl r s 0 = 0%nat <-> search fl r s = None).
Proof.
intros Hnil. induction s as [|c s IH]; simpl.
- rewrite Hnil. tauto.
- destruct (match_at fl r (c :: s)); [split; discriminate|]. exact IH.
Qed.

Lemma search_severity_none content :
  search IGNORECASE re_severity content = None <-> ~ has_severity_token content.
Proof.
split.
- intros Hn (pre & tok & post & -> & Htok).
  eapply (search_none _ _ pre _ post [tok] Hn).
  apply sem_severity. exists tok. auto.
- intros Hno. destruct (search IGNORECASE re_severity content) as [m|] eqn:E;
    [|reflexivity].
  destruct Hno. apply search_sound in E as (pre & rest & s' & -> & Hs & _).
  apply sem_severity in Hs as (tok & -> & _ & Htok).
  exists pre, tok, s'. auto.
Qed.
End Vulnerabilities.

(** X5: vulnerability extraction is absent only when the security report
    is missing, and its value is never the empty text.  On a report it
    yields "0" exactly when the lower-cased report holds "no vulnerable
    packages", or the report holds "0 vulnerabilities", or it holds no
    severity token (HIGH, MODERATE, CRITICAL in any case). *)
Theorem vulnerabilities_zero_cases `{Runtime} w :
  (extract_vulnerabilities w = None <-> fs w !! security_file = None) /\
  (forall v, extract_vulnerabilities w = Some v -> v <> []) /\
  (forall content, fs w !! security_file = Some content ->
     (extract_vulnerabilities w = Some (u "0") <->
        occurs (u "no vulnerable packages") (lower content) \/
        occurs (u "0 vulnerabilities") content \/
        ~ has_severity_token content)).
Proof.
unfold extract_vulnerabilities.
change (gate_file "gate-7-security.txt") with security_file.
destruct (fs w !! security_file) as [content|].
- pose proof (contains_spec (u "no vulnerable packages") (lower content)) as H1.
  pose proof (contains_spec (u "0 vulnerabilities") content) as H2.
  fold (occurs (u "no vulnerable packages") (lower content)) in H1.
  fold (occurs (u "0 vulnerabilities") content) in H2.
  pose proof (count_matches_zero IGNORECASE re_severity content eq_refl) as Hz.
  rewrite search_severity_none in Hz.
  split; [split; [destruct (_ || _); discriminate|discriminate]|]. split.
  + intros v. destruct (_ || _); intros [= <-]; [discriminate|].
    apply str_of_Z_nonempty.
  + intros c [= <-].
    destruct (contains (u "no vulnerable packages") (lower content)).
    { simpl. split; [intros _; left; apply H1|]; reflexivity. }
    destruct (contains (u "0 vulnerabilities") content).
    { simpl. split; [intros _; right; left; apply H2|]; reflexivity. }
    simpl. split.
    * intros [= E]. right. right. apply Hz, str_of_nat_zero. exact E.
    * intros [Ho|[Ho|Hn]].
      -- apply H1 in Ho. discriminate.
      -- apply H2 in Ho. discriminate.
      -- apply Hz, str_of_nat_zero in Hn. rewrite Hn. reflexivity.
- split; [tauto|]. split; discriminate.
Qed.

Lemma vulnerabilities_zero_cases_witness :
  fs world_quiet !! security_file = Some report_quiet /\
  @extract_vulnerabilities ascii_runtime world_quiet = Some (u "0") /\
  (@extract_vulnerabilities ascii_runtime world_quiet = Some (u "0") <->
     occurs (u "no vulnerable packages") (@lower ascii_runtime report_quiet) \/
     occurs (u "0 vulnerabilities") report_quiet \/
     ~ @has_severity_token ascii_runtime report_quiet).
Proof.
split; [vm_compute; reflexivity|]. split; [vm_compute; reflexivity|].
apply (proj2 (proj2 (@vulnerabilities_zero_cases ascii_runtime world_quiet))
         report_quiet).
vm_compute; reflexivity.
Defined.

(** ** The summary table, continued *)

Lemma extract_vulnerabilities_nonempty `{Runtime} w v :
  extract_vulnerabilities w = Some v -> v <> [].
Proof.
unfold extract_vulnerabilities.
destruct (fs w !! gate_file "gate-7-security.txt") as [content|]; [|discriminate].
destruct (_ || _); intros [= <-]; [discriminate|]. apply str_of_Z_nonempty.
Qed.

(** X6: a metric that was extracted is never shown as a placeholder.  In
    the rows of the summary table the test cells hold the captured counts
    and the extracted status (twice), the coverage cell holds the value
    followed by "%", the build row holds the warning count (or "0" when
    the metric has none) and the build status, and the vulnerability row
    holds the value with the status pass exactly when the value is "0"
    and fail otherwise. *)
Theorem present_metrics_in_summary `{Runtime} self w rows :
  summary_rows self w = Ok rows ->
  exists r1 r2 r3 r4 r5 r6,
    rows = [r1; r2; r3; r4; r5; r6] /\
    (forall t, extract_test_results self w = Some t ->
       actual r1 = passed t ++ u "/" ++ total t /\ row_status r1 = status t /\
       actual r2 = failed t /\ row_status r2 = status t) /\
    (forall c, extract_coverage w = Some c -> actual r3 = c ++ u "%") /\
    (forall b, extract_build_info self w = Some b ->
       actual r4 = default (u "0") (warnings b) /\ row_status r4 = build_status b) /\
    (forall v, extract_vulnerabilities w = Some v ->
       actual r5 = v /\
       (row_status r5 = PASS <-> v = u "0") /\
       (row_status r5 = FAIL <-> v <> u "0")) /\
    actual r6 = u "[N/N]" /\ row_status r6 = u "[✅/❌]".
Proof.
pose proof (extract_coverage_truthy w) as Hct.
pose proof (extract_vulnerabilities_nonempty w) as Hvn.
unfold summary_rows.
destruct (coverage_status (extract_coverage w)) as [cs|e]; [|discriminate].
unfold bind. intros [= <-]. do 6 eexists. split; [reflexivity|].
cbn [actual row_status].
split; [|split; [|split; [|split; [|split; reflexivity]]]].
- intros t ->. auto.
- intros c Hc. rewrite Hc in Hct |- *. rewrite (Hct c eq_refl). reflexivity.
- intros b ->. split; [|reflexivity]. destruct b as [[ws|] es st]; reflexivity.
- intros v Hv. rewrite Hv in Hvn |- *. specialize (Hvn v eq_refl).
  assert (Ht : truthy (Some v) = true) by (destruct v; [congruence|reflexivity]).
  rewrite Ht. cbn [default]. split; [reflexivity|].
  destruct (bool_decide (Some v = Some (u "0"))) eqn:E.
  + apply bool_decide_eq_true in E. injection E as ->. split.
    * split; reflexivity.
    * split; [intros Hx; destruct (PASS_neq_FAIL Hx)|intros Hx; contradiction].
  + apply bool_decide_eq_false in E.
    assert (Hne : v <> u "0") by (intros ->; apply E; reflexivity). split.
    * split; [intros Hx; symmetry in Hx; destruct (PASS_neq_FAIL Hx)
             |intros Hx; contradiction].
    * split; [intros _; exact Hne|reflexivity].
Qed.

Lemma present_metrics_in_summary_witness :
  exists rows,
    @summary_rows ascii_runtime (dotnet 7) world_dotnet_run = Ok rows /\
    List.map actual rows = [u "41/42"; u "1"; u "85.0%"; u "1"; u "1"; u "[N/N]"] /\
    List.map row_status rows = [FAIL; FAIL; FAIL; FAIL; FAIL; u "[✅/❌]"].
Proof.
destruct (@present_metrics_in_summary ascii_runtime (dotnet 7) world_dotnet_run
            _ eq_refl) as (r1 & r2 & r3 & r4 & r5 & r6 & Hrows & _).
eexists. split; [reflexivity|]. split; vm_compute; reflexivity.
Defined.

(** ** Lines *)

Lemma split_lines_cons s : exists l ls, split_lines s = l :: ls.
Proof.
induction s as [|c s (l & ls & E)]; simpl; [eauto|].
destruct (c =? 10)%N; [eauto|]. rewrite E. eauto.
Qed.

(** Joining the lines of a text gives the text back. *)
Lemma join_split s : join_lines (split_lines s) = s.
Proof.
induction s as [|c s IH]; [reflexivity|]. simpl.
destruct (split_lines_cons s) as (l & ls & E). rewrite E in IH |- *.
destruct (N.eqb_spec c 10%N) as [->|Hc].
- change (join_lines ([] :: l :: ls)) with (10%N :: join_lines (l :: ls)).
  rewrite IH. reflexivity.
- destruct ls as [|l' ls].
  + simpl in IH |- *. rewrite IH. reflexivity.
  + change (join_lines ((c :: l) :: l' :: ls))
      with (c :: (l ++ 10%N :: join_lines (l' :: ls))).
    change (join_lines (l :: l' :: ls))
      with (l ++ 10%N :: join_lines (l' :: ls)) in IH.
    rewrite IH. reflexivity.
Qed.

Lemma length_split_lines s : List.length (split_lines s) = S (newlines s).
Proof.
unfold newlines. induction s as [|c s IH]; [reflexivity|]. simpl.
destruct (N.eqb_spec c 10%N) as [->|Hc].
- destruct (N.eq_dec 10%N 10%N); [|contradiction]. simpl. rewrite IH. reflexivity.
- destruct (N.eq_dec c 10%N); [contradiction|].
  destruct (split_lines_cons s) as (l & ls & E). rewrite E in IH |- *.
  exact IH.
Qed.

Lemma split_lines_no_newline s :
  Forall (fun l => newlines l = 0%nat) (split_lines s).
Proof.
unfold newlines. induction s as [|c s IH]; simpl; [repeat constructor|].
destruct (N.eqb_spec c 10%N) as [->|Hc].
- constructor; [reflexivity|assumption].
- destruct (split_lines_cons s) as (l & ls & E). rewrite E in IH |- *.
  inversion IH as [|? ? Hl Hls]; subst. constructor; [|assumption].
  simpl. destruct (N.eq_dec c 10%N); [contradiction|assumption].
Qed.

Lemma join_lines_app (a b : list text) :
  a <> [] -> b <> [] ->
  join_lines (a ++ b) = join_lines a ++ 10%N :: join_lines b.
Proof.
intros Ha Hb. induction a as [|l a IH]; [contradiction|].
destruct a as [|l' a].
- simpl. destruct b; [contradiction|]. reflexivity.
- change (join_lines ((l :: l' :: a) ++ b))
    with (l ++ 10%N :: join_lines ((l' :: a) ++ b)).
  rewrite IH by discriminate.
  change (join_lines (l :: l' :: a)) with (l ++ 10%N :: join_lines (l' :: a)).
  rewrite <- app_assoc. reflexivity.
Qed.

Lemma newlines_app a b : newlines (a ++ b) = (newlines a + newlines b)%nat.
Proof. unfold newlines. apply count_occ_app. Qed.

Lemma newlines_cons_newline t : newlines (10%N :: t) = S (newlines t).
Proof.
unfold newlines. simpl. destruct (N.eq_dec 10%N 10%N); [reflexivity|contradiction].
Qed.

Lemma newlines_join (ls : list text) :
  ls <> [] -> Forall (fun l => newlines l = 0%nat) ls ->
  newlines (join_lines ls) = (List.length ls - 1)%nat.
Proof.
intros Hne Hall. induction Hall as [|l ls Hl Hls IH]; [contradiction|].
destruct ls as [|l' ls].
- simpl. exact Hl.
- change (join_lines (l :: l' :: ls)) with (l ++ 10%N :: join_lines (l' :: ls)).
  rewrite newlines_app, Hl, newlines_cons_newline, IH by discriminate.
  simpl. lia.
Qed.

(** The last [n] lines of a text: a suffix of the text that starts after
    a newline, the whole text when it has at most [n] lines. *)
Lemma last_lines_spec (n : nat) (content : text) :
  (0 < n)%nat ->
  let out := join_lines (last_n n (split_lines content)) in
  (newlines out < n)%nat /\
  ((newlines content < n)%nat -> out = content) /\
  ((n <= newlines content)%nat ->
   newlines out = (n - 1)%nat /\ exists pre, content = pre ++ 10%N :: out).
Proof.
intros Hn out. subst out. unfold last_n.
pose proof (length_split_lines content) as Hlen.
pose proof (split_lines_no_newline content) as Hall.
pose proof (join_split content) as Hjoin.
set (ls := split_lines content) in *.
set (k := (List.length ls - n)%nat).
assert (Hk : (k < List.length ls)%nat) by (subst k; lia).
assert (Hdrop : skipn k ls <> []).
{ intros E. apply (f_equal (@List.length _)) in E.
  rewrite length_skipn in E. simpl in E. lia. }
assert (Hdall : Forall (fun l => newlines l = 0%nat) (skipn k ls)).
{ rewrite <- (firstn_skipn k ls) in Hall. apply Forall_app in Hall. tauto. }
pose proof (newlines_join _ Hdrop Hdall) as Hnl.
rewrite length_skipn in Hnl.
split; [subst k; lia|]. split.
- intros Hshort. assert (k = 0%nat) as -> by (subst k; lia). exact Hjoin.
- intros Hlong. split; [subst k; lia|].
  exists (join_lines (firstn k ls)).
  rewrite <- Hjoin at 1. rewrite <- (firstn_skipn k ls) at 1.
  apply join_lines_app; [|assumption].
  intros E. apply (f_equal (@List.length _)) in E.
  rewrite length_firstn in E. simpl in E. subst k. lia.
Qed.

(** X7: the test section is the last 50 lines of the test log and the
    build section the last 30 lines of the build log: a log with fewer
    newlines than that is shown whole; of a longer one exactly the text
    after the newline that ends the line before the last 50 (30) is
    shown.  Without the log the section is its placeholder. *)
Theorem output_sections_tail w :
  (match fs w !! tests_file with
   | None => generate_test_output w = u "[Paste test output here]"
   | Some content =>
       ((newlines content < 50)%nat -> generate_test_output w = content) /\
       ((50 <= newlines content)%nat ->
        newlines (generate_test_output w) = 49%nat /\
        exists pre, content = pre ++ 10%N :: generate_test_output w)
   end) /\
  (match fs w !! build_file with
   | None => generate_build_output w = u "[Paste build output here]"
   | Some content =>
       ((newlines content < 30)%nat -> generate_build_output w = content) /\
       ((30 <= newlines content)%nat ->
        newlines (generate_build_output w) = 29%nat /\
        exists pre, content = pre ++ 10%N :: generate_build_output w)
   end).
Proof.
unfold generate_test_output, generate_build_output.
change (gate_file "gate-5-tests.txt") with tests_file.
change (gate_file "gate-3-build.txt") with build_file.
split.
- destruct (fs w !! tests_file) as [content|]; [|reflexivity].
  apply (last_lines_spec 50 content). lia.
- destruct (fs w !! build_file) as [content|]; [|reflexivity].
  apply (last_lines_spec 30 content). lia.
Qed.

(** Of a build log of forty numbered lines the section starts at line 11. *)
Example build_output_of_forty_lines :
  generate_build_output world_long_build =
    join_lines (List.map (fun i => u "line " ++ str_of_Z (Z.of_nat i)) (seq 11 30)).
Proof. vm_compute. reflexivity. Qed.

Lemma output_sections_tail_witness :
  fs world_long_build !! build_file = Some (numbered_lines 40) /\
  (30 <= newlines (numbered_lines 40))%nat /\
  newlines (generate_build_output world_long_build) = 29%nat.
Proof.
assert (E : fs world_long_build !! build_file = Some (numbered_lines 40))
  by (vm_compute; reflexivity).
assert (Hlong : (30 <= newlines (numbered_lines 40))%nat)
  by (vm_compute; repeat constructor).
split; [exact E|]. split; [exact Hlong|].
destruct (output_sections_tail world_long_build) as [_ Hb].
rewrite E in Hb. exact (proj1 (proj2 Hb Hlong)).
Defined.

(** ** Verification of the proof file *)

Section Verification.
Context `{Runtime}.

Lemma sem_alt fl r1 r2 s caps s' caps' :
  sem fl (Alt r1 r2) s caps s' caps' <->
  sem fl r1 s caps s' caps' \/ sem fl r2 s caps s' caps'.
Proof. reflexivity. Qed.

Lemma sem_group fl r s caps s' caps' :
  sem fl (Group r) s caps s' caps' <->
  exists caps1, sem fl r s caps s' caps1 /\ caps' = caps1 ++ [consumed s s'].
Proof. reflexivity. Qed.

Lemma sem_placeholder s s' caps' :
  sem no_flags re_placeholder s [] s' caps' <->
  exists tok, In tok verified_tokens /\
              s = u "[" ++ tok ++ u "]" ++ s' /\ caps' = [tok].
Proof.
unfold re_placeholder. rewrite sem_seq. split.
- intros (s1 & c1 & Hl & Hs). apply sem_lit in Hl as [-> ->]; [|reflexivity].
  apply sem_seq in Hs as (s2 & c2 & Hg & Hl).
  apply sem_group in Hg as (c3 & Ha & ->).
  apply sem_lit in Hl as [-> ->]; [|reflexivity].
  assert (Htok : exists tok, In tok verified_tokens /\
                             s1 = tok ++ u "]" ++ s' /\ c3 = []).
  { repeat (apply sem_alt in Ha as [Ha|Ha];
            [apply sem_lit in Ha as [-> ->]; [|reflexivity];
             eexists; split; [|split; reflexivity]; simpl; tauto|]).
    apply sem_lit in Ha as [-> ->]; [|reflexivity].
    eexists; split; [|split; reflexivity]; simpl; tauto. }
  destruct Htok as (tok & Hin & -> & ->). exists tok.
  split; [assumption|]. split; [reflexivity|].
  rewrite consumed_app. reflexivity.
- intros (tok & Hin & -> & ->).
  exists (tok ++ u "]" ++ s'), []. split; [apply sem_lit; [reflexivity|auto]|].
  apply sem_seq. exists (u "]" ++ s'), [tok]. split.
  + apply sem_group. exists []. rewrite consumed_app. split; [|reflexivity].
    simpl in Hin.
    repeat (destruct Hin as [<-|Hin];
            [repeat (first [apply sem_lit; [reflexivity|split; reflexivity]
                           | apply sem_alt; left;
                             apply sem_lit; [reflexivity|split; reflexivity]
                           | apply sem_alt; right])|]).
    contradiction.
  + apply sem_lit; [reflexivity|auto].
Qed.

(** Nothing is found exactly when the pattern matches nowhere. *)
Lemma findall_nil fl r s :
  match_at fl r [] = None ->
  (findall fl r s 0 = [] <-> search fl r s = None).
Proof.
intros Hnil. induction s as [|c s IH]; simpl.
- rewrite Hnil. tauto.
- destruct (match_at fl r (c :: s)); [split; discriminate|]. exact IH.
Qed.

Lemma findall_groups fl r (P : text -> Prop) :
  (forall s m, match_at fl r s = Some m -> P (group 1 m)) ->
  forall s k, Forall P (findall fl r s k).
Proof.
intros HP. induction s as [|c s IH]; intros k; simpl; [constructor|].
destruct k; [|apply IH].
destruct (match_at fl r (c :: s)) as [m|] eqn:E; [|apply IH].
constructor; [eapply HP; eassumption|apply IH].
Qed.

Lemma match_at_sem fl r s m :
  match_at fl r s = Some m -> exists s', sem fl r s [] s' (groups m).
Proof.
unfold match_at. intros Hm.
apply run_sound in Hm as (s' & caps' & Hs & [= <-]). eauto.
Qed.
End Verification.

(** X8: on a written proof file verification never fails; every
    placeholder it reports is one of its nine tokens, and it reports none
    exactly when the file holds none of the nine between brackets.  The
    placeholders "[XX%]", "[N]" and "[✅/❌]" of the summary table are not
    among them. *)
Theorem verification_tokens `{Runtime} self w doc :
  fs w !! output_file self = Some doc ->
  exists v, verify_proof_file self w = Ok v /\
    Forall (fun p => In p verified_tokens) (placeholders v) /\
    (placeholders v = [] <->
       forall tok, In tok verified_tokens ->
                   ~ occurs (u "[" ++ tok ++ u "]") doc) /\
    ~ In (u "XX%") verified_tokens /\ ~ In (u "N") verified_tokens /\
    ~ In (u "✅/❌") verified_tokens.
Proof.
intros Hf. unfold verify_proof_file. rewrite Hf. eexists. split; [reflexivity|].
cbn [placeholders]. split; [|split].
- apply findall_groups. intros s m Hm.
  apply match_at_sem in Hm as (s' & Hs).
  apply sem_placeholder in Hs as (tok & Hin & _ & Hg).
  unfold group. rewrite Hg. exact Hin.
- rewrite (findall_nil no_flags re_placeholder doc eq_refl). split.
  + intros Hn tok Hin (a & b & ->).
    eapply (search_none _ _ a _ b [tok] Hn).
    apply sem_placeholder. exists tok. split; [assumption|].
    rewrite <- !app_assoc. auto.
  + intros Hno. destruct (search no_flags re_placeholder doc) as [m|] eqn:E;
      [|reflexivity].
    apply search_sound in E as (pre & rest & s' & -> & Hs & _).
    apply sem_placeholder in Hs as (tok & Hin & -> & _).
    destruct (Hno tok Hin). exists pre, s'. rewrite <- !app_assoc. reflexivity.
- unfold verified_tokens. simpl.
  repeat split; intros Hin; repeat (destruct Hin as [Hin|Hin]; [discriminate|]);
    exact Hin.
Qed.

Lemma verification_tokens_witness :
  fs world_unresolved !! output_file (dotnet 7) = Some doc_unresolved /\
  exists v, @verify_proof_file ascii_runtime (dotnet 7) world_unresolved = Ok v /\
            placeholders v = [] /\
            occurs (u "[XX%]") doc_unresolved.
Proof.
assert (E : fs world_unresolved !! output_file (dotnet 7) = Some doc_unresolved)
  by (vm_compute; reflexivity).
split; [exact E|].
destruct (@verification_tokens ascii_runtime (dotnet 7) world_unresolved
            doc_unresolved E) as (v & Hv & _).
exists v. split; [exact Hv|]. split.
- vm_compute in Hv. injection Hv as <-. reflexivity.
- apply contains_spec. vm_compute. reflexivity.
Defined.

(** ** Paths and requirements *)

Lemma below_spec d cs rest :
  below d cs = Some rest <-> cs = d ++ rest /\ rest <> [].
Proof.
revert cs. induction d as [|x d IH]; intros cs; simpl.
- destruct cs; split.
  + discriminate.
  + intros [<- Hn]. contradiction.
  + intros [= <-]. split; [reflexivity|discriminate].
  + intros [<- _]. reflexivity.
- destruct cs as [|y cs]; [split; [discriminate|intros [? _]; discriminate]|].
  destruct (String.eqb_spec x y) as [->|Hne].
  + rewrite IH. split; intros [E Hn]; split; congruence.
  + split; [discriminate|]. intros [[= E _] _]. congruence.
Qed.

Lemma entries_spec w d name :
  In name (entries w d) <-> holds_entry w d name.
Proof.
unfold entries, holds_entry. rewrite <- list_elem_of_In, list_elem_of_omap. split.
- intros ([p c] & Hin & Hb). apply elem_of_map_to_list in Hin. simpl in Hb.
  destruct (below d (components p)) as [rest|] eqn:E; [|discriminate].
  apply below_spec in E as [E _]. destruct rest as [|n rest]; [discriminate|].
  injection Hb as ->. exists p, rest. eauto.
- intros (p & rest & [c Hc] & E). exists (p, c). split.
  + apply elem_of_map_to_list. exact Hc.
  + simpl. assert (Hb : below d (components p) = Some (name :: rest))
      by (apply below_spec; split; [assumption|discriminate]).
    rewrite Hb. reflexivity.
Qed.

Lemma nonempty_In {A} (l : list A) : l <> [] <-> exists x, In x l.
Proof.
destruct l as [|a l]; split.
- congruence.
- intros [x []].
- intros _. exists a. left. reflexivity.
- discriminate.
Qed.

Lemma path_exists_spec w p :
  path_exists w p = true <->
  is_Some (fs w !! p) \/ exists name, holds_entry w (components p) name.
Proof.
unfold path_exists. rewrite orb_true_iff, bool_decide_eq_true, negb_true_iff,
  bool_decide_eq_false, nonempty_In.
setoid_rewrite entries_spec. reflexivity.
Qed.

Lemma glob_spec w d pre suf name :
  In name (glob w d pre suf) <->
  holds_entry w d name /\ matches_star pre suf name = true.
Proof. unfold glob. rewrite filter_In, entries_spec. reflexivity. Qed.

Lemma holds_entry_mono w w' d name :
  (forall p, is_Some (fs w !! p) -> is_Some (fs w' !! p)) ->
  holds_entry w d name -> holds_entry w' d name.
Proof. intros Hm (p & rest & Hp & E). exists p, rest. auto. Qed.

(** X9: the requirements hold exactly when the template exists (as a
    file, or as a directory that holds one) and the directory of the gate
    outputs has an entry whose name starts with "gate-", ends with ".txt"
    and has at least nine characters.  The separate test for the
    directory is implied by the last condition; and the template together
    with any one of the four gate outputs that the extractors read is
    enough, whatever these hold. *)
Theorem requirements_met w :
  (check_requirements w = true <->
     (is_Some (fs w !! template_file) \/
      exists name, holds_entry w [template_file] name) /\
     exists name, holds_entry w [gate_outputs_dir] name /\
                  String.prefix "gate-" name = true /\
                  ends_with ".txt" name = true /\
                  (9 <= String.length name)%nat) /\
  (forall f, In f [tests_file; coverage_file; build_file; security_file] ->
     is_Some (fs w !! template_file) -> is_Some (fs w !! f) ->
     check_requirements w = true).
Proof.
assert (Hspec : check_requirements w = true <->
     (is_Some (fs w !! template_file) \/
      exists name, holds_entry w [template_file] name) /\
     exists name, holds_entry w [gate_outputs_dir] name /\
                  String.prefix "gate-" name = true /\
                  ends_with ".txt" name = true /\
                  (9 <= String.length name)%nat).
{ unfold check_requirements.
  pose proof (path_exists_spec w gate_outputs_dir) as Hd.
  pose proof (path_exists_spec w template_file) as Ht.
  change (components gate_outputs_dir) with [gate_outputs_dir] in Hd.
  change (components template_file) with [template_file] in Ht.
  pose proof (nonempty_In (glob w [gate_outputs_dir] "gate-" ".txt")) as Hg.
  setoid_rewrite glob_spec in Hg. unfold matches_star in Hg.
  setoid_rewrite andb_true_iff in Hg. setoid_rewrite andb_true_iff in Hg.
  setoid_rewrite Nat.leb_le in Hg.
  change (String.length "gate-" + String.length ".txt")%nat with 9%nat in Hg.
  rewrite <- Ht. split.
  - destruct (path_exists w gate_outputs_dir); [|discriminate].
    destruct (path_exists w template_file); [|discriminate]. simpl.
    destruct (bool_decide (glob w [gate_outputs_dir] "gate-" ".txt" = [])) eqn:E;
      [discriminate|].
    apply bool_decide_eq_false in E. apply Hg in E as (name & He & (Hp & Hs) & Hl).
    intros _. split; [reflexivity|]. exists name. auto.
  - intros [Htpl (name & He & Hp & Hs & Hl)].
    assert (Hdir : path_exists w gate_outputs_dir = true)
      by (apply Hd; right; eauto).
    rewrite Hdir, Htpl. simpl.
    assert (Hne : glob w [gate_outputs_dir] "gate-" ".txt" <> [])
      by (apply Hg; exists name; auto).
    rewrite (bool_decide_eq_false_2 _ Hne). reflexivity. }
split; [exact Hspec|].
intros f Hf Htpl Hfile. apply Hspec. split; [left; exact Htpl|].
simpl in Hf.
destruct Hf as [<-|[<-|[<-|[<-|[]]]]];
  [exists "gate-5-tests.txt"%string | exists "gate-6-coverage.txt"%string
  |exists "gate-3-build.txt"%string | exists "gate-7-security.txt"%string];
  (split; [eexists _, []; split; [exact Hfile|reflexivity]
          |repeat split; vm_compute; try reflexivity; lia]).
Qed.

Lemma requirements_met_witness :
  check_requirements world_ready = true /\
  check_requirements (world_plain (u "2025-01-31")) = false.
Proof.
split.
- apply (proj2 (requirements_met world_ready) coverage_file).
  + simpl. tauto.
  + vm_compute. eauto.
  + vm_compute. eauto.
- vm_compute. reflexivity.
Defined.

(** ** Running the generator *)

Lemma output_file_fresh self :
  output_file self <> template_file /\
  forall name, output_file self <> gate_file name.
Proof.
unfold output_file, template_file, gate_file. split; [|intros name; discriminate].
destruct (Z.to_int (stage_number self)) as [d|d]; simpl; [|discriminate].
destruct d; discriminate.
Qed.

Section RunFacts.
Context `{Runtime}.
Variable self : ProofGenerator.

Lemma generate_after_write w doc :
  generate_proof_file self
    {| fs := <[ output_file self := doc ]> (fs w); today := today w |} =
  generate_proof_file self w.
Proof.
set (w' := {| fs := <[ output_file self := doc ]> (fs w); today := today w |}).
destruct (output_file_fresh self) as [Ht Hg].
assert (Hi : inputs_agree w' w).
{ unfold inputs_agree, tests_file, coverage_file, build_file, security_file, w'.
  cbn [fs today]. rewrite !lookup_insert_ne by auto. auto 10. }
destruct (extractors_agree self w' w Hi) as (Et & Ec & Eb & Ev).
destruct Hi as (Htpl & _ & _ & _ & _ & Hd).
assert (Es : generate_stage_summary self w' = generate_stage_summary self w).
{ unfold generate_stage_summary, summary_rows. rewrite Et, Ec, Eb, Ev. reflexivity. }
assert (Er : generate_engineer_review_prompts self w' =
             generate_engineer_review_prompts self w).
{ unfold generate_engineer_review_prompts. rewrite Et, Ec. reflexivity. }
assert (Ea : forall t, apply_replacements self w' t = apply_replacements self w t).
{ intros t. unfold apply_replacements, replacements. rewrite Hd. reflexivity. }
unfold generate_proof_file. rewrite Htpl, Es, Er.
destruct (fs w !! template_file) as [template|]; [|reflexivity].
rewrite Ea. reflexivity.
Qed.

Lemma check_requirements_mono w w' :
  (forall p, is_Some (fs w !! p) -> is_Some (fs w' !! p)) ->
  check_requirements w = true -> check_requirements w' = true.
Proof.
intros Hm. unfold check_requirements.
pose proof (path_exists_spec w gate_outputs_dir) as Hd.
pose proof (path_exists_spec w' gate_outputs_dir) as Hd'.
pose proof (path_exists_spec w template_file) as Ht.
pose proof (path_exists_spec w' template_file) as Ht'.
pose proof (nonempty_In (glob w [gate_outputs_dir] "gate-" ".txt")) as Hg.
pose proof (nonempty_In (glob w' [gate_outputs_dir] "gate-" ".txt")) as Hg'.
setoid_rewrite glob_spec in Hg. setoid_rewrite glob_spec in Hg'.
destruct (path_exists w gate_outputs_dir); [|discriminate].
destruct (path_exists w template_file); [|discriminate]. simpl.
destruct (bool_decide (glob w [gate_outputs_dir] "gate-" ".txt" = [])) eqn:E;
  [discriminate|].
apply bool_decide_eq_false in E. apply Hg in E as (name & He & Hs).
intros _.
assert (E1 : path_exists w' gate_outputs_dir = true).
{ apply Hd'. destruct (proj1 Hd eq_refl) as [Hf|[n Hn]];
    [left; auto|right; exists n; eapply holds_entry_mono; eauto]. }
assert (E2 : path_exists w' template_file = true).
{ apply Ht'. destruct (proj1 Ht eq_refl) as [Hf|[n Hn]];
    [left; auto|right; exists n; eapply holds_entry_mono; eauto]. }
assert (E3 : glob w' [gate_outputs_dir] "gate-" ".txt" <> []).
{ apply Hg'. exists name. split; [eapply holds_entry_mono; eauto|exact Hs]. }
rewrite E1, E2, (bool_decide_eq_false_2 _ E3). reflexivity.
Qed.

Lemma run_cases w :
  Generator.run self w =
  if check_requirements w then
    match generate_proof_file self w with
    | Ok doc =>
        if is_dir w (output_file self) then Raise IsADirectoryError
        else if (name_max <? String.length (output_file self))%nat
        then Raise OSError
        else Ok (0, {| fs := <[ output_file self := doc ]> (fs w);
                       today := today w |})
    | Raise e => Raise e
    end
  else Ok (2, w).
Proof.
unfold Generator.run, write_proof_file, verify_proof_file.
destruct (check_requirements w); [|reflexivity]. cbn [negb].
destruct (generate_proof_file self w) as [doc|e]; [|reflexivity].
unfold bind. destruct (is_dir w (output_file self)); [reflexivity|].
destruct (name_max <? String.length (output_file self))%nat; [reflexivity|].
cbn [fs]. rewrite lookup_insert_eq. reflexivity.
Qed.

Lemma is_dir_spec w p :
  is_dir w p = true <-> exists name, holds_entry w (components p) name.
Proof.
unfold is_dir. rewrite negb_true_iff, bool_decide_eq_false, nonempty_In.
setoid_rewrite entries_spec. reflexivity.
Qed.

(** Writing a file does not make its path a directory. *)
Lemma is_dir_after_write w p doc :
  is_dir w p = false ->
  is_dir {| fs := <[ p := doc ]> (fs w); today := today w |} p = false.
Proof.
intros Hd. set (w' := {| fs := <[ p := doc ]> (fs w); today := today w |}).
destruct (is_dir w' p) eqn:E; [|reflexivity].
apply is_dir_spec in E as (name & q & rest & Hq & Hc). cbn [fs w'] in Hq.
destruct (decide (q = p)) as [->|Hne].
- apply (f_equal (@List.length string)) in Hc.
  rewrite length_app in Hc. simpl in Hc. lia.
- rewrite lookup_insert_ne in Hq by congruence.
  assert (Hx : is_dir w p = true) by (apply is_dir_spec; exists name, q, rest; auto).
  congruence.
Qed.

(** With regular inputs, the requirements make the template readable. *)
Lemma requirements_template w :
  regular_inputs w -> check_requirements w = true ->
  exists template, fs w !! template_file = Some template.
Proof.
intros (Ht & _). unfold check_requirements.
destruct (path_exists w gate_outputs_dir); [|discriminate].
destruct (path_exists w template_file) eqn:E; [|discriminate]. intros _.
unfold path_exists in E. unfold is_dir in Ht. rewrite Ht, orb_false_r in E.
apply bool_decide_eq_true in E as [t Et]. eauto.
Qed.
End RunFacts.

(** X4: writing the document.  With regular inputs and the template in
    place, [generate_proof_file] writes the output file exactly when the
    extracted coverage, if there is one, is a plain number (at most one
    dot, at least one digit), the output path is not a directory and its
    name is not too long.  Otherwise it raises [ValueError] (from
    [float], on a coverage that is not a plain number), or else
    [IsADirectoryError], or else [OSError].  When it returns, the output
    file holds the generated text and nothing else has changed. *)
Theorem malformed_coverage_raises `{Runtime} self w template :
  decimal 46%N = None ->
  regular_inputs w ->
  fs w !! template_file = Some template ->
  ((exists w', write_proof_file self w = Ok w') <->
     (forall c, extract_coverage w = Some c -> plain_number c) /\
     is_dir w (output_file self) = false /\
     (String.length (output_file self) <= name_max)%nat) /\
  (forall e, write_proof_file self w = Raise e ->
     (e = ValueError /\
      exists c, extract_coverage w = Some c /\ ~ plain_number c) \/
     (e = IsADirectoryError /\ is_dir w (output_file self) = true) \/
     (e = OSError /\ (name_max < String.length (output_file self))%nat)) /\
  (forall w', write_proof_file self w = Ok w' ->
     exists doc, generate_proof_file self w = Ok doc /\
       fs w' = <[ output_file self := doc ]> (fs w) /\ today w' = today w).
Proof.
intros Hdot Hreg Hf.
destruct (generate_proof_file_outcome Hdot self w template Hf) as [Hiff Hval].
unfold write_proof_file.
destruct (generate_proof_file self w) as [doc|e0] eqn:Eg; unfold bind.
- assert (Hok : forall c, extract_coverage w = Some c -> plain_number c)
    by (apply Hiff; eauto).
  destruct (is_dir w (output_file self)) eqn:Ed.
  { split; [|split].
    - split; [intros [? ?]; discriminate|intros (_ & ? & _); discriminate].
    - intros e [= <-]. auto.
    - discriminate. }
  destruct (Nat.ltb_spec name_max (String.length (output_file self))) as [Hlt|Hle].
  { split; [|split].
    - split; [intros [? ?]; discriminate|intros (_ & _ & ?); lia].
    - intros e [= <-]. auto.
    - discriminate. }
  split; [|split].
  + split; [auto|eauto].
  + discriminate.
  + intros w' [= <-]. exists doc. auto.
- split; [|split].
  + split; [intros [? ?]; discriminate|].
    intros (Hok & _). apply Hiff in Hok as [? ?]. discriminate.
  + intros e [= <-]. left. split; [apply Hval; reflexivity|].
    destruct (extract_coverage w) as [c|] eqn:Ec.
    * exists c. split; [reflexivity|]. intros Hp.
      destruct (proj2 Hiff) as [? ?]; [|discriminate].
      intros c' [= <-]. exact Hp.
    * destruct (proj2 Hiff) as [? ?]; [|discriminate]. intros c' ?. discriminate.
  + discriminate.
Qed.

Lemma malformed_coverage_raises_witness :
  @decimal ascii_runtime 46%N = None /\
  regular_inputs world_version /\
  fs world_version !! template_file = Some plain_template /\
  @extract_coverage ascii_runtime world_version = Some (u "1.2.3") /\
  @write_proof_file ascii_runtime (dotnet 1) world_version = Raise ValueError /\
  ~ @plain_number ascii_runtime (u "1.2.3").
Proof.
assert (Hreg : regular_inputs world_version)
  by (repeat split; vm_compute; reflexivity).
assert (Hf : fs world_version !! template_file = Some plain_template)
  by (vm_compute; reflexivity).
assert (Hr : @write_proof_file ascii_runtime (dotnet 1) world_version
             = Raise ValueError) by (vm_compute; reflexivity).
split; [reflexivity|]. split; [exact Hreg|]. split; [exact Hf|].
split; [vm_compute; reflexivity|]. split; [exact Hr|].
destruct (proj1 (proj2 (@malformed_coverage_raises ascii_runtime (dotnet 1)
     world_version plain_template eq_refl Hreg Hf)) _ Hr)
  as [(_ & c & Hc & Hn)|[(Hx & _)|(Hx & _)]]; [|discriminate..].
vm_compute in Hc. injection Hc as <-. exact Hn.
Defined.

(** X10: the exit code of a run, in terms of the files.  With regular
    inputs, the code is 2 exactly when the requirements fail, and then
    no file changes.  It is 0 exactly when the requirements hold, the
    extracted coverage (if any) is a plain number, and the output file
    can be written; then the output file holds the generated document,
    nothing else has changed and the verification that follows does not
    fail.  In every other case an exception escapes (exit code 1):
    [ValueError] for a coverage that is not a plain number, else
    [IsADirectoryError] or [OSError] from the write.  The statement
    [return 1] of [run] is never reached. *)
Theorem run_outcome `{Runtime} self w :
  decimal 46%N = None ->
  regular_inputs w ->
  (exit_code (Generator.run self w) = 2 <-> check_requirements w = false) /\
  (exit_code (Generator.run self w) = 0 <->
     check_requirements w = true /\
     (forall c, extract_coverage w = Some c -> plain_number c) /\
     is_dir w (output_file self) = false /\
     (String.length (output_file self) <= name_max)%nat) /\
  (forall e, Generator.run self w = Raise e ->
     check_requirements w = true /\
     ((e = ValueError /\
       exists c, extract_coverage w = Some c /\ ~ plain_number c) \/
      (e = IsADirectoryError /\ is_dir w (output_file self) = true) \/
      (e = OSError /\ (name_max < String.length (output_file self))%nat))) /\
  (forall code w', Generator.run self w = Ok (code, w') ->
     (code = 2 /\ w' = w) \/
     (code = 0 /\
      exists doc, generate_proof_file self w = Ok doc /\
        fs w' = <[ output_file self := doc ]> (fs w) /\ today w' = today w /\
        is_Some_result (verify_proof_file self w'))).
Proof.
intros Hdot Hreg. rewrite run_cases.
destruct (check_requirements w) eqn:Ec.
- destruct (requirements_template w Hreg Ec) as [template Hf].
  destruct (generate_proof_file_outcome Hdot self w template Hf) as [Hiff Hval].
  destruct (generate_proof_file self w) as [doc|e0] eqn:Eg.
  + assert (Hok : forall c, extract_coverage w = Some c -> plain_number c)
      by (apply Hiff; eauto).
    destruct (is_dir w (output_file self)) eqn:Ed.
    { cbn [exit_code]. split; [split; discriminate|]. split; [|split].
      - split; [discriminate|intros (_ & _ & ? & _); discriminate].
      - intros e [= <-]. auto.
      - discriminate. }
    destruct (Nat.ltb_spec name_max (String.length (output_file self))) as [Hlt|Hle].
    { cbn [exit_code]. split; [split; discriminate|]. split; [|split].
      - split; [discriminate|intros (_ & _ & _ & ?); lia].
      - intros e [= <-]. auto.
      - discriminate. }
    cbn [exit_code]. split; [split; discriminate|]. split; [|split].
    * split; [auto|reflexivity].
    * discriminate.
    * intros code w' [= <- <-]. right. split; [reflexivity|].
      exists doc. cbn [fs today]. repeat split.
      unfold verify_proof_file. cbn [fs]. rewrite lookup_insert_eq. exact I.
  + cbn [exit_code]. split; [split; discriminate|]. split; [|split].
    * split; [discriminate|]. intros (_ & Hok & _).
      apply Hiff in Hok as [? ?]. discriminate.
    * intros e [= <-]. split; [reflexivity|]. left.
      split; [apply Hval; reflexivity|].
      destruct (extract_coverage w) as [c|] eqn:Ecov.
      -- exists c. split; [reflexivity|]. intros Hp.
         destruct (proj2 Hiff) as [? ?]; [|discriminate].
         intros c' [= <-]. exact Hp.
      -- destruct (proj2 Hiff) as [? ?]; [|discriminate]. intros c' ?. discriminate.
    * discriminate.
- cbn [exit_code]. split; [split; reflexivity|]. split; [|split].
  + split; [discriminate|intros [? _]; discriminate].
  + discriminate.
  + intros code w' [= <- <-]. auto.
Qed.

Lemma run_outcome_witness :
  @decimal ascii_runtime 46%N = None /\ regular_inputs world_ready /\
  exit_code (@Generator.run ascii_runtime (dotnet 7) world_ready) = 0 /\
  (exists w',
    @Generator.run ascii_runtime (dotnet 7) world_ready = Ok (0, w') /\
    fs w' !! "STAGE_7_PROOF.md"%string =
      Some (u "# Stage 7 Proof (2025-01-31)

Tech stack: DOTNET
Stage 7 has no tables.
")) /\
  @Generator.run ascii_runtime (dotnet 1) world_version = Raise ValueError /\
  exit_code (@Generator.run ascii_runtime (dotnet 1) (world_plain (u "2025-01-31"))) = 2.
Proof.
assert (Hreg : regular_inputs world_ready) by (repeat split; vm_compute; reflexivity).
destruct (@run_outcome ascii_runtime (dotnet 7) world_ready eq_refl Hreg)
  as (_ & H0 & _ & Hret).
assert (Hcode : exit_code (@Generator.run ascii_runtime (dotnet 7) world_ready) = 0).
{ apply H0. split; [vm_compute; reflexivity|]. split; [|split].
  - intros c Hc. vm_compute in Hc. injection Hc as <-.
    split; vm_compute; [lia|reflexivity].
  - vm_compute. reflexivity.
  - vm_compute. lia. }
split; [reflexivity|]. split; [exact Hreg|]. split; [exact Hcode|].
split; [|split; vm_compute; reflexivity].
destruct (@Generator.run ascii_runtime (dotnet 7) world_ready) as [[code w']|e] eqn:E;
  [|discriminate].
cbn [exit_code] in Hcode. subst code. exists w'. split; [reflexivity|].
destruct (Hret 0 w' eq_refl) as [[Hx _]|(_ & doc & Hdoc & Hfs & _)]; [discriminate|].
rewrite Hfs. change ("STAGE_7_PROOF.md"%string) with (output_file (dotnet 7)).
rewrite lookup_insert_eq. vm_compute in Hdoc. injection Hdoc as <-.
vm_compute. reflexivity.
Defined.

(** X11: a successful run can be repeated: on the files it leaves, with
    the date unchanged, the same generator succeeds again and leaves them
    as they are.  The output file is never the template or a gate output,
    so a run does not read what it writes. *)
Theorem run_idempotent `{Runtime} self w w' :
  Generator.run self w = Ok (0, w') ->
  Generator.run self w' = Ok (0, w').
Proof.
rewrite !run_cases. destruct (check_requirements w) eqn:Ec; [|discriminate].
destruct (generate_proof_file self w) as [doc|e] eqn:Eg; [|discriminate].
destruct (is_dir w (output_file self)) eqn:Ed; [discriminate|].
destruct (name_max <? String.length (output_file self))%nat eqn:En; [discriminate|].
intros [= <-].
rewrite generate_after_write, Eg, (is_dir_after_write _ _ _ Ed).
erewrite check_requirements_mono; [|
  |exact Ec].
- cbn [fs today]. rewrite insert_insert_eq. reflexivity.
- intros p Hp. cbn [fs].
  destruct (decide (p = output_file self)) as [->|Hne].
  + rewrite lookup_insert_eq. eauto.
  + rewrite lookup_insert_ne by congruence. exact Hp.
Qed.

Lemma run_idempotent_witness :
  exists w',
    @Generator.run ascii_runtime (dotnet 7) world_ready = Ok (0, w') /\
    @Generator.run ascii_runtime (dotnet 7) w' = Ok (0, w').
Proof.
destruct (@Generator.run ascii_runtime (dotnet 7) world_ready) as [[code w']|e] eqn:E;
  [|vm_compute in E; discriminate].
assert (Hc : code = 0) by (vm_compute in E; congruence). subst code.
exists w'. split; [reflexivity|].
exact (@run_idempotent ascii_runtime (dotnet 7) world_ready w' E).
Defined.

(** ** The command line *)

Section CommandLineFacts.
Context `{Runtime}.
Variable isdigit : text -> bool.

Lemma py_int_nonneg s n : py_int s = Some n -> 0 <= n.
Proof.
unfold py_int. destruct s; [discriminate|].
destruct (digits_value _ _); [|discriminate]. intros [= <-]. lia.
Qed.

(** What the loop over the arguments leaves: the stage number is the
    value of an argument of digits (the last one), the tech stack the
    lower-cased argument that follows a "--tech" (the last such). *)
Lemma parse_args_result args sn ts sn' ts' :
  parse_args isdigit args sn ts = Ok (sn', ts') ->
  (sn' = sn \/
   exists arg n, In arg args /\ arg <> u "--tech" /\ isdigit arg = true /\
                 py_int arg = Some n /\ sn' = Some n) /\
  (ts' = ts \/
   exists pre next post, args = pre ++ u "--tech" :: next :: post /\
                         ts' = Some (lower next)).
Proof.
revert sn ts. induction args as [|arg rest IH]; intros sn ts; simpl.
- intros [= <- <-]. auto.
- unfold text_eqb. destruct (bool_decide (arg = u "--tech")) eqn:Et.
  + apply bool_decide_eq_true in Et. subst arg.
    destruct rest as [|next rest'].
    * simpl. intros [= <- <-]. auto.
    * intros Hp. apply IH in Hp as [Hs Ht]. split.
      -- destruct Hs as [Hs|(a & n & Hin & Hrest)]; [auto|].
         right. exists a, n. split; [right; exact Hin|exact Hrest].
      -- right. destruct Ht as [->|(pre & nx & post & E & Hts)].
         ++ exists [], next, rest'. auto.
         ++ exists (u "--tech" :: pre), nx, post. rewrite E. auto.
  + apply bool_decide_eq_false in Et.
    destruct (isdigit arg) eqn:Ed.
    * destruct (py_int arg) as [n|] eqn:Ei; [|discriminate].
      intros Hp. apply IH in Hp as [Hs Ht]. split.
      -- right. destruct Hs as [->|(a & m & Hin & Hrest)].
         ++ exists arg, n. split; [left; reflexivity|auto].
         ++ exists a, m. split; [right; exact Hin|exact Hrest].
      -- destruct Ht as [Ht|(pre & nx & post & E & Hts)]; [auto|].
         right. exists (arg :: pre), nx, post. rewrite E. auto.
    * intros Hp. apply IH in Hp as [Hs Ht]. split.
      -- destruct Hs as [Hs|(a & m & Hin & Hrest)]; [auto|].
         right. exists a, m. split; [right; exact Hin|exact Hrest].
      -- destruct Ht as [Ht|(pre & nx & post & E & Hts)]; [auto|].
         right. exists (arg :: pre), nx, post. rewrite E. auto.
Qed.

Lemma run_codes self w code w' :
  Generator.run self w = Ok (code, w') ->
  (code = 2 /\ w' = w) \/ (code = 0 /\ check_requirements w = true).
Proof.
rewrite run_cases. destruct (check_requirements w).
- destruct (generate_proof_file self w); [|discriminate].
  destruct (is_dir w (output_file self)); [discriminate|].
  destruct (name_max <? String.length (output_file self))%nat; [discriminate|].
  intros [= <- <-]. auto.
- intros [= <- <-]. auto.
Qed.

(** The loop over the arguments fails only on an argument of digits. *)
Lemma parse_args_no_stage args : forall sn ts,
  ~ has_stage_arg isdigit args ->
  exists ts', parse_args isdigit args sn ts = Ok (sn, ts').
Proof.
induction args as [|arg rest IH]; intros sn ts Hno; simpl; [eauto|].
assert (Hrest : ~ has_stage_arg isdigit rest).
{ intros (a & Hin & Ha). apply Hno. exists a. split; [right; exact Hin|exact Ha]. }
unfold text_eqb. destruct (bool_decide (arg = u "--tech")) eqn:Et.
- destruct rest as [|next rest']; [eauto|]. apply IH, Hrest.
- apply bool_decide_eq_false in Et. destruct (isdigit arg) eqn:Ed.
  + destruct Hno. exists arg. split; [left; reflexivity|auto].
  + apply IH, Hrest.
Qed.

(** What the loop over the arguments leaves, exactly: the stage number
    is the value of the last argument of digits (other than "--tech"),
    the tech stack the lower-cased argument after the last "--tech"
    that has one. *)
Lemma parse_args_spec args : forall sn ts sn' ts',
  parse_args isdigit args sn ts = Ok (sn', ts') ->
  ((~ has_stage_arg isdigit args /\ sn' = sn) \/
   (exists arg n, stage_argument isdigit args arg /\
                  py_int arg = Some n /\ sn' = Some n)) /\
  ((~ has_tech_pair args /\ ts' = ts) \/
   (exists next, tech_argument args next /\ ts' = Some (lower next))).
Proof.
induction args as [|arg rest IH]; intros sn ts sn' ts'; simpl.
- intros [= <- <-]. split; left; (split; [|reflexivity]).
  + intros (a & [] & _).
  + intros (p & n & q & E). destruct p; discriminate.
- assert (Hstage_shift : forall a, stage_argument isdigit rest a ->
                                   stage_argument isdigit (arg :: rest) a).
  { intros a (pre & post & -> & Ha). exists (arg :: pre), post. auto. }
  assert (Htech_shift : forall x, tech_argument rest x ->
                                  tech_argument (arg :: rest) x).
  { intros x (pre & post & -> & Hx). exists (arg :: pre), post. auto. }
  unfold text_eqb. destruct (bool_decide (arg = u "--tech")) eqn:Et.
  + apply bool_decide_eq_true in Et. subst arg.
    assert (Hno_stage : ~ has_stage_arg isdigit rest ->
                        ~ has_stage_arg isdigit (u "--tech" :: rest)).
    { intros Hn (a & [<-|Hin] & Hne & Hd); [congruence|].
      apply Hn. exists a. auto. }
    destruct rest as [|next rest'].
    * simpl. intros [= <- <-]. split; left; (split; [|reflexivity]).
      -- apply Hno_stage. intros (a & [] & _).
      -- intros (p & n & q & E).
         apply (f_equal (@List.length text)) in E.
         rewrite length_app in E. simpl in E. lia.
    * intros Hp. apply IH in Hp as [Hs Ht]. split.
      -- destruct Hs as [[Hn ->]|(a & n & Ha & Hrest)]; [left; auto|].
         right. exists a, n. auto.
      -- right. destruct Ht as [[Hn ->]|(x & Hx & ->)].
         ++ exists next. split; [|reflexivity]. exists [], rest'. auto.
         ++ exists x. auto.
  + apply bool_decide_eq_false in Et.
    assert (Hno_tech : ~ has_tech_pair rest -> ~ has_tech_pair (arg :: rest)).
    { intros Hn (p & n & q & E). destruct p as [|a p].
      - injection E as -> _. congruence.
      - injection E as _ E. apply Hn. exists p, n, q. exact E. }
    destruct (isdigit arg) eqn:Ed.
    * destruct (py_int arg) as [n|] eqn:Ei; [|discriminate].
      intros Hp. apply IH in Hp as [Hs Ht]. split.
      -- right. destruct Hs as [[Hn ->]|(a & m & Ha & Hrest)].
         ++ exists arg, n. split; [|auto]. exists [], rest. auto.
         ++ exists a, m. auto.
      -- destruct Ht as [[Hn ->]|(x & Hx & ->)]; [left; auto|].
         right. exists x. auto.
    * intros Hp. apply IH in Hp as [Hs Ht]. split.
      -- destruct Hs as [[Hn ->]|(a & m & Ha & Hrest)].
         ++ left. split; [|reflexivity].
            intros (a & [<-|Hin] & Hne & Hd); [congruence|].
            apply Hn. exists a. auto.
         ++ right. exists a, m. auto.
      -- destruct Ht as [[Hn ->]|(x & Hx & ->)]; [left; auto|].
         right. exists x. auto.
Qed.
End CommandLineFacts.

Lemma descendants_spec w d name :
  In name (descendants w d) <-> holds_below w d name.
Proof.
unfold descendants, holds_below. rewrite <- list_elem_of_In, list_elem_of_join. split.
- intros (l & Hn & Hl). apply list_elem_of_omap in Hl as ([p c] & Hin & Hb).
  apply elem_of_map_to_list in Hin. simpl in Hb.
  apply below_spec in Hb as [E _].
  apply list_elem_of_split in Hn as (pre & rest & ->).
  exists p, pre, rest. eauto.
- intros (p & pre & rest & [c Hc] & E). exists (pre ++ name :: rest). split.
  + apply elem_of_app. right. left.
  + apply list_elem_of_omap. exists (p, c). split.
    * apply elem_of_map_to_list. exact Hc.
    * simpl. apply below_spec. split; [exact E|]. destruct pre; discriminate.
Qed.

Lemma matches_suffix suf name :
  matches_star "" suf name = ends_with suf name.
Proof.
unfold matches_star, ends_with.
assert (Hp : String.prefix "" name = true) by (destruct name; reflexivity).
rewrite Hp. simpl.
destruct (String.length suf <=? String.length name)%nat; simpl;
  [apply andb_true_r|reflexivity].
Qed.

(** X13: detection of the tech stack.  When no argument is "--tech", a
    command that returns 0 without "--help" ran the generator for
    "typescript" if package.json exists, whether or not there is a
    solution or project file as well; and otherwise for "dotnet", which
    then requires a top-level entry ending in ".sln" or an entry ending in
    ".csproj" at any depth below src. *)
Theorem tech_stack_detection `{Runtime} isdigit argv w w' :
  Forall (fun a => a <> u "--tech") (tl argv) ->
  in_argv (u "--help") argv = false ->
  main isdigit argv w = Ok (0, w') ->
  exists n, 0 < n /\
    if path_exists w "package.json" then
      Generator.run {| stage_number := n; tech_stack := u "typescript" |} w = Ok (0, w')
    else
      Generator.run {| stage_number := n; tech_stack := u "dotnet" |} w = Ok (0, w') /\
      ((exists name, holds_entry w [] name /\ ends_with ".sln" name = true) \/
       (exists name, holds_below w ["src"%string] name /\
                     ends_with ".csproj" name = true)).
Proof.
intros Hno Eh. unfold main. rewrite Eh, orb_false_r.
destruct (length argv <? 2)%nat; [discriminate|].
destruct (parse_args isdigit (tl argv) None None) as [[sn ts]|e] eqn:Ep;
  [|discriminate].
apply parse_args_result in Ep as [Hs Ht]. unfold bind.
assert (Hts : ts = None).
{ destruct Ht as [->|(pre & next & post & E & _)]; [reflexivity|].
  rewrite E in Hno. apply Forall_app in Hno as [_ Hno].
  apply Forall_cons in Hno as [Hx _]. congruence. }
subst ts. cbn [truthy].
destruct sn as [n|]; [|discriminate].
destruct Hs as [Hs|(arg & m & Hin & Hne & Hd & Hi & [= <-])]; [discriminate|].
pose proof (py_int_nonneg _ _ Hi) as Hn.
destruct n as [|p|p]; [discriminate| |lia].
intros Hrun. exists (Z.pos p). split; [lia|].
destruct (path_exists w "package.json").
- exact Hrun.
- pose proof (nonempty_In (glob w [] "" ".sln")) as H1.
  pose proof (nonempty_In (glob_rec w ["src"%string] ".csproj")) as H2.
  setoid_rewrite glob_spec in H1. unfold glob_rec in H2.
  setoid_rewrite filter_In in H2. setoid_rewrite descendants_spec in H2.
  setoid_rewrite matches_suffix in H1. setoid_rewrite matches_suffix in H2.
  destruct (bool_decide (glob w [] "" ".sln" = [])) eqn:E1.
  + destruct (bool_decide (glob_rec w ["src"%string] ".csproj" = [])) eqn:E2;
      [discriminate|].
    apply bool_decide_eq_false in E2. split; [exact Hrun|].
    right. apply H2. exact E2.
  + apply bool_decide_eq_false in E1. split; [exact Hrun|].
    left. apply H1. exact E1.
Qed.

Lemma tech_stack_detection_witness :
  (exists w', @Generator.run ascii_runtime (typescript 7) world_both_stacks = Ok (0, w')) /\
  (exists w', @Generator.run ascii_runtime (dotnet 7) world_csproj = Ok (0, w')) /\
  exit_code (@main ascii_runtime ascii_isdigit [u "generate-proof.py"; u "7"]
               world_ready) = 2.
Proof.
split; [|split; [|vm_compute; reflexivity]].
- destruct (@main ascii_runtime ascii_isdigit [u "generate-proof.py"; u "7"]
              world_both_stacks) as [[code w']|e] eqn:E;
    [|vm_compute in E; discriminate].
  assert (Hc : code = 0) by (vm_compute in E; congruence). subst code.
  destruct (@tech_stack_detection ascii_runtime ascii_isdigit
              [u "generate-proof.py"; u "7"] world_both_stacks w'
              ltac:(repeat constructor; vm_compute; discriminate) eq_refl E)
    as (n & Hn & Hrun).
  exists w'. vm_compute in E. vm_compute. exact E.
- destruct (@main ascii_runtime ascii_isdigit [u "generate-proof.py"; u "7"]
              world_csproj) as [[code w']|e] eqn:E;
    [|vm_compute in E; discriminate].
  assert (Hc : code = 0) by (vm_compute in E; congruence). subst code.
  destruct (@tech_stack_detection ascii_runtime ascii_isdigit
              [u "generate-proof.py"; u "7"] world_csproj w'
              ltac:(repeat constructor; vm_compute; discriminate) eq_refl E)
    as (n & Hn & Hrun).
  exists w'. vm_compute in E. vm_compute. exact E.
Defined.

(** ** The literal substitutions *)

Section Replacing.
Variables old new : text.

Lemma replace_from_0 c s :
  replace_from old new (c :: s) 0 =
  match strip_prefix old (c :: s) with
  | Some _ => new ++ replace_from old new s (Nat.pred (List.length old))
  | None => c :: replace_from old new s 0
  end.
Proof. reflexivity. Qed.

Lemma contains_cons (l : text) c s :
  contains l (c :: s) =
  match strip_prefix l (c :: s) with
  | Some _ => true
  | None => contains l s
  end.
Proof. reflexivity. Qed.

(** A text free of the characters of [new] that starts the result of a
    replacement also starts the text that was given. *)
Lemma strip_prefix_replace (l : text) :
  new <> [] -> free_of l new ->
  forall s, is_Some (strip_prefix l (replace_from old new s 0)) ->
            is_Some (strip_prefix l s).
Proof.
intros Hne. induction l as [|a l IH]; intros Hfree s; [simpl; eauto|].
assert (Hl : free_of l new) by (intros c Hc; apply Hfree; right; exact Hc).
destruct s as [|c s]; [simpl; intros [? ?]; discriminate|].
rewrite replace_from_0. destruct (strip_prefix old (c :: s)) as [r|].
- destruct new as [|n1 new']; [contradiction|]. simpl.
  destruct (N.eqb_spec a n1) as [->|_]; [|intros [? ?]; discriminate].
  destruct (Hfree n1); left; reflexivity.
- simpl. destruct (a =? c)%N; [|intros [? ?]; discriminate]. apply IH, Hl.
Qed.

(** [new] in front adds no occurrence of a text it shares no character
    with. *)
Lemma contains_app_foreign (t X : text) :
  t <> [] -> free_of t new ->
  forall pre, (forall c, In c pre -> In c new) ->
  contains t (pre ++ X) = contains t X.
Proof.
intros Ht Hfree. induction pre as [|n1 pre IH]; intros Hsub; [reflexivity|].
change ((n1 :: pre) ++ X) with (n1 :: (pre ++ X)). rewrite contains_cons.
destruct t as [|a t']; [contradiction|]. simpl.
destruct (N.eqb_spec a n1) as [->|_].
- destruct (Hfree n1); [left; reflexivity|]. apply Hsub. left. reflexivity.
- apply IH. intros c Hc. apply Hsub. right. exact Hc.
Qed.

(** A replacement by a non-empty text adds no occurrence of a text that
    shares no character with it. *)
Lemma replace_keeps_absent (t : text) :
  t <> [] -> new <> [] -> free_of t new ->
  forall s k, contains t s = false ->
              contains t (replace_from old new s k) = false.
Proof.
intros Ht Hne Hfree. induction s as [|c s IH]; intros k Hs; [exact Hs|].
rewrite contains_cons in Hs.
destruct (strip_prefix t (c :: s)) as [r|] eqn:Ep; [discriminate|].
destruct k as [|k]; [|simpl; apply IH, Hs].
pose proof (strip_prefix_replace t Hne Hfree (c :: s)) as Ha.
rewrite Ep in Ha. rewrite replace_from_0 in Ha |- *.
destruct (strip_prefix old (c :: s)) as [r|].
- rewrite contains_app_foreign by auto. apply IH, Hs.
- rewrite contains_cons.
  destruct (strip_prefix t (c :: replace_from old new s 0)) as [r|].
  + destruct Ha as [x Hx]; [eauto|discriminate].
  + apply IH, Hs.
Qed.

(** A replacement by a non-empty text that shares no character with
    [old] leaves no occurrence of [old]. *)
Lemma replace_removes :
  old <> [] -> new <> [] -> free_of old new ->
  forall s k, contains old (replace_from old new s k) = false.
Proof.
intros Ho Hne Hfree. induction s as [|c s IH]; intros k.
- simpl. destruct old; [contradiction|reflexivity].
- destruct k as [|k]; [|simpl; apply IH].
  pose proof (strip_prefix_replace old Hne Hfree (c :: s)) as Ha.
  rewrite replace_from_0 in Ha |- *.
  destruct (strip_prefix old (c :: s)) as [r|] eqn:Ep.
  + rewrite contains_app_foreign by auto. apply IH.
  + rewrite contains_cons.
    destruct (strip_prefix old (c :: replace_from old new s 0)) as [r|].
    * destruct Ha as [x Hx]; [eauto|discriminate].
    * apply IH.
Qed.
End Replacing.

Lemma free_of_stage_number n : free_of (u "[X]") (str_of_Z n).
Proof.
destruct (str_of_Z_shape n) as (ds & _ & Hds & ->).
assert (Hfree : free_of (u "[X]") ds).
{ intros c Hc Hin. rewrite Forall_forall in Hds.
  apply list_elem_of_In, Hds in Hin.
  simpl in Hc. destruct Hc as [<-|[<-|[<-|[]]]]; lia. }
destruct (n <? 0); [|exact Hfree].
intros c Hc [<-|Hin]; [|exact (Hfree c Hc Hin)].
simpl in Hc. destruct Hc as [Hc|[Hc|[Hc|[]]]]; discriminate.
Qed.

(** X14: after the literal substitutions no "[X]" is left, provided the
    date and the upper-cased tech stack are not empty and hold none of
    the characters "[", "X", "]" (as a date in the form YYYY-MM-DD, and
    DOTNET and TYPESCRIPT, do): the first substitution removes every
    "[X]", and none of the following three can build a new one. *)
Theorem stage_token_replaced `{Runtime} self w template :
  today w <> [] -> upper (tech_stack self) <> [] ->
  free_of (u "[X]") (today w) ->
  free_of (u "[X]") (upper (tech_stack self)) ->
  ~ occurs (u "[X]") (apply_replacements self w template).
Proof.
intros Hd Ht Hfd Hft Ho. apply contains_spec in Ho.
unfold apply_replacements, replacements in Ho. cbn [fold_left] in Ho.
unfold replace in Ho.
rewrite replace_keeps_absent in Ho; [discriminate|discriminate|exact Ht|exact Hft|].
apply replace_keeps_absent; [discriminate| | |].
- intros E. apply app_eq_nil in E as [E _]. discriminate.
- intros c Hc Hin. apply in_app_or in Hin as [Hin|Hin].
  + simpl in Hc, Hin.
    destruct Hc as [<-|[<-|[<-|[]]]];
      repeat (destruct Hin as [Hin|Hin]; [discriminate|]); exact Hin.
  + exact (free_of_stage_number _ c Hc Hin).
- apply replace_keeps_absent; [discriminate|exact Hd|exact Hfd|].
  apply replace_removes; [discriminate|apply str_of_Z_nonempty|].
  apply free_of_stage_number.
Qed.

Lemma stage_token_replaced_witness :
  ~ occurs (u "[X]")
      (@apply_replacements ascii_runtime (dotnet 7) (world_plain (u "2025-01-31"))
         (u "Stage [X]: [[YYYY-MM-DD]X] [[X]]")) /\
  @apply_replacements ascii_runtime (dotnet 7) (world_plain (u "2025-01-31"))
    (u "Stage [X]: [[YYYY-MM-DD]X] [[X]]") = u "Stage 7: [2025-01-31X] [7]".
Proof.
split; [|vm_compute; reflexivity].
apply (@stage_token_replaced ascii_runtime (dotnet 7) (world_plain (u "2025-01-31"))).
- vm_compute. discriminate.
- vm_compute. discriminate.
- intros c Hc Hin. vm_compute in Hc, Hin.
  destruct Hc as [<-|[<-|[<-|[]]]];
    repeat (destruct Hin as [Hin|Hin]; [discriminate|]); exact Hin.
- intros c Hc Hin. vm_compute in Hc, Hin.
  destruct Hc as [<-|[<-|[<-|[]]]];
    repeat (destruct Hin as [Hin|Hin]; [discriminate|]); exact Hin.
Defined.

(** ** Rounding at the coverage threshold *)

Lemma ge_pow2_scaled n d l s :
  0 <= s -> 0 <= l + s ->
  ge_pow2 n d l = (d * 2 ^ (l + s) <=? n * 2 ^ s).
Proof.
intros Hs Hls. unfold ge_pow2. apply eq_iff_eq_true.
pose proof (Z.pow_pos_nonneg 2 s ltac:(lia) Hs) as Hp.
destruct (Z.leb_spec 0 l) as [Hl|Hl]; rewrite !Z.leb_le.
- rewrite Z.pow_add_r by lia.
  pose proof (Z.pow_pos_nonneg 2 l ltac:(lia) Hl) as Hq.
  set (P := 2 ^ s) in *. set (Q := 2 ^ l) in *. split; intros; nia.
- assert (E : 2 ^ s = 2 ^ (l + s) * 2 ^ (- l))
    by (rewrite <- Z.pow_add_r by lia; f_equal; lia).
  pose proof (Z.pow_pos_nonneg 2 (l + s) ltac:(lia) Hls) as Hq.
  rewrite E. set (P := 2 ^ (l + s)) in *. set (Q := 2 ^ (- l)) in *.
  split; intros; nia.
Qed.

Lemma ge_pow2_mono n d l l' :
  0 <= n -> 0 < d -> l' <= l -> ge_pow2 n d l = true -> ge_pow2 n d l' = true.
Proof.
intros Hn Hd Hl.
rewrite (ge_pow2_scaled n d l (Z.max 0 (- l'))) by lia.
rewrite (ge_pow2_scaled n d l' (Z.max 0 (- l'))) by lia.
rewrite !Z.leb_le. intros H.
pose proof (Z.pow_le_mono_r 2 (l' + Z.max 0 (- l')) (l + Z.max 0 (- l'))
              ltac:(lia) ltac:(lia)) as Hm.
pose proof (Z.pow_pos_nonneg 2 (l' + Z.max 0 (- l')) ltac:(lia) ltac:(lia)).
nia.
Qed.

Lemma floor_log2 n d :
  0 < n -> 0 < d ->
  let l0 := Z.log2 n - Z.log2 d in
  let l := if ge_pow2 n d l0 then l0 else l0 - 1 in
  ge_pow2 n d l = true /\ ge_pow2 n d (l + 1) = false.
Proof.
intros Hn Hd l0 l.
destruct (Z.log2_spec n Hn) as [Ha1 Ha2]. destruct (Z.log2_spec d Hd) as [Hb1 Hb2].
pose proof (Z.log2_nonneg n) as Ha. pose proof (Z.log2_nonneg d) as Hb.
assert (H1 : ge_pow2 n d (l0 - 1) = true).
{ rewrite (ge_pow2_scaled n d (l0 - 1) (Z.log2 d + 1)) by lia.
  apply Z.leb_le. replace (l0 - 1 + (Z.log2 d + 1)) with (Z.log2 n) by lia.
  replace (Z.log2 d + 1) with (Z.succ (Z.log2 d)) by lia. nia. }
assert (H2 : ge_pow2 n d (l0 + 1) = false).
{ rewrite (ge_pow2_scaled n d (l0 + 1) (Z.log2 d)) by lia.
  apply Z.leb_gt. replace (l0 + 1 + Z.log2 d) with (Z.succ (Z.log2 n)) by lia.
  nia. }
subst l. destruct (ge_pow2 n d l0) eqn:E; [auto|].
replace (l0 - 1 + 1) with l0 by lia. auto.
Qed.

Lemma rounded_bounds num den :
  0 <= num -> 0 < den ->
  let a := num / den in
  let r := num mod den in
  let m := if 2 * r <? den then a
           else if den <? 2 * r then a + 1
           else if Z.even a then a else a + 1 in
  a <= m <= a + 1.
Proof.
intros Hn Hd a r m. subst m.
destruct (2 * r <? den); [lia|]. destruct (den <? 2 * r); [lia|].
destruct (Z.even a); lia.
Qed.

Lemma float_ge_90 n k :
  0 <= n ->
  float_ge (round_binary64 n k) 90 = true <->
  (90 * 2 ^ 47 - 1) * 10 ^ Z.of_nat k <= n * 2 ^ 47.
Proof.
intros Hn. unfold round_binary64.
pose proof (Z.pow_pos_nonneg 10 (Z.of_nat k) ltac:(lia) ltac:(lia)) as Hd.
set (d := 10 ^ Z.of_nat k) in *. clearbody d.
destruct (Z.eqb_spec n 0) as [->|Hne].
- assert (E47 : 2 ^ 47 = 140737488355328) by reflexivity. rewrite E47.
  split; [discriminate|]. lia.
- destruct (floor_log2 n d ltac:(lia) Hd) as [Hge Hlt]. cbv zeta in Hge, Hlt |- *.
  set (l := if ge_pow2 n d (Z.log2 n - Z.log2 d) then _ else _) in *.
  clearbody l.
  set (e := Z.max (l - 52) (-1074)).
  set (num := if 0 <=? e then n else n * 2 ^ (- e)).
  set (den := if 0 <=? e then d * 2 ^ e else d).
  assert (Hnum : 0 <= num).
  { subst num. destruct (0 <=? e); [lia|].
    pose proof (Z.pow_nonneg 2 (- e) ltac:(lia)). nia. }
  assert (Hden : 0 < den).
  { subst den. destruct (Z.leb_spec 0 e); [|lia].
    pose proof (Z.pow_pos_nonneg 2 e ltac:(lia) ltac:(lia)). nia. }
  pose proof (rounded_bounds num den Hnum Hden) as Hm. cbv zeta in Hm.
  pose proof (Z.div_mod num den ltac:(lia)) as Hdm.
  pose proof (Z.mod_pos_bound num den Hden) as Hr.
  assert (Hcases : 7 <= l \/ l <= 5 \/ l = 6) by lia.
  destruct Hcases as [Hl|[Hl|Hl]].
  + (* at least 128 *)
    assert (H7 : ge_pow2 n d 7 = true) by (apply (ge_pow2_mono n d l); auto; lia).
    unfold ge_pow2 in H7. simpl in H7. apply Z.leb_le in H7.
    split; [intros _; lia|intros _].
    assert (He : e = l - 52) by lia.
    assert (Ha : 2 ^ 52 <= num / den).
    { apply Z.div_le_lower_bound; [exact Hden|].
      subst num den. destruct (Z.leb_spec 0 e) as [H0|H0].
      - unfold ge_pow2 in Hge. destruct (Z.leb_spec 0 l); [|lia].
        apply Z.leb_le in Hge. replace l with (e + 52) in Hge by lia.
        rewrite Z.pow_add_r in Hge by lia. lia.
      - rewrite (ge_pow2_scaled n d l (- e)) in Hge by lia.
        apply Z.leb_le in Hge. replace (l + - e) with 52 in Hge by lia. lia. }
    destruct ((971 <? e) || ((e =? 971) && _)); [reflexivity|].
    unfold float_ge. destruct (Z.leb_spec 0 e) as [H0|H0]; apply Z.leb_le.
    * pose proof (Z.pow_pos_nonneg 2 e ltac:(lia) H0).
      assert (2 ^ 52 = 4503599627370496) by reflexivity. nia.
    * pose proof (Z.pow_le_mono_r 2 (- e) 45 ltac:(lia) ltac:(lia)).
      assert (2 ^ 52 = 4503599627370496) by reflexivity.
      assert (2 ^ 45 = 35184372088832) by reflexivity. lia.
  + (* below 64 *)
    assert (H6 : ge_pow2 n d 6 = false).
    { destruct (ge_pow2 n d 6) eqn:E; [|reflexivity].
      rewrite (ge_pow2_mono n d 6 (l + 1)) in Hlt; auto; lia. }
    unfold ge_pow2 in H6. simpl in H6. apply Z.leb_gt in H6.
    assert (He : e <= -47 /\ l - 52 <= e) by lia.
    assert (H53 : ge_pow2 n d (e + 53) = false).
    { destruct (ge_pow2 n d (e + 53)) eqn:E; [|reflexivity].
      rewrite (ge_pow2_mono n d (e + 53) (l + 1)) in Hlt; auto; lia. }
    rewrite (ge_pow2_scaled n d (e + 53) (- e)) in H53 by lia.
    apply Z.leb_gt in H53. replace (e + 53 + - e) with 53 in H53 by lia.
    assert (Ha : num / den < 2 ^ 53).
    { apply Z.div_lt_upper_bound; [exact Hden|].
      subst num den. destruct (Z.leb_spec 0 e); lia. }
    assert (Hf : (971 <? e) || ((e =? 971) && (2 ^ 53 <=? 
             (if 2 * (num mod den) <? den then num / den
              else if den <? 2 * (num mod den) then num / den + 1
              else if Z.even (num / den) then num / den else num / den + 1)))
             = false).
    { destruct (Z.ltb_spec 971 e); [lia|]. destruct (Z.eqb_spec e 971); [lia|].
      reflexivity. }
    rewrite Hf. unfold float_ge. destruct (Z.leb_spec 0 e); [lia|].
    pose proof (Z.pow_le_mono_r 2 47 (- e) ltac:(lia) ltac:(lia)).
    assert (2 ^ 53 = 9007199254740992) by reflexivity.
    assert (2 ^ 47 = 140737488355328) by reflexivity.
    split.
    * intros Hx. apply Z.leb_le in Hx. lia.
    * intros Hx. lia.
  + (* between 64 and 128 *)
    subst l. assert (He : e = -46) by reflexivity. clearbody e. subst e.
    change (0 <=? -46) with false in *. cbv iota in num, den. subst den.
    unfold ge_pow2 in Hge, Hlt. simpl in Hge, Hlt.
    apply Z.leb_le in Hge. apply Z.leb_gt in Hlt.
    change ((971 <? -46) || ((-46 =? 971) && _)) with false. cbv iota.
    unfold float_ge. change (0 <=? -46) with false. cbv iota.
    change (- -46) with 46 in *.
    assert (E46 : 2 ^ 46 = 70368744177664) by reflexivity.
    assert (E47 : 2 ^ 47 = 140737488355328) by reflexivity.
    rewrite Z.leb_le.
    assert (Hnum2 : num = n * 70368744177664) by (subst num; lia).
    set (a := num / d) in *. set (r := num mod d) in *.
    destruct (Z.ltb_spec (2 * r) d) as [H1|H1];
      [|destruct (Z.ltb_spec d (2 * r)) as [H2|H2];
        [|destruct (Z.even a) eqn:Ev]].
    * split; intros Hx; nia.
    * split; intros Hx; nia.
    * apply Z.even_spec in Ev as [b Hb]. split; intros Hx; nia.
    * assert (Hodd : Z.odd a = true) by (rewrite <- Z.negb_even, Ev; reflexivity).
      apply Z.odd_spec in Hodd as [b Hb]. split; intros Hx; nia.
Qed.

(** X15: the coverage threshold is applied after rounding to binary64.
    For an extracted coverage that denotes the decimal [n / 10^k], the
    status is pass exactly when [n / 10^k >= 90 - 2^-47], and fail
    otherwise: a coverage below 90 by no more than [2^-47] rounds to
    90.0 and passes. *)
Theorem coverage_threshold_rounding `{Runtime} c n k :
  parse_decimal c = Some (n, k) ->
  (coverage_status (Some c) = Ok PASS <->
     (90 * 2 ^ 47 - 1) * 10 ^ Z.of_nat k <= Z.of_N n * 2 ^ 47) /\
  (coverage_status (Some c) = Ok FAIL <->
     Z.of_N n * 2 ^ 47 < (90 * 2 ^ 47 - 1) * 10 ^ Z.of_nat k).
Proof.
intros Hp. pose proof (float_ge_90 (Z.of_N n) k ltac:(lia)) as Hf.
assert (Ht : truthy (Some c) = true).
{ destruct c; [discriminate|reflexivity]. }
unfold coverage_status. rewrite Ht. cbn [default from_option id].
unfold py_float. rewrite Hp.
unfold bind. destruct (float_ge (round_binary64 (Z.of_N n) k) 90).
- split.
  + split; [intros _; apply Hf; reflexivity|reflexivity].
  + split; [intros [= Hx]; destruct (PASS_neq_FAIL Hx)|].
    intros Hx. apply proj1 in Hf. specialize (Hf eq_refl). lia.
- split.
  + split; [intros [= Hx]; symmetry in Hx; destruct (PASS_neq_FAIL Hx)|].
    intros Hx. apply Hf in Hx. discriminate.
  + split; [|reflexivity]. intros _.
    destruct (Z.lt_ge_cases (Z.of_N n * 2 ^ 47) ((90 * 2 ^ 47 - 1) * 10 ^ Z.of_nat k))
      as [Hlt|Hge]; [exact Hlt|].
    apply Hf in Hge. discriminate.
Qed.

Lemma coverage_threshold_rounding_witness :
  @coverage_status ascii_runtime (Some (u "89.99999999999999999")) = Ok PASS /\
  @coverage_status ascii_runtime (Some (u "89.9999999999999")) = Ok FAIL.
Proof.
split.
- apply (@coverage_threshold_rounding ascii_runtime (u "89.99999999999999999")
           8999999999999999999%N 17%nat); [reflexivity|].
  vm_compute. discriminate.
- apply (@coverage_threshold_rounding ascii_runtime (u "89.9999999999999")
           899999999999999%N 13%nat); [reflexivity|].
  vm_compute. reflexivity.
Defined.

(** ** The review and the summary *)

Lemma Ok_inj {A} (a b : A) : Ok a = Ok b -> a = b.
Proof. congruence. Qed.

(** X16: the review and the summary table judge the coverage alike, but
    for one case.  When both are produced, the line of the review on test
    coverage says "Exceeds 90% target" exactly when the coverage row of
    the table has the status pass, and then and when the row fails it
    shows the same percentage as the row; when no coverage was extracted
    the row holds the placeholders "[XX%]" and "[STATUS]" while the review
    shows "?%" and says "Below 90% target". *)
Theorem review_agrees_with_summary `{Runtime} self w rows review :
  summary_rows self w = Ok rows ->
  generate_engineer_review_prompts self w = Ok review ->
  exists r count pct verdict rest,
    rows !! 2%nat = Some r /\
    review = review_part1 ++ count ++ review_part2 ++ pct ++ review_part3 ++
             verdict ++ review_part4 ++ rest /\
    (verdict = u "✅ Exceeds 90% target" <-> row_status r = PASS) /\
    (verdict = u "⚠️ Below 90% target" <-> row_status r <> PASS) /\
    (row_status r = PASS \/ row_status r = FAIL -> pct = actual r) /\
    (row_status r <> PASS /\ row_status r <> FAIL ->
       extract_coverage w = None /\ pct = u "?%" /\
       actual r = u "[XX%]" /\ row_status r = u "[STATUS]").
Proof.
destruct status_texts_distinct as (Hpf & Hps & Hfs).
assert (Hv : u "✅ Exceeds 90% target" <> u "⚠️ Below 90% target")
  by (intros E; vm_compute in E; discriminate).
pose proof (coverage_status_cases (extract_coverage w)) as Hc.
pose proof (extract_coverage_truthy w) as Ht.
unfold summary_rows, generate_engineer_review_prompts.
destruct (extract_coverage w) as [c|].
- rewrite (Ht c eq_refl). specialize (Hc (Ht c eq_refl)).
  cbn [default from_option id]. unfold bind at 2.
  destruct (py_float c) as [f|e]; rewrite Hc; unfold bind; [|discriminate].
  intros Hs%Ok_inj Hr%Ok_inj. subst rows review. do 5 eexists.
  split; [reflexivity|]. split; [reflexivity|]. cbn [row_status actual].
  destruct (float_ge f 90).
  + split; [split; intros _; reflexivity|].
    split; [split; [intros E; destruct (Hv E)|intros E; destruct (E eq_refl)]|].
    split; [intros _; reflexivity|]. intros [E _]. destruct (E eq_refl).
  + split; [split; [intros E; destruct (Hv (eq_sym E))
                   |intros E; destruct (Hpf (eq_sym E))]|].
    split; [split; [intros _ E; destruct (Hpf (eq_sym E))|intros _; reflexivity]|].
    split; [intros _; reflexivity|]. intros [_ E]. destruct (E eq_refl).
- rewrite Hc. cbn [truthy]. unfold bind.
  intros Hs%Ok_inj Hr%Ok_inj. subst rows review. do 5 eexists.
  split; [reflexivity|]. split; [reflexivity|]. cbn [row_status actual].
  split; [split; [intros E; destruct (Hv (eq_sym E))
                 |intros E; destruct (Hps (eq_sym E))]|].
  split; [split; [intros _ E; destruct (Hps (eq_sym E))|intros _; reflexivity]|].
  split; [intros [E|E]; [destruct (Hps (eq_sym E))|destruct (Hfs (eq_sym E))]|].
  intros _. repeat split; reflexivity.
Qed.

Lemma review_agrees_with_summary_witness :
  exists rows review r,
    @summary_rows ascii_runtime (dotnet 7) world_ready = Ok rows /\
    @generate_engineer_review_prompts ascii_runtime (dotnet 7) world_ready = Ok review /\
    rows !! 2%nat = Some r /\ row_status r = PASS /\ actual r = u "93.5%" /\
    occurs (u "42 tests, 93.5% coverage ✅ Exceeds 90% target") review.
Proof.
destruct (@summary_rows ascii_runtime (dotnet 7) world_ready) as [rows|e] eqn:Es;
  [|vm_compute in Es; discriminate].
destruct (@generate_engineer_review_prompts ascii_runtime (dotnet 7) world_ready)
  as [review|e] eqn:Er; [|vm_compute in Er; discriminate].
destruct (@review_agrees_with_summary ascii_runtime (dotnet 7) world_ready
            rows review Es Er) as (r & count & pct & verdict & rest & Hr & _).
exists rows, review, r. split; [reflexivity|]. split; [reflexivity|].
split; [exact Hr|].
vm_compute in Es. injection Es as <-. vm_compute in Hr. injection Hr as <-.
split; [vm_compute; reflexivity|]. split; [vm_compute; reflexivity|].
apply contains_spec. vm_compute in Er. injection Er as <-. vm_compute. reflexivity.
Defined.

(** ** Substitution of a region *)

Section Regions.
Context `{Runtime}.
Variable fl : flags.

Lemma strip_lit_suffix l : forall s s',
  strip_lit fl l s = Some s' -> exists a, s = a ++ s'.
Proof.
induction l as [|p l IH]; intros s s'; simpl.
- intros [= ->]. exists []. reflexivity.
- destruct s as [|x s]; [discriminate|].
  destruct (if ignorecase fl then re_ieq p x else (p =? x)%N); [|discriminate].
  intros Hs. apply IH in Hs as (a & ->). exists (x :: a). reflexivity.
Qed.

(** A pattern consumes a prefix of the text. *)
Lemma sem_suffix r : forall s caps s' caps',
  sem fl r s caps s' caps' -> exists a, s = a ++ s'.
Proof.
induction r as [l|c|g c|r1 IH1 r2 IH2|r1 IH1 r2 IH2|r IH|r IH];
  intros s caps s' caps'; simpl.
- intros [Hs _]. eapply strip_lit_suffix, Hs.
- intros (x & -> & _). exists [x]. reflexivity.
- intros (a & -> & _). eauto.
- intros (s1 & caps1 & H1 & H2).
  apply IH1 in H1 as (a & ->). apply IH2 in H2 as (b & ->).
  exists (a ++ b). rewrite app_assoc. reflexivity.
- intros [H1|H2]; eauto.
- intros (caps1 & H1 & _). eauto.
- intros [-> _]. exists []. reflexivity.
Qed.

Lemma match_at_whole r s m :
  match_at fl r s = Some m ->
  exists s', s = whole m ++ s' /\ sem fl r s [] s' (groups m).
Proof.
unfold match_at. intros Hm.
apply run_sound in Hm as (s' & caps' & Hs & [= <-]). cbn [whole groups].
destruct (sem_suffix _ _ _ _ _ Hs) as (a & ->).
exists s'. rewrite consumed_app. auto.
Qed.

Lemma sub_from_skip r repl a post :
  sub_from fl r repl (a ++ post) (List.length a) = sub_from fl r repl post 0.
Proof.
induction a as [|x a IH]; [destruct post; reflexivity|exact IH].
Qed.

(** [re.sub] keeps what stands before the leftmost match, puts the
    replacement in its place and goes on after it. *)
Lemma sub_first_match r repl : forall s m,
  search fl r s = Some m -> whole m <> [] ->
  exists pre post,
    s = pre ++ whole m ++ post /\
    sem fl r (whole m ++ post) [] post (groups m) /\
    sub fl r repl s = pre ++ repl ++ sub fl r repl post.
Proof.
unfold sub. induction s as [|c s IH]; intros m.
- simpl. destruct (match_at fl r []) as [m'|] eqn:E; [|discriminate].
  intros [= ->] Hne. apply match_at_whole in E as (s' & E & _).
  destruct (whole m); [contradiction|discriminate].
- simpl. destruct (match_at fl r (c :: s)) as [m'|] eqn:E.
  + intros [= ->] Hne. apply match_at_whole in E as (s' & E & Hs).
    exists [], s'. rewrite <- E. split; [reflexivity|]. split; [exact Hs|].
    destruct (whole m) as [|x a]; [contradiction|].
    injection E as -> ->. cbn [List.length Nat.pred].
    rewrite sub_from_skip. reflexivity.
  + intros Hm Hne. destruct (IH m Hm Hne) as (pre & post & -> & Hs & ->).
    exists (c :: pre), post. auto.
Qed.
End Regions.

Section ReviewRegion.
Context `{Runtime}.

Lemma sem_review s s' caps' :
  sem DOTALL re_review s [] s' caps' <->
  exists mid post, s = review_heading ++ mid ++ s' /\
                   s' = integration_heading ++ post /\ caps' = [].
Proof.
unfold review_heading, integration_heading, re_review.
rewrite sem_seq. split.
- intros (s1 & c1 & Hl & Hs). apply sem_lit in Hl as [-> ->]; [|reflexivity].
  apply sem_seq in Hs as (s2 & c2 & (mid & -> & _ & ->) & [-> (s3 & Ha)]).
  apply sem_lit in Ha as [-> ->]; [|reflexivity]. eauto.
- intros (mid & post & -> & -> & ->).
  eexists _, []. split; [apply sem_lit; [reflexivity|split; reflexivity]|].
  apply sem_seq. eexists _, []. split.
  + exists mid. split; [reflexivity|]. split; [|reflexivity].
    clear. induction mid; [reflexivity|exact IHmid].
  + split; [reflexivity|]. exists post.
    apply sem_lit; [reflexivity|split; reflexivity].
Qed.

(** The heading that ends the region starts no match, and stays. *)
Lemma sub_review_keeps_integration repl post :
  sub DOTALL re_review repl (integration_heading ++ post) =
  integration_heading ++ sub DOTALL re_review repl post.
Proof.
assert (Hkeep : forall c s,
          strip_prefix review_heading (c :: s) = None ->
          sub_from DOTALL re_review repl (c :: s) 0 =
          c :: sub_from DOTALL re_review repl s 0).
{ intros c s Hn. simpl.
  destruct (match_at DOTALL re_review (c :: s)) as [m|] eqn:E; [|reflexivity].
  apply match_at_whole in E as (s' & _ & Hs).
  apply sem_review in Hs as (mid & p & E & _).
  assert (Hp : strip_prefix review_heading (c :: s) = Some (mid ++ s'))
    by (apply strip_prefix_app; exact E).
  congruence. }
unfold sub.
let v := eval vm_compute in integration_heading in
  assert (Ei : integration_heading = v) by (vm_compute; reflexivity).
let v := eval vm_compute in review_heading in
  assert (Er : review_heading = v) by (vm_compute; reflexivity).
rewrite Er in Hkeep. rewrite Ei. clear Ei Er. cbn [app].
repeat (rewrite Hkeep by reflexivity; f_equal).
Qed.
End ReviewRegion.

(** X17: the review section of the template is replaced.  Whenever the
    text that reaches the last substitution holds the review heading and
    somewhere after it the heading "## 🔄 Integration Status", the document
    is that text up to a review heading, then the generated review and
    its separator, then the heading "## 🔄 Integration Status" itself and
    what followed it (in which further regions are replaced alike). *)
Theorem review_region_replaced `{Runtime} self w template doc :
  fs w !! template_file = Some template ->
  generate_proof_file self w = Ok doc ->
  exists table review,
    generate_stage_summary self w = Ok table /\
    generate_engineer_review_prompts self w = Ok review /\
    forall a b c,
      sub DOTALL re_summary (table ++ [10%N]) (apply_replacements self w template)
        = a ++ review_heading ++ b ++ integration_heading ++ c ->
      exists pre mid post,
        sub DOTALL re_summary (table ++ [10%N]) (apply_replacements self w template)
          = pre ++ review_heading ++ mid ++ integration_heading ++ post /\
        doc = pre ++ review ++ review_separator ++ integration_heading ++
              sub DOTALL re_review (review ++ review_separator) post.
Proof.
intros Hf. unfold generate_proof_file. rewrite Hf.
destruct (generate_stage_summary self w) as [table|e]; [|discriminate].
destruct (generate_engineer_review_prompts self w) as [review|e]; [|discriminate].
unfold bind. intros Hdoc%Ok_inj. subst doc.
exists table, review. split; [reflexivity|]. split; [reflexivity|].
set (t1 := sub DOTALL re_summary (table ++ [10%N]) (apply_replacements self w template)).
intros a b c Ht1.
assert (Hsem : sem DOTALL re_review (review_heading ++ b ++ integration_heading ++ c)
                 [] (integration_heading ++ c) []).
{ apply sem_review. exists b, c. auto. }
destruct (search_complete DOTALL re_review a _ _ _ Hsem) as [m Hm].
rewrite <- Ht1 in Hm.
assert (Hsem' : exists pre rest s', t1 = pre ++ rest /\
                  sem DOTALL re_review rest [] s' (groups m) /\
                  whole m = consumed rest s')
  by (apply search_sound; exact Hm).
destruct Hsem' as (pre0 & rest0 & s0 & _ & Hs0 & Hw0).
apply sem_review in Hs0 as (mid0 & post0 & E0 & _ & _).
assert (Hne : whole m <> []).
{ rewrite Hw0, E0, !app_assoc, consumed_app.
  intros E. apply app_eq_nil in E as [E _].
  vm_compute in E. discriminate. }
destruct (sub_first_match DOTALL re_review (review ++ review_separator) t1 m Hm Hne)
  as (pre & post & E & Hs & Hsub).
apply sem_review in Hs as (mid & post' & Ew & -> & _).
pose proof (eq_trans Ew (app_assoc review_heading mid (integration_heading ++ post')))
  as Ew'.
clear Ew. apply app_inv_tail in Ew'. rename Ew' into Ew.
exists pre, mid, post'. split.
- rewrite E, Ew, <- !app_assoc. reflexivity.
- change (sub DOTALL re_review (review ++ review_separator) t1 =
          pre ++ review ++ review_separator ++ integration_heading ++
          sub DOTALL re_review (review ++ review_separator) post').
  rewrite Hsub, sub_review_keeps_integration, <- !app_assoc. reflexivity.
Qed.

Lemma review_region_replaced_witness :
  exists doc review,
    @generate_proof_file ascii_runtime (dotnet 7) world_review = Ok doc /\
    @generate_engineer_review_prompts ascii_runtime (dotnet 7) world_review = Ok review /\
    doc = u "# Stage 7

" ++ review ++ review_separator ++ u "## 🔄 Integration Status

All wired up.
".
Proof.
destruct (@generate_proof_file ascii_runtime (dotnet 7) world_review) as [doc|e] eqn:Ed;
  [|vm_compute in Ed; discriminate].
destruct (@review_region_replaced ascii_runtime (dotnet 7) world_review
            template_review doc ltac:(vm_compute; reflexivity) Ed)
  as (table & review & _ & Er & _).
exists doc, review. split; [reflexivity|]. split; [exact Er|].
vm_compute in Er. injection Er as <-. vm_compute in Ed. injection Ed as <-.
vm_compute. reflexivity.
Defined.

(** ** Leftmost matches and greedy runs *)

Section Leftmost.
Context `{Runtime}.
Variable fl : flags.

Lemma match_at_none r s :
  match_at fl r s = None -> forall s' caps, ~ sem fl r s [] s' caps.
Proof.
intros Hn s' caps Hs.
assert (Hm : is_Some (match_at fl r s)).
{ unfold match_at. eapply run_complete; [eassumption|]. eauto. }
rewrite Hn in Hm. destruct Hm as [? ?]. discriminate.
Qed.

(** [re.search] finds the match at the leftmost place where there is
    one. *)
Lemma search_leftmost r : forall s m,
  search fl r s = Some m ->
  exists pre rest,
    s = pre ++ rest /\ match_at fl r rest = Some m /\
    forall pre1 rest1, s = pre1 ++ rest1 ->
      (List.length pre1 < List.length pre)%nat -> match_at fl r rest1 = None.
Proof.
induction s as [|c s IH]; intros m; simpl.
- destruct (match_at fl r []) as [m'|] eqn:E; [|discriminate].
  intros [= ->]. exists [], []. split; [reflexivity|]. split; [exact E|].
  simpl. intros. lia.
- destruct (match_at fl r (c :: s)) as [m'|] eqn:E.
  + intros [= ->]. exists [], (c :: s). split; [reflexivity|]. split; [exact E|].
    simpl. intros. lia.
  + intros Hm. destruct (IH m Hm) as (pre & rest & -> & Hr & Hleft).
    exists (c :: pre), rest. split; [reflexivity|]. split; [exact Hr|].
    intros [|c1 pre1] rest1 E1 Hlen.
    * simpl in E1. subst rest1. exact E.
    * simpl in E1. injection E1 as <- E1. apply (Hleft pre1 rest1 E1).
      simpl in Hlen. lia.
Qed.

Lemma many_greedy_is_Some {R : Type} p (k : text -> option R) :
  (forall s', is_Some (k s')) -> forall s, is_Some (many_greedy p s k).
Proof.
intros Hk. induction s as [|y s IH]; simpl; [apply Hk|].
destruct (p y); [|apply Hk].
destruct IH as [r ->]. eauto.
Qed.

(** A greedy repetition before a continuation that cannot fail takes the
    whole run. *)
Lemma many_greedy_total {R : Type} p (k : text -> option R) :
  (forall s', is_Some (k s')) ->
  forall s x, many_greedy p s k = Some x ->
  exists a s', s = a ++ s' /\ forallb p a = true /\ k s' = Some x /\
               (forall y s'', s' = y :: s'' -> p y = false).
Proof.
intros Hk. induction s as [|y s IH]; intros x; simpl.
- intros Hx. exists [], []. repeat split; auto. intros; discriminate.
- destruct (p y) eqn:Ey.
  + destruct (many_greedy_is_Some p k Hk s) as [r Hr]. rewrite Hr.
    intros [= <-]. destruct (IH r Hr) as (a & s' & -> & Ha & Hks & Hmax).
    exists (y :: a), s'. simpl. rewrite Ey, Ha. auto.
  + intros Hx. exists [], (y :: s). repeat split; auto.
    intros y' s'' [= <- <-]. exact Ey.
Qed.

Lemma run_seq {R : Type} r1 r2 s caps (k : text -> list text -> option R) :
  run fl (r1 +++ r2) s caps k =
  run fl r1 s caps (fun s' caps' => run fl r2 s' caps' k).
Proof. reflexivity. Qed.

(** A group of one or more characters of a class at the end of a
    pattern captures the whole run. *)
Lemma run_group_plus_total {R : Type} c s caps (k : text -> list text -> option R) x :
  (forall s' caps', is_Some (k s' caps')) ->
  run fl (Group (Plus c)) s caps k = Some x ->
  exists a s', s = a ++ s' /\ a <> [] /\ forallb (in_cls fl c) a = true /\
               k s' (caps ++ [a]) = Some x /\
               (forall y s'', s' = y :: s'' -> in_cls fl c y = false).
Proof.
intros Hk. simpl. destruct s as [|y s]; [discriminate|].
destruct (in_cls fl c y) eqn:Ey; [|discriminate].
intros Hx.
apply (many_greedy_total (in_cls fl c)
         (fun s' => k s' (caps ++ [consumed (y :: s) s']))) in Hx
  as (a & s' & -> & Ha & Hks & Hmax); [|intros; apply Hk].
exists (y :: a), s'. change (y :: a ++ s') with ((y :: a) ++ s') in Hks.
rewrite consumed_app in Hks. simpl. rewrite Ey, Ha.
repeat split; auto; discriminate.
Qed.
End Leftmost.

Section FirstFacts.
Context `{Runtime}.

Lemma match_at_labelled_count l s m :
  match_at no_flags (Lit l +++ Plus Space +++ Group (Plus Digit)) s = Some m ->
  exists ws ds post,
    s = l ++ ws ++ ds ++ post /\ is_spaces ws /\ is_digits ds /\
    groups m = [ds] /\
    (forall y post', post = y :: post' -> is_digit y = false).
Proof.
unfold match_at. rewrite run_seq. intros Hm.
apply run_sound in Hm as (s1 & c1 & Hl & Hm).
apply sem_lit in Hl as [-> ->]; [|reflexivity].
rewrite run_seq in Hm. apply run_sound in Hm as (s2 & c2 & Hp & Hm).
apply sem_plus in Hp as (ws & Hne & -> & Hws & ->).
apply run_group_plus_total in Hm as (ds & post & -> & Hd & Hds & [= <-] & Hmax);
  [|eauto].
exists ws, ds, post. repeat split; auto.
Qed.

Lemma starts_count_sem l rest :
  starts_count l rest <->
  exists s' caps, sem no_flags (Lit l +++ Plus Space +++ Group (Plus Digit)) rest [] s' caps.
Proof.
split.
- intros (ws & ds & post & -> & Hws & Hds).
  exists post, [ds]. apply sem_labelled_count. exists ws, ds. auto.
- intros (s' & caps & Hs). apply sem_labelled_count in Hs as (ws & ds & -> & ? & ? & _).
  exists ws, ds, s'. auto.
Qed.

(** The count that [re.search] captures after a label. *)
Lemma search_first_count l content m :
  search no_flags (Lit l +++ Plus Space +++ Group (Plus Digit)) content = Some m ->
  first_count l content (group 1 m).
Proof.
intros Hm. apply search_leftmost in Hm as (pre & rest & -> & Hr & Hleft).
apply match_at_labelled_count in Hr as (ws & ds & post & -> & Hws & Hds & Hg & Hmax).
unfold group. rewrite Hg. cbn [Nat.pred nth].
exists pre, ws, post. repeat split; try assumption; try apply Hws; try apply Hds.
intros pre1 rest1 E Hlen Hs. apply starts_count_sem in Hs as (s' & caps & Hs).
exact (match_at_none _ _ _ (Hleft pre1 rest1 E Hlen) s' caps Hs).
Qed.

Lemma starts_counted_sem l rest :
  starts_counted l rest <->
  exists s' caps, sem no_flags (Group (Plus Digit) +++ Lit l) rest [] s' caps.
Proof.
split.
- intros (ds & post & -> & Hds).
  exists post, [ds]. apply sem_counted. exists ds. auto.
- intros (s' & caps & Hs). apply sem_counted in Hs as (ds & -> & ? & _).
  exists ds, s'. auto.
Qed.

(** The count that [re.search] captures before a suffix. *)
Lemma search_first_counted l content m :
  search no_flags (Group (Plus Digit) +++ Lit l) content = Some m ->
  first_counted l content (group 1 m).
Proof.
intros Hm. apply search_leftmost in Hm as (pre & rest & -> & Hr & Hleft).
apply match_at_sem in Hr as (s' & Hs).
apply sem_counted in Hs as (ds & -> & Hds & Hg).
unfold group. rewrite Hg. cbn [Nat.pred nth].
exists pre, s'. split; [reflexivity|]. split; [exact Hds|].
intros pre1 rest1 E Hlen Hs. apply starts_counted_sem in Hs as (s1 & caps & Hs).
exact (match_at_none _ _ _ (Hleft pre1 rest1 E Hlen) s1 caps Hs).
Qed.

Lemma starts_tests_phrase_sem rest :
  (exists p t, starts_tests_phrase p t rest) <->
  exists s' caps, sem no_flags re_tests rest [] s' caps.
Proof.
split.
- intros (p & t & w1 & w2 & w3 & w4 & post & -> & ?).
  exists post, [p; t]. apply sem_tests_phrase. exists w1, p, w2, w3, t, w4.
  intuition.
- intros (s' & caps & Hs).
  apply sem_tests_phrase in Hs as (w1 & p & w2 & w3 & t & w4 & -> & ? & ? & ? & ? & ? & ? & _).
  exists p, t, w1, w2, w3, w4, s'. auto 10.
Qed.

(** The two counts that [re.search] captures in the phrase of the
    TypeScript test runners. *)
Lemma search_first_tests_phrase content m :
  search no_flags re_tests content = Some m ->
  first_tests_phrase content (group 1 m) (group 2 m).
Proof.
intros Hm. apply search_leftmost in Hm as (pre & rest & -> & Hr & Hleft).
apply match_at_sem in Hr as (s' & Hs).
apply sem_tests_phrase in Hs
  as (w1 & p & w2 & w3 & t & w4 & -> & ? & ? & ? & ? & ? & ? & Hg).
unfold group. rewrite Hg. cbn [Nat.pred nth].
exists pre, (u "Tests:" ++ w1 ++ p ++ w2 ++ u "passed," ++ w3 ++ t ++ w4 ++
             u "total" ++ s').
split; [reflexivity|]. split; [exists w1, w2, w3, w4, s'; auto 10|].
intros pre1 rest1 E Hlen p1 t1 Hs.
assert (Hex : exists p t, starts_tests_phrase p t rest1) by eauto.
apply starts_tests_phrase_sem in Hex as (s1 & caps & Hs1).
exact (match_at_none _ _ _ (Hleft pre1 rest1 E Hlen) s1 caps Hs1).
Qed.
End FirstFacts.

(** ** The captured counts are determined by the text *)

Lemma run_unique (p : char -> bool) : forall a b x y,
  forallb p a = true -> forallb p b = true -> a ++ x = b ++ y ->
  (forall c x', x = c :: x' -> p c = false) ->
  (forall c y', y = c :: y' -> p c = false) ->
  a = b /\ x = y.
Proof.
induction a as [|c a IH]; intros [|d b] x y Ha Hb E Hx Hy; simpl in *.
- auto.
- apply andb_true_iff in Hb as [Hd _]. rewrite (Hx d _ E) in Hd. discriminate.
- apply andb_true_iff in Ha as [Hc _]. rewrite (Hy c _ (eq_sym E)) in Hc.
  discriminate.
- apply andb_true_iff in Ha as [_ Ha]. apply andb_true_iff in Hb as [_ Hb].
  injection E as -> E. destruct (IH b x y Ha Hb E Hx Hy) as [-> ->]. auto.
Qed.

Section Uniqueness.
Context `{Runtime}.
Hypothesis Hplain : plain_classes.

Lemma digit_not_space ds post c x' :
  is_digits ds -> ds ++ post = c :: x' -> re_space c = false.
Proof.
intros [Hne Hds] E. destruct ds as [|d ds]; [contradiction|].
injection E as <- _. simpl in Hds. apply andb_true_iff in Hds as [Hd _].
destruct (re_space d) eqn:Es; [|reflexivity].
rewrite (proj1 Hplain d Es) in Hd. discriminate.
Qed.

Lemma space_not_digit ws post c x' :
  is_spaces ws -> ws ++ post = c :: x' -> is_digit c = false.
Proof.
intros [Hne Hws] E. destruct ws as [|d ws]; [contradiction|].
injection E as <- _. simpl in Hws. apply andb_true_iff in Hws as [Hd _].
apply (proj1 Hplain), Hd.
Qed.

(** Where no whitespace is a digit, the first count after a label is
    unique. *)
Lemma first_count_unique label content ds ds' :
  first_count label content ds -> first_count label content ds' -> ds = ds'.
Proof.
intros (pre & ws & post & E & Hws & Hds & Hmax & Hleft)
       (pre' & ws' & post' & E' & Hws' & Hds' & Hmax' & Hleft').
assert (Hlen : List.length pre = List.length pre').
{ destruct (Nat.lt_trichotomy (List.length pre) (List.length pre')) as [Hlt|[Heq|Hlt]];
    [|exact Heq|].
  - destruct (Hleft' pre _ E Hlt). exists ws, ds, post. auto.
  - destruct (Hleft pre' _ E' Hlt). exists ws', ds', post'. auto. }
rewrite E in E'. apply app_inj_1 in E' as [_ E']; [|exact Hlen].
apply app_inv_head in E'.
apply (run_unique re_space) in E' as [_ E'];
  [|apply Hws|apply Hws'
   |intros c x' Ex; exact (digit_not_space _ _ _ _ Hds Ex)
   |intros c x' Ex; exact (digit_not_space _ _ _ _ Hds' Ex)].
apply (run_unique is_digit) in E' as [E' _];
  [exact E'|apply Hds|apply Hds'|exact Hmax|exact Hmax'].
Qed.

(** Where the suffix starts with a character that is not a digit, the
    first count before it is unique. *)
Lemma first_counted_unique c0 suffix content ds ds' :
  is_digit c0 = false ->
  first_counted (c0 :: suffix) content ds ->
  first_counted (c0 :: suffix) content ds' -> ds = ds'.
Proof.
intros Hc (pre & post & E & Hds & Hleft) (pre' & post' & E' & Hds' & Hleft').
assert (Hlen : List.length pre = List.length pre').
{ destruct (Nat.lt_trichotomy (List.length pre) (List.length pre')) as [Hlt|[Heq|Hlt]];
    [|exact Heq|].
  - destruct (Hleft' pre _ E Hlt). exists ds, post. auto.
  - destruct (Hleft pre' _ E' Hlt). exists ds', post'. auto. }
rewrite E in E'. apply app_inj_1 in E' as [_ E']; [|exact Hlen].
apply (run_unique is_digit) in E' as [E' _];
  [exact E'|apply Hds|apply Hds'
   |intros c x' [= <- _]; exact Hc|intros c x' [= <- _]; exact Hc].
Qed.

(** The two counts of the first phrase of the TypeScript test runners
    are unique. *)
Lemma first_tests_phrase_unique content p t p' t' :
  first_tests_phrase content p t -> first_tests_phrase content p' t' ->
  p = p' /\ t = t'.
Proof.
destruct Hplain as (_ & _ & Hp & Ht).
intros (pre & rest & E & Hs & Hleft) (pre' & rest' & E' & Hs' & Hleft').
assert (Hlen : List.length pre = List.length pre').
{ destruct (Nat.lt_trichotomy (List.length pre) (List.length pre')) as [Hlt|[Heq|Hlt]];
    [|exact Heq|].
  - destruct (Hleft' pre _ E Hlt _ _ Hs).
  - destruct (Hleft pre' _ E' Hlt _ _ Hs'). }
rewrite E in E'. apply app_inj_1 in E' as [_ <-]; [|exact Hlen].
destruct Hs as (w1 & w2 & w3 & w4 & post & -> & H1 & H2 & H3 & H4 & H5 & H6).
destruct Hs' as (w1' & w2' & w3' & w4' & post' & E' & H1' & H2' & H3' & H4' & H5' & H6').
apply app_inv_head in E'.
apply (run_unique re_space) in E' as [_ E'];
  [|apply H1|apply H1'
   |intros c x' Ex; exact (digit_not_space _ _ _ _ H2 Ex)
   |intros c x' Ex; exact (digit_not_space _ _ _ _ H2' Ex)].
apply (run_unique is_digit) in E' as [Ep E'];
  [|apply H2|apply H2'
   |intros c x' Ex; exact (space_not_digit _ _ _ _ H3 Ex)
   |intros c x' Ex; exact (space_not_digit _ _ _ _ H3' Ex)].
apply (run_unique re_space) in E' as [_ E'];
  [|apply H3|apply H3'
   |intros c x' [= <- _]; exact Hp|intros c x' [= <- _]; exact Hp].
apply app_inv_head in E'.
apply (run_unique re_space) in E' as [_ E'];
  [|apply H4|apply H4'
   |intros c x' Ex; exact (digit_not_space _ _ _ _ H5 Ex)
   |intros c x' Ex; exact (digit_not_space _ _ _ _ H5' Ex)].
apply (run_unique is_digit) in E' as [Et E'];
  [|apply H5|apply H5'
   |intros c x' Ex; exact (space_not_digit _ _ _ _ H6 Ex)
   |intros c x' Ex; exact (space_not_digit _ _ _ _ H6' Ex)].
auto.
Qed.
End Uniqueness.

Lemma ascii_plain_classes : @plain_classes ascii_runtime.
Proof.
split; [|repeat split; reflexivity].
intros c Hc. unfold is_digit. simpl in *.
apply bool_decide_eq_false. intros [d Hd].
destruct ((48 <=? c) && (c <=? 57))%N eqn:E; [|discriminate].
apply andb_true_iff in E as [E1 E2]. apply N.leb_le in E1, E2.
apply orb_true_iff in Hc as [Hc|Hc]; apply andb_true_iff in Hc as [H1 H2];
  apply N.leb_le in H1, H2; lia.
Qed.

(** ** Test counts of the dotnet variant *)

(** C1, as stated, fails: a log with "Passed: 5" and "Total: 5" but no
    "Failed: N" yields a full record, whose [failed] is "0". *)
Lemma C1_counterexample :
  @extract_test_results ascii_runtime (dotnet 1) world_no_failed
    = Some {| passed := u "5"; total := u "5"; failed := u "0"; status := PASS |}
  /\ ~ @has_count ascii_runtime (u "Failed:") log_no_failed.
Proof.
  split; [vm_compute; reflexivity|].
  intros Hc. apply search_labelled_count in Hc as [m Hm].
  vm_compute in Hm. discriminate.
Qed.

(** C1, amended: for the dotnet variant a record is returned exactly when
    "Passed: N" and "Total: N" are both found in the artifact text.  Its
    [passed] and [total] are the counts captured at the first such place
    (the whole run of digits there), and its [failed] is the count
    captured at the first "Failed: N" when there is one and "0"
    otherwise.  Where whitespace and digits are apart, as in Python, the
    three counts are the only texts of this description. *)
Theorem C1_dotnet_tests_need_passed_and_total `{Runtime} self w content :
  tech_stack self = u "dotnet" ->
  fs w !! tests_file = Some content ->
  (is_Some (extract_test_results self w) <->
     has_count (u "Passed:") content /\ has_count (u "Total:") content) /\
  (forall r, extract_test_results self w = Some r ->
     first_count (u "Passed:") content (passed r) /\
     first_count (u "Total:") content (total r) /\
     (has_count (u "Failed:") content ->
      first_count (u "Failed:") content (failed r)) /\
     (~ has_count (u "Failed:") content -> failed r = u "0") /\
     (plain_classes ->
      (forall p, first_count (u "Passed:") content p -> p = passed r) /\
      (forall t, first_count (u "Total:") content t -> t = total r) /\
      (forall f, first_count (u "Failed:") content f -> f = failed r))).
Proof.
  intros Ht Hf. unfold extract_test_results.
  change (gate_file "gate-5-tests.txt") with tests_file. rewrite Hf.
  rewrite (is_dotnet_true _ Ht).
  pose proof (search_labelled_count (u "Passed:") content) as Hp.
  pose proof (search_labelled_count (u "Total:") content) as Htot.
  pose proof (search_labelled_count (u "Failed:") content) as Hfail.
  pose proof (search_first_count (u "Passed:") content) as Gp.
  pose proof (search_first_count (u "Total:") content) as Gt.
  pose proof (search_first_count (u "Failed:") content) as Gf.
  fold re_passed in Hp, Gp. fold re_total in Htot, Gt. fold re_failed in Hfail, Gf.
  destruct (search no_flags re_passed content) as [m|];
    destruct (search no_flags re_total content) as [tm|].
  - split.
    + split; [intros _|eauto]. split; [apply Hp|apply Htot]; eauto.
    + intros r [= <-]. cbn [passed total failed].
      split; [eauto|]. split; [eauto|].
      destruct (search no_flags re_failed content) as [fm|].
      * split; [eauto|]. split.
        -- intros Hn. destruct Hn. apply Hfail. eauto.
        -- intros Hpl. repeat split; intros x Hx;
             eapply (first_count_unique Hpl); eauto.
      * split; [intros Hc; apply Hfail in Hc as [? ?]; discriminate|].
        split; [reflexivity|].
        intros Hpl. repeat split; intros x Hx;
          try (eapply (first_count_unique Hpl); eauto; fail).
        destruct Hx as (pre & ws & post & E & Hws & Hds & _).
        assert (Hc : has_count (u "Failed:") content)
          by (exists pre, ws, x, post; auto).
        apply Hfail in Hc as [? ?]. discriminate.
  - split; [|discriminate]. split; [intros [? ?]; discriminate|].
    intros [_ Hc]. apply Htot in Hc as [? ?]. discriminate.
  - split; [|discriminate]. split; [intros [? ?]; discriminate|].
    intros [Hc _]. apply Hp in Hc as [? ?]. discriminate.
  - split; [|discriminate]. split; [intros [? ?]; discriminate|].
    intros [Hc _]. apply Hp in Hc as [? ?]. discriminate.
Qed.

Lemma C1_witness :
  tech_stack (dotnet 1) = u "dotnet" /\
  fs world_summary_line !! tests_file = Some log_summary_line /\
  @extract_test_results ascii_runtime (dotnet 1) world_summary_line =
    Some {| passed := u "41"; total := u "42"; failed := u "1"; status := FAIL |} /\
  @first_count ascii_runtime (u "Passed:") log_summary_line (u "41") /\
  (forall p, @first_count ascii_runtime (u "Passed:") log_summary_line p -> p = u "41").
Proof.
  assert (Hf : fs world_summary_line !! tests_file = Some log_summary_line)
    by (vm_compute; reflexivity).
  assert (Hr : @extract_test_results ascii_runtime (dotnet 1) world_summary_line =
    Some {| passed := u "41"; total := u "42"; failed := u "1"; status := FAIL |})
    by (vm_compute; reflexivity).
  split; [reflexivity|]. split; [exact Hf|]. split; [exact Hr|].
  destruct (proj2 (@C1_dotnet_tests_need_passed_and_total ascii_runtime (dotnet 1)
                     world_summary_line log_summary_line eq_refl Hf) _ Hr)
    as (Hp & _ & _ & _ & Hu).
  split; [exact Hp|]. exact (proj1 (Hu ascii_plain_classes)).
Defined.

(** ** The build counts of the dotnet variant *)

(** C7, as stated, fails: a warning count written "00" is zero, and the
    build status is fail. *)
Lemma C7_counterexample :
  exists b, @extract_build_info ascii_runtime (dotnet 1) world_00_warnings = Some b
            /\ ~ @BuildMetrics_rule ascii_runtime b.
Proof.
eexists. split; [vm_compute; reflexivity|].
intros (n & Hn & Hiff). vm_compute in Hn. injection Hn as <-.
destruct Hiff as [Hfail _]. apply Hfail; reflexivity.
Qed.

(** C7, amended: for the dotnet variant the build metric is present
    exactly when both "N Warning(s)" and "N Error(s)" are found; its
    warnings and errors are the counts at the first place where such a
    count starts, and the status is fail exactly when the captured
    warning count is not the text "0", whatever the error count is.  For
    a warning count written in ASCII digits without leading zeros this is
    exactly when the count is not zero.  Where the space is not a digit,
    the two counts are the only texts of this description. *)
Theorem C7_dotnet_build_status `{Runtime} self w content :
  tech_stack self = u "dotnet" ->
  fs w !! build_file = Some content ->
  (is_Some (extract_build_info self w) <->
     has_counted (u " Warning(s)") content /\ has_counted (u " Error(s)") content) /\
  (forall b, extract_build_info self w = Some b ->
     exists ws es,
       warnings b = Some ws /\ errors b = Some es /\
       first_counted (u " Warning(s)") content ws /\
       first_counted (u " Error(s)") content es /\
       (build_status b = FAIL <-> ws <> u "0") /\
       (build_status b = PASS <-> ws = u "0") /\
       (ascii_digits_ok -> canonical ws ->
        (build_status b = FAIL <-> py_int ws <> Some 0%Z)) /\
       (plain_classes ->
        (forall x, first_counted (u " Warning(s)") content x -> x = ws) /\
        (forall x, first_counted (u " Error(s)") content x -> x = es))).
Proof.
intros Ht Hf. unfold extract_build_info.
change (gate_file "gate-3-build.txt") with build_file. rewrite Hf.
rewrite (is_dotnet_true _ Ht).
pose proof (search_counted (u " Warning(s)") content) as Hw.
pose proof (search_counted (u " Error(s)") content) as He.
pose proof (search_first_counted (u " Warning(s)") content) as Gw.
pose proof (search_first_counted (u " Error(s)") content) as Ge.
fold re_warnings in Hw, Gw. fold re_errors in He, Ge.
destruct (search no_flags re_warnings content) as [wm|];
  destruct (search no_flags re_errors content) as [em|].
- split.
  + split; [intros _|eauto]. split; [apply Hw|apply He]; eauto.
  + intros b [= <-]. exists (group 1 wm), (group 1 em).
    cbn [warnings errors build_status].
    assert (Hs : (if text_eqb (group 1 wm) (u "0") then PASS else FAIL) = FAIL
                 <-> group 1 wm <> u "0").
    { destruct (text_eqb (group 1 wm) (u "0")) eqn:E.
      - apply text_eqb_eq in E. split.
        + intros Hx. destruct (PASS_neq_FAIL Hx).
        + intros Hn. contradiction.
      - apply text_eqb_neq in E. split; auto. }
    split; [reflexivity|]. split; [reflexivity|].
    split; [eauto|]. split; [eauto|]. split; [exact Hs|]. split; [|split].
    * destruct (text_eqb (group 1 wm) (u "0")) eqn:E.
      -- apply text_eqb_eq in E. split; auto.
      -- apply text_eqb_neq in E. split.
         ++ intros Hx. symmetry in Hx. destruct (PASS_neq_FAIL Hx).
         ++ intros Hx. contradiction.
    * intros Hok Hcan. rewrite Hs.
      pose proof (canonical_zero _ Hok Hcan) as Hz.
      split; intros Hx Hy; apply Hx; apply Hz; exact Hy.
    * intros Hpl. destruct Hpl as (_ & H32 & _).
      assert (E1 : u " Warning(s)" = 32%N :: u "Warning(s)") by reflexivity.
      assert (E2 : u " Error(s)" = 32%N :: u "Error(s)") by reflexivity.
      specialize (Gw _ eq_refl). specialize (Ge _ eq_refl).
      rewrite E1 in Gw |- *. rewrite E2 in Ge |- *.
      split; intros x Hx.
      -- exact (first_counted_unique _ _ _ _ _ H32 Hx Gw).
      -- exact (first_counted_unique _ _ _ _ _ H32 Hx Ge).
- split; [|discriminate]. split; [intros [? ?]; discriminate|].
  intros [_ Hc]. apply He in Hc as [? ?]. discriminate.
- split; [|discriminate]. split; [intros [? ?]; discriminate|].
  intros [Hc _]. apply Hw in Hc as [? ?]. discriminate.
- split; [|discriminate]. split; [intros [? ?]; discriminate|].
  intros [Hc _]. apply Hw in Hc as [? ?]. discriminate.
Qed.

Lemma C7_witness :
  tech_stack (dotnet 1) = u "dotnet" /\
  fs world_two_counts !! build_file = Some log_two_counts /\
  @extract_build_info ascii_runtime (dotnet 1) world_two_counts =
    Some {| warnings := Some (u "12"); errors := Some (u "3");
            build_status := FAIL |} /\
  @first_counted ascii_runtime (u " Warning(s)") log_two_counts (u "12") /\
  (forall x, @first_counted ascii_runtime (u " Warning(s)") log_two_counts x ->
             x = u "12").
Proof.
assert (Hf : fs world_two_counts !! build_file = Some log_two_counts)
  by (vm_compute; reflexivity).
assert (Hb : @extract_build_info ascii_runtime (dotnet 1) world_two_counts =
    Some {| warnings := Some (u "12"); errors := Some (u "3");
            build_status := FAIL |}) by (vm_compute; reflexivity).
split; [reflexivity|]. split; [exact Hf|]. split; [exact Hb|].
destruct (proj2 (@C7_dotnet_build_status ascii_runtime (dotnet 1)
                   world_two_counts log_two_counts eq_refl Hf) _ Hb)
  as (ws & es & Ew & _ & Hw & _ & _ & _ & _ & Hu).
cbn [warnings] in Ew. injection Ew as <-.
split; [exact Hw|]. exact (proj1 (Hu ascii_plain_classes)).
Defined.

(** ** The test phrase of the TypeScript variant *)

(** X1: for every tech stack other than "dotnet", test extraction returns
    a record exactly when the text holds "Tests: P passed, T total"; the
    record then has the two counts of the first such phrase, in this
    order, zero failures and the status pass, whatever else the text
    says.  Where whitespace, digits and letters are apart, as in Python,
    the two counts are the only texts of this description. *)
Theorem typescript_tests_phrase `{Runtime} self w content :
  tech_stack self <> u "dotnet" ->
  fs w !! tests_file = Some content ->
  (is_Some (extract_test_results self w) <-> has_tests_phrase content) /\
  (forall r, extract_test_results self w = Some r ->
     first_tests_phrase content (passed r) (total r) /\
     failed r = u "0" /\ status r = PASS /\
     (plain_classes -> forall p t,
        first_tests_phrase content p t -> p = passed r /\ t = total r)).
Proof.
intros Ht Hf. unfold extract_test_results.
change (gate_file "gate-5-tests.txt") with tests_file. rewrite Hf.
rewrite (is_dotnet_false _ Ht).
pose proof (search_first_tests_phrase content) as Hfirst.
destruct (search no_flags re_tests content) as [m|] eqn:E.
- specialize (Hfirst m eq_refl). split.
  + split; [intros _|eauto].
    destruct Hfirst as (pre & rest & -> & (w1 & w2 & w3 & w4 & post & -> & ?) & _).
    exists pre, w1, (group 1 m), w2, w3, (group 2 m), w4, post. auto 10.
  + intros r [= <-]. cbn [passed total failed status].
    split; [exact Hfirst|]. split; [reflexivity|]. split; [reflexivity|].
    intros Hpl p t Hpt. exact (first_tests_phrase_unique Hpl _ _ _ _ _ Hpt Hfirst).
- split; [|discriminate]. split; [intros [? ?]; discriminate|].
  intros (pre & w1 & p & w2 & w3 & t & w4 & post & -> & ? & ? & ? & ? & ? & ?).
  exfalso. eapply (search_none _ _ pre _ post [p; t] E).
  apply sem_tests_phrase. exists w1, p, w2, w3, t, w4. auto 10.
Qed.

Lemma typescript_tests_phrase_witness :
  tech_stack (typescript 9) <> u "dotnet" /\
  fs world_jest !! tests_file = Some log_jest /\
  @extract_test_results ascii_runtime (typescript 9) world_jest =
    Some {| passed := u "40"; total := u "42"; failed := u "0"; status := PASS |} /\
  @first_tests_phrase ascii_runtime log_jest (u "40") (u "42") /\
  (is_Some (@extract_test_results ascii_runtime (typescript 9) world_jest) <->
   @has_tests_phrase ascii_runtime log_jest).
Proof.
assert (Ht : tech_stack (typescript 9) <> u "dotnet") by discriminate.
assert (Hf : fs world_jest !! tests_file = Some log_jest) by (vm_compute; reflexivity).
assert (Hr : @extract_test_results ascii_runtime (typescript 9) world_jest =
    Some {| passed := u "40"; total := u "42"; failed := u "0"; status := PASS |})
  by (vm_compute; reflexivity).
split; [exact Ht|]. split; [exact Hf|]. split; [exact Hr|].
destruct (@typescript_tests_phrase ascii_runtime (typescript 9) world_jest log_jest
            Ht Hf) as [Hiff Hrec].
split; [|exact Hiff].
exact (proj1 (Hrec _ Hr)).
Defined.

(** ** Absent metrics *)

Section Absence.
Context `{Runtime}.
Variable self : ProofGenerator.
Variable w : world.

Lemma search_tests_phrase content :
  is_Some (search no_flags re_tests content) <-> has_tests_phrase content.
Proof.
split.
- intros [m Hm]. apply search_sound in Hm as (pre & rest & s' & -> & Hs & _).
  apply sem_tests_phrase in Hs
    as (w1 & p & w2 & w3 & t & w4 & -> & ? & ? & ? & ? & ? & ? & _).
  exists pre, w1, p, w2, w3, t, w4, s'. auto 10.
- intros (pre & w1 & p & w2 & w3 & t & w4 & post & -> & ? & ? & ? & ? & ? & ?).
  apply (search_complete _ _ pre _ post [p; t]).
  apply sem_tests_phrase. exists w1, p, w2, w3, t, w4. auto 10.
Qed.

Lemma search_line_coverage content :
  is_Some (search no_flags re_line_coverage content) <->
  exists c, has_line_coverage c content.
Proof.
split.
- intros [m Hm]. apply search_sound in Hm as (pre & rest & s' & -> & Hs & _).
  apply sem_line_coverage in Hs as (ws & ds & -> & ? & ? & _).
  exists ds, pre, ws, s'. auto.
- intros (c & pre & ws & post & -> & ? & ?).
  apply (search_complete _ _ pre _ post [c]).
  apply sem_line_coverage. exists ws, c. auto.
Qed.

Lemma search_all_files content :
  is_Some (search no_flags re_all_files content) <->
  exists c, has_all_files_row c content.
Proof.
split.
- intros [m Hm]. apply search_sound in Hm as (pre & rest & s' & -> & Hs & _).
  apply sem_all_files in Hs as (mid & ws & ds & -> & ? & ? & ? & _).
  exists ds, pre, mid, ws, s'. auto.
- intros (c & pre & mid & ws & post & -> & ? & ? & ?).
  apply (search_complete _ _ pre _ post [c]).
  apply sem_all_files. exists mid, ws, c. auto.
Qed.

Lemma extract_test_results_none :
  extract_test_results self w = None <-> tests_missed self w.
Proof.
unfold extract_test_results, tests_missed.
change (gate_file "gate-5-tests.txt") with tests_file.
destruct (fs w !! tests_file) as [content|]; [|tauto].
destruct (is_dotnet self).
- pose proof (search_labelled_count (u "Passed:") content) as Hp.
  pose proof (search_labelled_count (u "Total:") content) as Ht.
  fold re_passed in Hp. fold re_total in Ht.
  rewrite <- Hp, <- Ht.
  destruct (search no_flags re_passed content);
    destruct (search no_flags re_total content); split;
    try discriminate; try reflexivity.
  + intros Hn. destruct Hn. split; eauto.
  + intros _ [_ [? ?]]. discriminate.
  + intros _ [[? ?] _]. discriminate.
  + intros _ [[? ?] _]. discriminate.
- rewrite <- search_tests_phrase.
  destruct (search no_flags re_tests content); split;
    try discriminate; try reflexivity.
  + intros Hn. destruct Hn. eauto.
  + intros _ [? ?]. discriminate.
Qed.

Lemma extract_coverage_none :
  extract_coverage w = None <-> coverage_missed w.
Proof.
unfold extract_coverage, coverage_missed.
change (gate_file "gate-6-coverage.txt") with coverage_file.
destruct (fs w !! coverage_file) as [content|]; [|tauto].
pose proof (search_line_coverage content) as H1.
pose proof (search_all_files content) as H2.
destruct (search no_flags re_line_coverage content) as [m|].
- split; [discriminate|]. intros [Hn _]. destruct (proj1 H1) as [c Hc]; [eauto|].
  destruct (Hn c Hc).
- destruct (search no_flags re_all_files content) as [m|].
  + split; [discriminate|]. intros [_ Hn]. destruct (proj1 H2) as [c Hc]; [eauto|].
    destruct (Hn c Hc).
  + split; [|reflexivity]. intros _. split; intros c Hc.
    * destruct (proj2 H1) as [? ?]; [eauto|discriminate].
    * destruct (proj2 H2) as [? ?]; [eauto|discriminate].
Qed.

Lemma extract_build_info_none :
  extract_build_info self w = None <-> build_missed self w.
Proof.
unfold extract_build_info, build_missed.
change (gate_file "gate-3-build.txt") with build_file.
destruct (fs w !! build_file) as [content|]; [|tauto].
destruct (is_dotnet self).
- pose proof (search_counted (u " Warning(s)") content) as Hw.
  pose proof (search_counted (u " Error(s)") content) as He.
  fold re_warnings in Hw. fold re_errors in He.
  rewrite <- Hw, <- He.
  destruct (search no_flags re_warnings content);
    destruct (search no_flags re_errors content); split;
    try discriminate; try (intros _; split; [reflexivity|]); try reflexivity.
  + intros [_ Hn]. destruct Hn. split; eauto.
  + intros [_ [? ?]]. discriminate.
  + intros [[? ?] _]. discriminate.
  + intros [[? ?] _]. discriminate.
- destruct (contains (u "error") (lower content) &&
            negb (contains (u "0 errors") (lower content)));
    (split; [discriminate|intros [? _]; discriminate]).
Qed.

Lemma extract_vulnerabilities_none :
  extract_vulnerabilities w = None <-> vulnerabilities_missed w.
Proof.
unfold extract_vulnerabilities, vulnerabilities_missed.
change (gate_file "gate-7-security.txt") with security_file.
destruct (fs w !! security_file) as [content|]; [|tauto].
destruct (_ || _); split; discriminate.
Qed.

Lemma test_status_cases t :
  extract_test_results self w = Some t -> status t = PASS \/ status t = FAIL.
Proof.
unfold extract_test_results.
destruct (fs w !! gate_file "gate-5-tests.txt") as [content|]; [|discriminate].
destruct (is_dotnet self).
- destruct (search no_flags re_passed content); [|discriminate].
  destruct (search no_flags re_total content); [|discriminate].
  intros [= <-]. cbn [status]. destruct (text_eqb _ _); auto.
- destruct (search no_flags re_tests content); [|discriminate].
  intros [= <-]. auto.
Qed.

Lemma build_status_cases b :
  extract_build_info self w = Some b ->
  build_status b = PASS \/ build_status b = FAIL.
Proof.
unfold extract_build_info.
destruct (fs w !! gate_file "gate-3-build.txt") as [content|]; [|discriminate].
destruct (is_dotnet self).
- destruct (search no_flags re_warnings content); [|discriminate].
  destruct (search no_flags re_errors content); [|discriminate].
  intros [= <-]. cbn [build_status]. destruct (text_eqb _ _); auto.
- destruct (_ && _); intros [= <-]; auto.
Qed.
Lemma extract_vulnerabilities_no_token content :
  fs w !! security_file = Some content -> ~ has_severity_token content ->
  extract_vulnerabilities w = Some (u "0").
Proof.
intros Hf Hn. unfold extract_vulnerabilities.
change (gate_file "gate-7-security.txt") with security_file. rewrite Hf.
destruct (_ || _); [reflexivity|]. f_equal.
apply str_of_nat_zero.
apply (count_matches_zero IGNORECASE re_severity content eq_refl).
apply search_severity_none, Hn.
Qed.

Lemma build_info_other content :
  fs w !! build_file = Some content -> is_dotnet self = false ->
  exists st, extract_build_info self w =
               Some {| warnings := None; errors := None; build_status := st |} /\
             (st = PASS \/ st = FAIL).
Proof.
intros Hf Hd. unfold extract_build_info.
change (gate_file "gate-3-build.txt") with build_file. rewrite Hf, Hd.
destruct (_ && _); eauto.
Qed.

Lemma tests_without_failed content :
  fs w !! tests_file = Some content -> is_dotnet self = true ->
  has_count (u "Passed:") content -> has_count (u "Total:") content ->
  ~ has_count (u "Failed:") content ->
  exists t, extract_test_results self w = Some t /\
            failed t = u "0" /\ status t = PASS.
Proof.
intros Hf Hd Hp Ht Hn. unfold extract_test_results.
change (gate_file "gate-5-tests.txt") with tests_file. rewrite Hf, Hd.
apply search_labelled_count in Hp as [m Hm]. apply search_labelled_count in Ht as [tm Htm].
fold re_passed in Hm. fold re_total in Htm. rewrite Hm, Htm.
pose proof (search_labelled_count (u "Failed:") content) as Hfail.
fold re_failed in Hfail.
destruct (search no_flags re_failed content) as [fm|].
- destruct Hn. apply Hfail. eauto.
- eexists. split; [reflexivity|]. split; reflexivity.
Qed.
End Absence.

(** C4, as stated, fails twice.  When no test count is recognised, the
    actual cell of the row "Test Failures" is the value "0", not a
    placeholder; and a security report in which nothing is recognised is
    not represented as absent: the row "Vulnerabilities" shows the count
    "0" with the status pass. *)
Lemma C4_counterexample :
  @extract_test_results ascii_runtime (dotnet 1) world_nothing_found = None /\
  ~ @has_severity_token ascii_runtime report_quiet /\
  ~ occurs (u "0 vulnerabilities") report_quiet /\
  ~ occurs (u "no vulnerable packages") (@lower ascii_runtime report_quiet) /\
  exists rows r2 r5,
    @summary_rows ascii_runtime (dotnet 1) world_nothing_found = Ok rows /\
    rows !! 1%nat = Some r2 /\ metric r2 = u "Test Failures" /\
    actual r2 = u "0" /\ is_placeholder (actual r2) = false /\
    rows !! 4%nat = Some r5 /\ metric r5 = u "Vulnerabilities" /\
    actual r5 = u "0" /\ row_status r5 = PASS.
Proof.
split; [vm_compute; reflexivity|].
split; [apply search_severity_none; vm_compute; reflexivity|].
split; [intros Ho; apply contains_spec in Ho; vm_compute in Ho; discriminate|].
split; [intros Ho; apply contains_spec in Ho; vm_compute in Ho; discriminate|].
eexists. eexists. eexists. split; [vm_compute; reflexivity|].
split; [reflexivity|]. repeat split.
Qed.

(** C4, amended: a metric is absent exactly in these cases: its artifact
    is missing; the test log lacks a count of its variant; the coverage
    report has neither the phrase nor a table row; the dotnet build log
    lacks one of its two counts.  An absent metric is shown as an
    unresolved placeholder in the status cell of each of its rows and in
    the actual cell of the rows "Tests Passing", "Code Coverage" and
    "Vulnerabilities", while the actual cell of "Test Failures" and of
    "Build Warnings" is then "0"; and the status placeholder appears in
    no other case.  Other misses are given values: a security report
    without a severity token shows the count "0" with the status pass,
    the build log of another variant always a status, a dotnet test log
    without "Failed: N" zero failures.  The table is produced whenever
    the coverage is absent, and it is rendered from these rows. *)
Theorem C4_absent_metrics_in_summary `{Runtime} self w :
  (extract_test_results self w = None <-> tests_missed self w) /\
  (extract_coverage w = None <-> coverage_missed w) /\
  (extract_build_info self w = None <-> build_missed self w) /\
  (extract_vulnerabilities w = None <-> vulnerabilities_missed w) /\
  (coverage_missed w -> exists rows, summary_rows self w = Ok rows) /\
  (forall rows, summary_rows self w = Ok rows ->
     generate_stage_summary self w =
       Ok (summary_header ++ join_lines (List.map render_row rows)) /\
     exists r1 r2 r3 r4 r5 r6,
       rows = [r1; r2; r3; r4; r5; r6] /\
       List.map metric rows =
         [u "Tests Passing"; u "Test Failures"; u "Code Coverage";
          u "Build Warnings"; u "Vulnerabilities"; u "Deliverables"] /\
       (tests_missed self w ->
          actual r1 = u "[N/N]" /\ row_status r1 = u "[STATUS]" /\
          actual r2 = u "0" /\ row_status r2 = u "[STATUS]") /\
       (coverage_missed w ->
          actual r3 = u "[XX%]" /\ row_status r3 = u "[STATUS]") /\
       (build_missed self w ->
          actual r4 = u "0" /\ row_status r4 = u "[STATUS]") /\
       (vulnerabilities_missed w ->
          actual r5 = u "[N]" /\ row_status r5 = u "[STATUS]") /\
       (row_status r1 = u "[STATUS]" -> tests_missed self w) /\
       (row_status r2 = u "[STATUS]" -> tests_missed self w) /\
       (row_status r3 = u "[STATUS]" -> coverage_missed w) /\
       (row_status r4 = u "[STATUS]" -> build_missed self w) /\
       (row_status r5 = u "[STATUS]" -> vulnerabilities_missed w) /\
       (forall content, fs w !! security_file = Some content ->
          ~ has_severity_token content ->
          actual r5 = u "0" /\ row_status r5 = PASS) /\
       (forall content, fs w !! build_file = Some content ->
          is_dotnet self = false ->
          actual r4 = u "0" /\ (row_status r4 = PASS \/ row_status r4 = FAIL)) /\
       (forall content, fs w !! tests_file = Some content ->
          is_dotnet self = true ->
          has_count (u "Passed:") content -> has_count (u "Total:") content ->
          ~ has_count (u "Failed:") content ->
          actual r2 = u "0" /\ row_status r2 = PASS)).
Proof.
destruct status_texts_distinct as (Hpf & Hps & Hfs).
pose proof (extract_test_results_none self w) as Nt.
pose proof (extract_coverage_none w) as Nc.
pose proof (extract_build_info_none self w) as Nb.
pose proof (extract_vulnerabilities_none w) as Nv.
split; [exact Nt|]. split; [exact Nc|]. split; [exact Nb|]. split; [exact Nv|].
split.
- intros E. apply Nc in E. unfold summary_rows. rewrite E. simpl. eauto.
- intros rows Hrows. split.
  + unfold generate_stage_summary. rewrite Hrows. reflexivity.
  + pose proof (test_status_cases self w) as St.
    pose proof (build_status_cases self w) as Sb.
    pose proof (coverage_status_cases (extract_coverage w)) as Sc.
    pose proof (extract_coverage_truthy w) as Tc.
    pose proof (extract_vulnerabilities_nonempty w) as Sv.
    revert Hrows. unfold summary_rows.
    destruct (coverage_status (extract_coverage w)) as [cs|e] eqn:Ecs;
      [|discriminate].
    unfold bind. intros Hrows%Ok_inj. subst rows.
    do 6 eexists. split; [reflexivity|]. split; [reflexivity|].
    cbn [actual row_status].
    split; [|split; [|split; [|split; [|split; [|split; [|split; [|split;
      [|split; [|split; [|split]]]]]]]]]].
    * intros E. apply Nt in E. rewrite E. auto.
    * intros E. apply Nc in E. rewrite E in Ecs |- *. simpl in Ecs.
      injection Ecs as <-. auto.
    * intros E. apply Nb in E. rewrite E. auto.
    * intros E. apply Nv in E. rewrite E. auto.
    * intros E. apply Nt. destruct (extract_test_results self w) as [t|];
        [|reflexivity].
      destruct (St t eq_refl) as [Hx|Hx]; rewrite Hx in E;
        [destruct (Hps E)|destruct (Hfs E)].
    * intros E. apply Nt. destruct (extract_test_results self w) as [t|];
        [|reflexivity].
      destruct (St t eq_refl) as [Hx|Hx]; rewrite Hx in E;
        [destruct (Hps E)|destruct (Hfs E)].
    * intros E. apply Nc. destruct (extract_coverage w) as [c|]; [|reflexivity].
      specialize (Sc (Tc c eq_refl)).
      destruct (py_float c) as [f|e]; [|discriminate].
      injection Sc as ->. destruct (float_ge f 90);
        [destruct (Hps E)|destruct (Hfs E)].
    * intros E. apply Nb. destruct (extract_build_info self w) as [b|];
        [|reflexivity].
      destruct (Sb b eq_refl) as [Hx|Hx]; rewrite Hx in E;
        [destruct (Hps E)|destruct (Hfs E)].
    * intros E. apply Nv. destruct (extract_vulnerabilities w) as [v|];
        [|reflexivity].
      specialize (Sv v eq_refl).
      destruct (bool_decide (Some v = Some (u "0"))); [destruct (Hps E)|].
      destruct v; [contradiction|]. cbn [truthy] in E. destruct (Hfs E).
    * intros content Hf Hn.
      rewrite (extract_vulnerabilities_no_token w content Hf Hn).
      split; reflexivity.
    * intros content Hf Hd.
      destruct (build_info_other self w content Hf Hd) as (st & -> & Hst).
      cbn [warnings build_status]. auto.
    * intros content Hf Hd Hp Ht Hn.
      destruct (tests_without_failed self w content Hf Hd Hp Ht Hn)
        as (t & -> & -> & ->). auto.
Qed.

Lemma C4_witness :
  @tests_missed ascii_runtime (dotnet 1) world_nothing_found /\
  @coverage_missed ascii_runtime world_nothing_found /\
  exists rows,
    @summary_rows ascii_runtime (dotnet 1) world_nothing_found = Ok rows /\
    List.map actual rows = [u "[N/N]"; u "0"; u "[XX%]"; u "0"; u "0"; u "[N/N]"] /\
    List.map row_status rows =
      [u "[STATUS]"; u "[STATUS]"; u "[STATUS]"; u "[STATUS]"; PASS; u "[✅/❌]"].
Proof.
destruct (@C4_absent_metrics_in_summary ascii_runtime (dotnet 1) world_nothing_found)
  as (Nt & Nc & _ & _ & Hrows & _).
assert (Ht : @tests_missed ascii_runtime (dotnet 1) world_nothing_found)
  by (apply Nt; vm_compute; reflexivity).
assert (Hc : @coverage_missed ascii_runtime world_nothing_found)
  by (apply Nc; vm_compute; reflexivity).
split; [exact Ht|]. split; [exact Hc|].
destruct (Hrows Hc) as [rows Hr]. exists rows. split; [exact Hr|].
vm_compute in Hr. injection Hr as <-. split; vm_compute; reflexivity.
Defined.

(** ** The coverage status *)

(** C5, as stated, fails: a coverage of 89.99999999999999999 is below
    90, and the status of its row is pass, since [float] rounds the text
    to 90.0 before the comparison. *)
Lemma C5_counterexample :
  @extract_coverage ascii_runtime (world_coverage report_just_below)
    = Some (u "89.99999999999999999") /\
  @parse_decimal ascii_runtime (u "89.99999999999999999")
    = Some (8999999999999999999%N, 17%nat) /\
  8999999999999999999 < 90 * 10 ^ 17 /\
  exists rows r,
    @summary_rows ascii_runtime (dotnet 1) (world_coverage report_just_below) = Ok rows /\
    rows !! 2%nat = Some r /\ metric r = u "Code Coverage" /\
    actual r = u "89.99999999999999999%" /\ row_status r = PASS.
Proof.
split; [vm_compute; reflexivity|]. split; [vm_compute; reflexivity|].
split; [reflexivity|].
eexists. eexists. split; [vm_compute; reflexivity|].
split; [reflexivity|]. repeat split.
Qed.

(** C5, amended: the status of the coverage row is the placeholder
    exactly when no coverage was extracted.  For an extracted coverage
    that denotes the decimal [n / 10^k] it is pass exactly when
    [n / 10^k >= 90 - 2^-47] and fail exactly when [n / 10^k] is below
    that: the text is rounded to binary64 before it is compared with 90,
    so every value from 90 on passes, and so do the values below 90 that
    round to 90.0.  The table is produced unless the extracted text is
    not a decimal; then [ValueError] is raised. *)
Theorem C5_coverage_status_threshold `{Runtime} self w :
  (forall e, summary_rows self w = Raise e <->
     e = ValueError /\
     exists c, extract_coverage w = Some c /\ parse_decimal c = None) /\
  (forall rows, summary_rows self w = Ok rows ->
     exists r, rows !! 2%nat = Some r /\ metric r = u "Code Coverage" /\
       (row_status r = PASS <->
          exists c n k, extract_coverage w = Some c /\
                        parse_decimal c = Some (n, k) /\
                        (90 * 2 ^ 47 - 1) * 10 ^ Z.of_nat k <= Z.of_N n * 2 ^ 47) /\
       (row_status r = FAIL <->
          exists c n k, extract_coverage w = Some c /\
                        parse_decimal c = Some (n, k) /\
                        Z.of_N n * 2 ^ 47 < (90 * 2 ^ 47 - 1) * 10 ^ Z.of_nat k) /\
       (row_status r = u "[STATUS]" <-> extract_coverage w = None) /\
       (forall c n k, extract_coverage w = Some c ->
          parse_decimal c = Some (n, k) ->
          90 * 10 ^ Z.of_nat k <= Z.of_N n -> row_status r = PASS)).
Proof.
destruct status_texts_distinct as (Hpf & Hps & Hfs).
pose proof (coverage_status_cases (extract_coverage w)) as Hc.
pose proof (extract_coverage_truthy w) as Ht.
unfold summary_rows.
destruct (extract_coverage w) as [c|].
- specialize (Hc (Ht c eq_refl)). unfold py_float in Hc.
  destruct (parse_decimal c) as [[n k]|] eqn:Ep.
  + pose proof (float_ge_90 (Z.of_N n) k ltac:(lia)) as Hf.
    pose proof (Z.pow_pos_nonneg 10 (Z.of_nat k) ltac:(lia) ltac:(lia)) as Hd.
    assert (E47 : 2 ^ 47 = 140737488355328) by reflexivity.
    rewrite Hc. unfold bind. split.
    * intros e. split; [discriminate|].
      intros (_ & c' & [= <-] & Hx). rewrite Ep in Hx. discriminate.
    * intros rows Hrows%Ok_inj. subst rows.
      eexists. split; [reflexivity|]. split; [reflexivity|].
      cbn [row_status]. destruct (float_ge (round_binary64 (Z.of_N n) k) 90) eqn:E.
      -- split; [|split; [|split]].
         ++ split; [|reflexivity]. intros _. exists c, n, k.
            split; [reflexivity|]. split; [exact Ep|]. apply Hf. reflexivity.
         ++ split; [intros Hx; destruct (Hpf Hx)|].
            intros (c' & n' & k' & [= <-] & Hp' & Hlt).
            rewrite Ep in Hp'. injection Hp' as <- <-.
            apply proj1 in Hf. specialize (Hf eq_refl). lia.
         ++ split; [intros Hx; destruct (Hps Hx)|discriminate].
         ++ intros; reflexivity.
      -- split; [|split; [|split]].
         ++ split; [intros Hx; symmetry in Hx; destruct (Hpf Hx)|].
            intros (c' & n' & k' & [= <-] & Hp' & Hge).
            rewrite Ep in Hp'. injection Hp' as <- <-.
            apply Hf in Hge. discriminate.
         ++ split; [|reflexivity]. intros _. exists c, n, k.
            split; [reflexivity|]. split; [exact Ep|].
            destruct (Z.lt_ge_cases (Z.of_N n * 2 ^ 47)
                        ((90 * 2 ^ 47 - 1) * 10 ^ Z.of_nat k)) as [Hlt|Hge];
              [exact Hlt|].
            apply Hf in Hge. discriminate.
         ++ split; [intros Hx; destruct (Hfs Hx)|discriminate].
         ++ intros c' n' k' [= <-] Hp' Hge.
            rewrite Ep in Hp'. injection Hp' as <- <-.
            assert (Hx : false = true); [|discriminate].
            apply Hf. rewrite E47. nia.
  + rewrite Hc. unfold bind. split.
    * intros e. split.
      -- intros [= <-]. split; [reflexivity|]. exists c. auto.
      -- intros (-> & _). reflexivity.
    * discriminate.
- rewrite Hc. unfold bind. split.
  + intros e. split; [discriminate|]. intros (_ & c' & ? & _). discriminate.
  + intros rows Hrows%Ok_inj. subst rows.
    eexists. split; [reflexivity|]. split; [reflexivity|].
    cbn [row_status]. split; [|split; [|split]].
    * split; [intros Hx; symmetry in Hx; destruct (Hps Hx)|].
      intros (c' & n' & k' & ? & _). discriminate.
    * split; [intros Hx; symmetry in Hx; destruct (Hfs Hx)|].
      intros (c' & n' & k' & ? & _). discriminate.
    * split; reflexivity.
    * intros; discriminate.
Qed.

Lemma C5_witness :
  exists rows r,
    @summary_rows ascii_runtime (dotnet 1) (world_coverage report_92_5) = Ok rows /\
    rows !! 2%nat = Some r /\
    @parse_decimal ascii_runtime (u "92.5") = Some (925%N, 1%nat) /\
    row_status r = PASS.
Proof.
destruct (@summary_rows ascii_runtime (dotnet 1) (world_coverage report_92_5))
  as [rows|e] eqn:Es; [|vm_compute in Es; discriminate].
destruct (proj2 (@C5_coverage_status_threshold ascii_runtime (dotnet 1)
                   (world_coverage report_92_5)) rows Es)
  as (r & Hr & _ & _ & _ & _ & Hpass).
exists rows, r. split; [reflexivity|]. split; [exact Hr|].
split; [vm_compute; reflexivity|].
apply (Hpass (u "92.5") 925%N 1%nat); [vm_compute; reflexivity..|].
vm_compute. discriminate.
Defined.

(** ** The command line, exactly *)

Section Command.
Context `{Runtime}.
Variable isdigit : text -> bool.

Lemma detection_spec w tech :
  (if path_exists w "package.json" then Some (u "typescript")
   else if negb (bool_decide (glob w [] "" ".sln" = []))
           || negb (bool_decide (glob_rec w ["src"%string] ".csproj" = []))
        then Some (u "dotnet")
   else None) = Some tech ->
  detected_stack w tech.
Proof.
unfold detected_stack. destruct (path_exists w "package.json").
- intros [= <-]. left. auto.
- pose proof (nonempty_In (glob w [] "" ".sln")) as H1.
  pose proof (nonempty_In (glob_rec w ["src"%string] ".csproj")) as H2.
  setoid_rewrite glob_spec in H1. unfold glob_rec in H2.
  setoid_rewrite filter_In in H2. setoid_rewrite descendants_spec in H2.
  setoid_rewrite matches_suffix in H1. setoid_rewrite matches_suffix in H2.
  destruct (bool_decide (glob w [] "" ".sln" = [])) eqn:E1.
  + destruct (bool_decide (glob_rec w ["src"%string] ".csproj" = [])) eqn:E2;
      [discriminate|].
    apply bool_decide_eq_false in E2. intros [= <-]. right.
    split; [reflexivity|]. split; [reflexivity|]. right. apply H2. exact E2.
  + apply bool_decide_eq_false in E1. intros [= <-]. right.
    split; [reflexivity|]. split; [reflexivity|]. left. apply H1. exact E1.
Qed.
End Command.

Lemma tech_argument_unique args n1 n2 :
  tech_argument args n1 -> tech_argument args n2 -> n1 = n2.
Proof.
intros (pre1 & post1 & E1 & Hl1) (pre2 & post2 & E2 & Hl2).
rewrite E1 in E2. apply app_eq_app in E2 as [l [[_ E]|[_ E]]].
- destruct l as [|x l]; [injection E as -> _; reflexivity|].
  injection E as _ E. destruct Hl2. exists l, n1, post1. exact E.
- destruct l as [|x l]; [injection E as -> _; reflexivity|].
  injection E as _ E. destruct Hl1. exists l, n2, post2. exact E.
Qed.

(** X12: the exit code of the command.  With "--help" anywhere on the
    command line it is 0 and nothing is done; without it and without an
    argument that is read as a stage number it is 2.  Whenever the
    command returns, the code is 0 or 2, and with 2 no file has changed.
    It returns 0 without "--help" only by a run of the generator that
    returned 0, and this run has for its stage number the value of the
    last argument of digits, which is greater than 0 (0 is refused like a
    missing number), and for its tech stack the lower-cased argument
    after the last "--tech" that has one, or, if there is none or it is
    empty, the stack that the files of the project show; the stack is
    "dotnet" or "typescript", so any other value after "--tech" gives
    the code 2. *)
Theorem main_exit_codes `{Runtime} isdigit argv w :
  (in_argv (u "--help") argv = true -> main isdigit argv w = Ok (0, w)) /\
  (in_argv (u "--help") argv = false -> ~ has_stage_arg isdigit (tl argv) ->
   main isdigit argv w = Ok (2, w)) /\
  (forall next, in_argv (u "--help") argv = false ->
     tech_argument (tl argv) next -> lower next <> [] ->
     lower next <> u "dotnet" -> lower next <> u "typescript" ->
     forall code w', main isdigit argv w = Ok (code, w') -> code = 2 /\ w' = w) /\
  (forall code w', main isdigit argv w = Ok (code, w') ->
     (code = 2 /\ w' = w) \/
     (code = 0 /\ in_argv (u "--help") argv = true /\ w' = w) \/
     (code = 0 /\ in_argv (u "--help") argv = false /\
      exists arg n tech,
        stage_argument isdigit (tl argv) arg /\ py_int arg = Some n /\ 0 < n /\
        ((exists next, tech_argument (tl argv) next /\ lower next = tech /\
                       tech <> []) \/
         ((~ has_tech_pair (tl argv) \/
           exists next, tech_argument (tl argv) next /\ lower next = []) /\
          detected_stack w tech)) /\
        (tech = u "dotnet" \/ tech = u "typescript") /\
        check_requirements w = true /\
        Generator.run {| stage_number := n; tech_stack := tech |} w = Ok (0, w'))).
Proof.
assert (Hmain : forall code w', main isdigit argv w = Ok (code, w') ->
     (code = 2 /\ w' = w) \/
     (code = 0 /\ in_argv (u "--help") argv = true /\ w' = w) \/
     (code = 0 /\ in_argv (u "--help") argv = false /\
      exists arg n tech,
        stage_argument isdigit (tl argv) arg /\ py_int arg = Some n /\ 0 < n /\
        ((exists next, tech_argument (tl argv) next /\ lower next = tech /\
                       tech <> []) \/
         ((~ has_tech_pair (tl argv) \/
           exists next, tech_argument (tl argv) next /\ lower next = []) /\
          detected_stack w tech)) /\
        (tech = u "dotnet" \/ tech = u "typescript") /\
        check_requirements w = true /\
        Generator.run {| stage_number := n; tech_stack := tech |} w = Ok (0, w'))).
{ unfold main. destruct (in_argv (u "--help") argv) eqn:Eh.
  - rewrite orb_true_r. intros code w' [= <- <-]. auto.
  - rewrite orb_false_r.
    destruct (length argv <? 2)%nat; [intros code w' [= <- <-]; auto|].
    destruct (parse_args isdigit (tl argv) None None) as [[sn ts]|e] eqn:Ep;
      [|discriminate].
    apply parse_args_spec in Ep as [Hs Ht]. unfold bind.
    destruct Hs as [[_ ->]|(arg & m & Harg & Hi & ->)];
      [intros code w' [= <- <-]; auto|].
    pose proof (py_int_nonneg _ _ Hi) as Hn.
    destruct m as [|p|p]; [intros code w' [= <- <-]; auto| |lia].
    assert (Hdet : forall tech,
              (if truthy ts then ts
               else if path_exists w "package.json" then Some (u "typescript")
               else if negb (bool_decide (glob w [] "" ".sln" = []))
                       || negb (bool_decide
                                  (glob_rec w ["src"%string] ".csproj" = []))
                    then Some (u "dotnet")
               else None) = Some tech ->
              (exists next, tech_argument (tl argv) next /\ lower next = tech /\
                            tech <> []) \/
              ((~ has_tech_pair (tl argv) \/
                exists next, tech_argument (tl argv) next /\ lower next = []) /\
               detected_stack w tech)).
    { intros tech. destruct Ht as [[Hno ->]|(next & Hnext & ->)].
      - cbn [truthy]. intros Hd. right. split; [left; exact Hno|].
        apply detection_spec, Hd.
      - destruct (lower next) as [|c l] eqn:El.
        + cbn [truthy]. intros Hd. right. split; [right; eauto|].
          apply detection_spec, Hd.
        + cbn [truthy]. intros [= <-]. left. exists next.
          split; [exact Hnext|]. split; [exact El|discriminate]. }
    destruct (if truthy ts then ts else _) as [tech|];
      [|intros code w' [= <- <-]; auto].
    specialize (Hdet tech eq_refl).
    unfold text_eqb.
    destruct (bool_decide (tech = u "dotnet")) eqn:E1;
      [|destruct (bool_decide (tech = u "typescript")) eqn:E2];
      cbn [orb negb];
      [apply bool_decide_eq_true in E1|apply bool_decide_eq_true in E2
      |intros code w' [= <- <-]; auto];
      (intros code w' Hrun;
       destruct (run_codes _ _ _ _ Hrun) as [[-> ->]|[-> Hc]]; [auto|];
       right; right; split; [reflexivity|]; split; [reflexivity|];
       exists arg, (Z.pos p), tech; repeat split; auto; lia). }
split; [|split; [|split; [|exact Hmain]]].
- intros Eh. unfold main. rewrite Eh, orb_true_r. reflexivity.
- intros Eh Hno. unfold main. rewrite Eh, orb_false_r.
  destruct (length argv <? 2)%nat; [reflexivity|].
  destruct (parse_args_no_stage isdigit (tl argv) None None Hno) as [ts' ->].
  reflexivity.
- intros next Eh Hnext Hne Hd Hts code w' Hrun.
  destruct (Hmain code w' Hrun)
    as [Hx|[(_ & Hx & _)|(_ & _ & arg & n & tech & _ & _ & _ & Htech & Hval & _)]];
    [exact Hx|congruence|].
  exfalso. destruct Htech as [(next' & Hn' & El & _)|[[Hno|(next' & Hn' & El)] _]].
  + rewrite (tech_argument_unique _ _ _ Hn' Hnext) in El.
    destruct Hval; congruence.
  + destruct Hnext as (pre & post & E & _). apply Hno. exists pre, next, post.
    exact E.
  + rewrite (tech_argument_unique _ _ _ Hn' Hnext) in El. congruence.
Qed.

Lemma main_exit_codes_witness :
  (exists w',
    @main ascii_runtime ascii_isdigit argv_twice world_ready = Ok (0, w') /\
    @Generator.run ascii_runtime (dotnet 7) world_ready = Ok (0, w')) /\
  @stage_argument ascii_isdigit (tl argv_twice) (u "7") /\
  tech_argument (tl argv_twice) (u "DotNet") /\
  @main ascii_runtime ascii_isdigit argv_java world_ready = Ok (2, world_ready) /\
  exit_code (@main ascii_runtime ascii_isdigit
               [u "generate-proof.py"; u "0"; u "--tech"; u "dotnet"] world_ready) = 2.
Proof.
assert (Hstage : @stage_argument ascii_isdigit (tl argv_twice) (u "7")).
{ exists [u "3"; u "--tech"; u "typescript"], [u "--tech"; u "DotNet"].
  split; [reflexivity|]. split; [discriminate|]. split; [reflexivity|].
  intros (a & Hin & Hne & Hd). simpl in Hin.
  destruct Hin as [<-|[<-|[]]]; [congruence|vm_compute in Hd; discriminate]. }
assert (Htech : tech_argument (tl argv_twice) (u "DotNet")).
{ exists [u "3"; u "--tech"; u "typescript"; u "7"], [].
  split; [reflexivity|]. intros (p & n & q & E).
  apply (f_equal (@List.length text)) in E. rewrite length_app in E.
  simpl in E. lia. }
split; [|split; [exact Hstage|split; [exact Htech|split]]].
- destruct (@main ascii_runtime ascii_isdigit argv_twice world_ready)
    as [[code w']|e] eqn:E; [|vm_compute in E; discriminate].
  assert (Hc : code = 0) by (vm_compute in E; congruence). subst code.
  exists w'. split; [reflexivity|].
  destruct (proj2 (proj2 (proj2 (@main_exit_codes ascii_runtime ascii_isdigit
                                   argv_twice world_ready))) 0 w' E)
    as [[Hx _]|[(_ & Hx & _)|(_ & _ & arg & n & tech & _ & _ & _ & _ & _ & _ & Hrun)]];
    [discriminate|vm_compute in Hx; discriminate|].
  vm_compute in E. vm_compute. exact E.
- vm_compute. reflexivity.
- vm_compute. reflexivity.
Defined.
